(** * odmpy: EPUB assembly for Libby ebook and magazine loans

    A shallow embedding of [odmpy/processing/ebook.py] and the properties
    of its content selector, spine orderer, content patcher, navigation
    synthesizer and manifest builder.

    Python [str] values are modelled as [string]; every [ascii] stands for
    one code point below 256.  A Python exception is modelled by [None]. *)

From Stdlib Require Import String Ascii List ZArith Bool Arith Lia.
From Stdlib Require Import Permutation Sorted DecimalString.
Import ListNotations.

Local Open Scope string_scope.
Local Open Scope list_scope.

(* ================================================================== *)
(** * Part I: the model *)
(* ================================================================== *)

(** ** Python built-ins used by the module *)

Module Py.

(** [s.startswith(p)] *)
Fixpoint startswith (s p : string) {struct p} : bool :=
  match p with
  | EmptyString => true
  | String a p' =>
      match s with
      | EmptyString => false
      | String b s' => Ascii.eqb a b && startswith s' p'
      end
  end.

(** [s.endswith(p)] *)
Definition endswith (s p : string) : bool :=
  let n := String.length s in
  let m := String.length p in
  (m <=? n)%nat && String.eqb (String.substring (n - m) m s) p.

(** [s[1:]] *)
Definition tail (s : string) : string :=
  match s with
  | EmptyString => EmptyString
  | String _ s' => s'
  end.

(** [x in l] for a list of strings *)
Definition mem (x : string) (l : list string) : bool :=
  existsb (String.eqb x) l.

(** [l.index(x)]: the position of the first element equal to [x];
    [None] stands for [ValueError]. *)
Fixpoint index (l : list string) (x : string) : option nat :=
  match l with
  | [] => None
  | y :: l' =>
      if String.eqb y x then Some 0%nat
      else match index l' x with
           | Some i => Some (S i)
           | None => None
           end
  end.

(** [s.split(sep)[0]] for a one-character separator: the text before the
    first occurrence of [sep], or all of [s]. *)
Fixpoint split_head (sep : ascii) (s : string) : string :=
  match s with
  | EmptyString => EmptyString
  | String c s' =>
      if Ascii.eqb c sep then EmptyString else String c (split_head sep s')
  end.

(** [functools.cmp_to_key]: the key objects compare with
    [K(a) < K(b)  iff  cmp(a, b) < 0]. *)
Definition cmp_to_key {A : Type} (cmp : A -> A -> Z) (a b : A) : bool :=
  (cmp a b <? 0)%Z.

(** [sorted(l, key=...)] compares keys with [<] only and is stable.  Each
    element, taken from left to right, is inserted into the sorted prefix
    in front of the first element it is smaller than, so behind every
    element that it is not smaller than. *)
Fixpoint insort {A : Type} (lt : A -> A -> bool) (x : A) (l : list A) : list A :=
  match l with
  | [] => [x]
  | y :: l' => if lt x y then x :: l else y :: insort lt x l'
  end.

Definition sorted {A : Type} (lt : A -> A -> bool) (l : list A) : list A :=
  fold_left (fun acc x => insort lt x acc) l [].

(** [x] may stand before [y] in a sorted list: [y] is not smaller than [x]. *)
Definition not_after {A : Type} (lt : A -> A -> bool) (x y : A) : Prop :=
  lt y x = false.

(** [c.isdigit()] on the code points below 256: the ASCII digits and the
    superscript digits U+00B2, U+00B3 and U+00B9. *)
Definition isdigit (c : ascii) : bool :=
  let n := nat_of_ascii c in
  (((48 <=? n) && (n <=? 57)) || (n =? 178) || (n =? 179) || (n =? 185))%nat.

(** Python truthiness of an optional string: [None] and [""] are false. *)
Definition truthy (o : option string) : bool :=
  match o with
  | None => false
  | Some EmptyString => false
  | Some _ => true
  end.

End Py.

(** ** Regular expressions

    The part of Python's [re] that the module uses: a backtracking matcher
    in which the alternatives of a repetition are tried in the order of
    their priority, greedy ones longest first and lazy ones shortest first. *)

Module Re.

Inductive regex :=
| Eps                                 (* the empty pattern *)
| Chr (c : ascii)                     (* one literal character *)
| Any                                 (* [.]: any character but a newline *)
| Cls (p : ascii -> bool)             (* a class, such as [\s] or [[^{}]] *)
| Seq (r1 r2 : regex)                 (* concatenation *)
| Star (greedy : bool) (r : regex)    (* [r*] and [r*?] *)
| Group (n : nat) (r : regex).        (* the capturing group number [n] *)

(** A literal text *)
Fixpoint lit (s : string) : regex :=
  match s with
  | EmptyString => Eps
  | String c s' => Seq (Chr c) (lit s')
  end.

(** [r+] and [r+?] *)
Definition Plus (greedy : bool) (r : regex) : regex := Seq r (Star greedy r).

(** [\s] on the code points below 256 *)
Definition is_space (c : ascii) : bool :=
  let n := nat_of_ascii c in
  (((9 <=? n) && (n <=? 13)) || ((28 <=? n) && (n <=? 32))
   || (n =? 133) || (n =? 160))%nat.

Definition is_newline (c : ascii) : bool := (nat_of_ascii c =? 10)%nat.

(** The groups matched so far, the latest first *)
Definition groups := list (nat * string).

(** [m.group(n)], and the empty text for a group that did not take part *)
Fixpoint group (n : nat) (g : groups) : string :=
  match g with
  | [] => EmptyString
  | (k, v) :: g' => if (k =? n)%nat then v else group n g'
  end.

(** What was read between the text [s] and its suffix [s'] *)
Definition consumed (s s' : string) : string :=
  String.substring 0 (String.length s - String.length s') s.

Section Matcher.

Context {T : Type}.

(** The iterations of a repetition.  [step] matches the body once; an
    iteration has to consume a character. *)
Fixpoint star_loop
    (step : string -> groups -> (string -> groups -> option T) -> option T)
    (greedy : bool) (k : string -> groups -> option T)
    (fuel : nat) (s : string) (g : groups) : option T :=
  match fuel with
  | O => k s g
  | S fuel' =>
      let again :=
        step s g (fun s' g' =>
          if (String.length s' <? String.length s)%nat
          then star_loop step greedy k fuel' s' g'
          else None) in
      if greedy then
        match again with
        | Some x => Some x
        | None => k s g
        end
      else
        match k s g with
        | Some x => Some x
        | None => again
        end
  end.

(** [matches r s g k]: match [r] at the start of [s] and hand the rest of
    the text and the groups to [k]; when [k] fails, try the next
    alternative. *)
Fixpoint matches (r : regex) (s : string) (g : groups)
    (k : string -> groups -> option T) {struct r} : option T :=
  match r with
  | Eps => k s g
  | Chr c =>
      match s with
      | String a s' => if Ascii.eqb a c then k s' g else None
      | EmptyString => None
      end
  | Any =>
      match s with
      | String a s' => if is_newline a then None else k s' g
      | EmptyString => None
      end
  | Cls p =>
      match s with
      | String a s' => if p a then k s' g else None
      | EmptyString => None
      end
  | Seq r1 r2 => matches r1 s g (fun s' g' => matches r2 s' g' k)
  | Star greedy r' => star_loop (matches r') greedy k (String.length s) s g
  | Group n r' => matches r' s g (fun s' g' => k s' ((n, consumed s s') :: g'))
  end.

(** A matcher reaches its continuation only with a suffix of the text, and
    depends on the continuation only there. *)
Definition via_suffix
    (step : string -> groups -> (string -> groups -> option T) -> option T)
    : Prop :=
  forall s g k x,
    step s g k = Some x ->
    exists s' g', (String.length s' <= String.length s)%nat /\ k s' g' = Some x.

Definition continuation_ext
    (step : string -> groups -> (string -> groups -> option T) -> option T)
    : Prop :=
  forall s g k1 k2,
    (forall s' g', (String.length s' <= String.length s)%nat -> k1 s' g' = k2 s' g') ->
    step s g k1 = step s g k2.

End Matcher.

(** A match at the start of [s]: the text behind the match and the groups *)
Definition match_at (r : regex) (s : string) : option (string * groups) :=
  matches r s [] (fun s' g => Some (s', g)).

(** [pattern.search(s)]: the leftmost match *)
Fixpoint search (r : regex) (s : string) : option (string * groups) :=
  match match_at r s with
  | Some m => Some m
  | None =>
      match s with
      | EmptyString => None
      | String _ s' => search r s'
      end
  end.

(** [pattern.sub(repl, s)]: every match, from left to right, is replaced by
    the expansion [repl] of the template; the search goes on behind the
    match, and one character further behind an empty match. *)
Fixpoint sub_loop (fuel : nat) (r : regex) (repl : groups -> string) (s : string)
    : string :=
  match fuel with
  | O => s
  | S fuel' =>
      match match_at r s with
      | Some (s', g) =>
          if (String.length s' <? String.length s)%nat
          then repl g ++ sub_loop fuel' r repl s'
          else
            match s with
            | EmptyString => repl g
            | String c t => repl g ++ String c (sub_loop fuel' r repl t)
            end
      | None =>
          match s with
          | EmptyString => EmptyString
          | String c t => String c (sub_loop fuel' r repl t)
          end
      end
  end.

Definition sub (r : regex) (repl : groups -> string) (s : string) : string :=
  sub_loop (S (String.length s)) r repl s.

End Re.

(** ** Parsed markup

    The part of BeautifulSoup that the module uses.  A document is the list
    [soup.contents]; a tag has a name, its attributes in the order of the
    [attrs] dictionary, and its contents. *)

Module Bs4.

Definition attrs := list (string * string).

(** The subclasses of [NavigableString] other than [Doctype] *)
Inductive string_kind := Text | Comment | CData | ProcessingInstruction | Declaration.

#[warnings="-register-all"]
Inductive node :=
| Tag (name : string) (a : attrs) (contents : list node)
| Doctype (s : string)
| Str (k : string_kind) (s : string).

Definition soup := list node.

(** [tag.get(key)] *)
Fixpoint get (a : attrs) (key : string) : option string :=
  match a with
  | [] => None
  | (k, v) :: a' => if String.eqb k key then Some v else get a' key
  end.

(** [tag[key] = value]: the value of an existing key is replaced in its
    place, a new key goes to the end. *)
Fixpoint set (a : attrs) (key value : string) : attrs :=
  match a with
  | [] => [(key, value)]
  | (k, v) :: a' =>
      if String.eqb k key then (k, value) :: a' else (k, v) :: set a' key value
  end.

(** [del tag[key]] *)
Definition del (a : attrs) (key : string) : attrs :=
  filter (fun kv => negb (String.eqb (fst kv) key)) a.

(** [if not tag.get(key): tag[key] = value] *)
Definition set_default (a : attrs) (key value : string) : attrs :=
  if Py.truthy (get a key) then a else set a key value.

(** The name and the attributes of a tag, which the loops over
    [soup.find_all(...)] change in place. *)
Definition head := (string * attrs)%type.

(** [for tag in soup.find_all(...): ...] with a loop body that changes the
    name or the attributes of the tags it is run on: [f] is the body, and
    leaves the tags that [find_all] does not select as they are. *)
Fixpoint map_tags (f : head -> head) (n : node) : node :=
  match n with
  | Tag name a contents =>
      Tag (fst (f (name, a))) (snd (f (name, a))) (map (map_tags f) contents)
  | _ => n
  end.

Definition map_soup (f : head -> head) (s : soup) : soup := map (map_tags f) s.

Definition is_named (name : string) (n : node) : bool :=
  match n with
  | Tag x _ _ => String.eqb x name
  | _ => false
  end.

(** [for t in soup.find_all(name): t.decompose()]: every tag of that name
    is taken out of the tree, with all it contains. *)
Fixpoint decompose_in (name : string) (n : node) : node :=
  match n with
  | Tag x a contents =>
      Tag x a (filter (fun c => negb (is_named name c))
                 (map (decompose_in name) contents))
  | _ => n
  end.

Definition decompose_all (name : string) (s : soup) : soup :=
  filter (fun c => negb (is_named name c)) (map (decompose_in name) s).

(** Whether some tag of the tree satisfies [p]: [soup.find(...)] is not
    [None], [soup.find_all(...)] is not empty. *)
Fixpoint exists_tag (p : head -> bool) (n : node) : bool :=
  match n with
  | Tag name a contents => p (name, a) || existsb (exists_tag p) contents
  | _ => false
  end.

Definition soup_exists (p : head -> bool) (s : soup) : bool :=
  existsb (exists_tag p) s.

(** [soup.find(...)]: the first tag, in document order, that satisfies [p] *)
Fixpoint find_in (p : head -> bool) (n : node) : option node :=
  match n with
  | Tag name a contents =>
      if p (name, a) then Some n
      else
        (fix first (l : list node) : option node :=
           match l with
           | [] => None
           | c :: l' =>
               match find_in p c with
               | Some t => Some t
               | None => first l'
               end
           end) contents
  | _ => None
  end.

Fixpoint find (p : head -> bool) (s : soup) : option node :=
  match s with
  | [] => None
  | c :: s' =>
      match find_in p c with
      | Some t => Some t
      | None => find p s'
      end
  end.

(** The tree in which the first tag that satisfies [p] is replaced by [f]
    of it; [None] when there is no such tag. *)
Fixpoint update_in (p : head -> bool) (f : node -> node) (n : node) : option node :=
  match n with
  | Tag name a contents =>
      if p (name, a) then Some (f n)
      else
        match
          (fix first (l : list node) : option (list node) :=
             match l with
             | [] => None
             | c :: l' =>
                 match update_in p f c with
                 | Some c' => Some (c' :: l')
                 | None =>
                     match first l' with
                     | Some l'' => Some (c :: l'')
                     | None => None
                     end
                 end
             end) contents
        with
        | Some contents' => Some (Tag name a contents')
        | None => None
        end
  | _ => None
  end.

Fixpoint update (p : head -> bool) (f : node -> node) (s : soup) : option soup :=
  match s with
  | [] => None
  | c :: s' =>
      match update_in p f c with
      | Some c' => Some (c' :: s')
      | None =>
          match update p f s' with
          | Some s'' => Some (c :: s'')
          | None => None
          end
      end
  end.

(** [tag.string]: the only child when it is a string, the [string] of the
    only child when it is a tag, and [None] otherwise. *)
Fixpoint string_of (n : node) : option string :=
  match n with
  | Tag _ _ [c] => string_of c
  | Tag _ _ _ => None
  | Doctype s => Some s
  | Str _ s => Some s
  end.

(** The names and attributes of all tags of a tree, in document order *)
Fixpoint heads (n : node) : list head :=
  match n with
  | Tag name a contents => (name, a) :: flat_map heads contents
  | _ => []
  end.

Definition soup_heads (s : soup) : list head := flat_map heads s.

(** The document type declarations among [soup.contents], in order *)
Definition top_doctypes (s : soup) : list string :=
  flat_map (fun n => match n with Doctype d => [d] | _ => [] end) s.

(** Selectors *)
Definition named (name : string) (h : head) : bool := String.eqb (fst h) name.

Definition has_attr (key value : string) (h : head) : bool :=
  match get (snd h) key with
  | Some v => String.eqb v value
  | None => false
  end.

End Bs4.

(** ** Catalog data *)

(** [LibbyMediaTypes]; the module only ever compares with [Magazine]. *)
Inductive LibbyMediaTypes := Audiobook | EBook | Magazine.

Definition is_magazine (t : LibbyMediaTypes) : bool :=
  match t with
  | Magazine => true
  | _ => false
  end.

(** [media_info], as far as the module reads it: [media_info["type"]["id"]],
    [media_info["id"]] and [media_info["formats"]], whose elements are only
    handed to [extract_isbn]. *)
Record MediaInfo (Format : Type) := mkMediaInfo {
  media_type_id : LibbyMediaTypes;
  media_id : string;
  media_formats : list Format
}.
Arguments mkMediaInfo {Format}.
Arguments media_type_id {Format}.
Arguments media_id {Format}.
Arguments media_formats {Format}.

(** An entry of the [title-content] roster; [url_path] is
    [urlparse(entry["url"]).path]. *)
Record RemoteEntry := mkRemoteEntry { url_path : string }.

(** An entry of [openbook["nav"]["toc"]]. *)
Record TocItem := mkTocItem { toc_title : string; toc_path : string }.

(** An entry of [openbook["spine"]], with its keys
    [-odread-original-path] and [-odread-spine-position]. *)
Record SpineEntry := mkSpineEntry {
  odread_original_path : string;
  odread_spine_position : Z
}.

(** [toc_pages = [item["path"].split("#")[0] for item in openbook_toc]] *)
Definition toc_pages_of (openbook_toc : list TocItem) : list string :=
  map (fun item => Py.split_head "#"%char (toc_path item)) openbook_toc.

(** ** Content selector *)

Section ContentSelector.

(** [mimetypes.guess_type(p)[0]]: the table of media types is not part of
    the module and is taken as a parameter. *)
Variable guess_type : string -> option string.

Context {Format : Type}.

Definition _filter_content (entry : RemoteEntry) (media_info : MediaInfo Format)
    (toc_pages : list string) : bool :=
  let path := url_path entry in
  let media_type := guess_type (Py.tail path) in
  let magazine_rules : option bool :=
    match media_type with
    | Some mt =>
        if is_magazine (media_type_id media_info) && Py.truthy media_type then
          if Py.startswith mt "image/"
             && (Py.startswith path "/pages/" || Py.startswith path "/thumbnails/")
          then Some false
          else if String.eqb mt "application/xhtml+xml"
                  && negb (Py.mem (Py.tail path) toc_pages)
          then Some false
          else None
        else None
    | None => None
    end in
  match magazine_rules with
  | Some r => r
  | None => if Py.startswith path "/_d/" then false else true
  end.

(** [title_content_entries]: the roster entries that are fetched. *)
Definition title_content_entries (entries : list RemoteEntry)
    (media_info : MediaInfo Format) (toc_pages : list string) : list RemoteEntry :=
  filter (fun e => _filter_content e media_info toc_pages) entries.

(** The selector rule read without regard to the media type: every magazine
    entry under [/pages/] or [/thumbnails/] is dropped. *)
Definition drops_every_preview_path : Prop :=
  forall (entry : RemoteEntry) (media_info : MediaInfo Format) (toc_pages : list string),
    is_magazine (media_type_id media_info) = true ->
    Py.startswith (url_path entry) "/pages/" = true \/
    Py.startswith (url_path entry) "/thumbnails/" = true ->
    _filter_content entry media_info toc_pages = false.

End ContentSelector.

(** The rows of the [mimetypes] table that the examples use, by extension. *)
Definition sample_guess_type (p : string) : option string :=
  if Py.endswith p ".xhtml" then Some "application/xhtml+xml"
  else if Py.endswith p ".jpg" then Some "image/jpeg"
  else if Py.endswith p ".css" then Some "text/css"
  else if Py.endswith p ".ncx" then Some "application/x-dtbncx+xml"
  else None.

Definition sample_magazine : MediaInfo unit := mkMediaInfo Magazine "9215467" [].

(** ** Spine orderer *)

(** The rank [_sort_spine_entries] gives an entry: its first index in
    [toc_pages], or 999 when [index] raises [ValueError]. *)
Definition toc_index (toc_pages : list string) (e : SpineEntry) : Z :=
  match Py.index toc_pages (odread_original_path e) with
  | Some i => Z.of_nat i
  | None => 999%Z
  end.

Definition _sort_spine_entries (a b : SpineEntry) (toc_pages : list string) : Z :=
  let a_index := toc_index toc_pages a in
  let b_index := toc_index toc_pages b in
  if negb (a_index =? b_index)%Z then
    (if (a_index <? b_index)%Z then (-1)%Z else 1%Z)
  else
    (if (odread_spine_position a <? odread_spine_position b)%Z
     then (-1)%Z else 1%Z).

(** The filter that [process_ebook_loan] applies to [openbook["spine"]],
    and again as a [continue] when it emits the [itemref] elements. *)
Definition spine_kept (media_type_id : LibbyMediaTypes) (toc_pages : list string)
    (s : SpineEntry) : bool :=
  negb (is_magazine media_type_id
        && negb (Py.mem (odread_original_path s) toc_pages)).

(** [sorted(spine_entries, key=cmp_to_key(lambda a, b:
    _sort_spine_entries(a, b, toc_pages)))] *)
Definition sort_spine (toc_pages : list string) (spine_entries : list SpineEntry)
    : list SpineEntry :=
  Py.sorted
    (Py.cmp_to_key (fun a b => _sort_spine_entries a b toc_pages))
    spine_entries.

(** The spine entries in the order in which [process_ebook_loan] emits
    their [itemref] elements. *)
Definition spine_order (media_type_id : LibbyMediaTypes) (toc_pages : list string)
    (spine : list SpineEntry) : list SpineEntry :=
  let spine_entries := filter (spine_kept media_type_id toc_pages) spine in
  let spine_entries := sort_spine toc_pages spine_entries in
  filter (spine_kept media_type_id toc_pages) spine_entries.

(** A table of contents with 1001 pages, [p0] to [p1000]. *)
Definition page_name (n : nat) : string :=
  "p" ++ NilZero.string_of_uint (Nat.to_uint n).

Definition long_toc : list string := map page_name (seq 0 1001).

(** [x] precedes [y] in [l]: both occur, and every occurrence of [x] comes
    before every occurrence of [y]. *)
Definition precedes {A : Type} (l : list A) (x y : A) : Prop :=
  In x l /\ In y l /\
  forall m n, nth_error l m = Some x -> nth_error l n = Some y -> (m < n)%nat.

(** The ordering property read with any occurrence of a path in the table
    of contents: an entry whose path stands at some index [i] precedes an
    entry whose path stands at some larger index [j]. *)
Definition follows_any_toc_index (toc_pages : list string)
    (spine out : list SpineEntry) : Prop :=
  forall P Q i j,
    In P spine -> In Q spine ->
    nth_error toc_pages i = Some (odread_original_path P) ->
    nth_error toc_pages j = Some (odread_original_path Q) ->
    (i < j)%nat ->
    precedes out P Q.

(** Entries absent from the table of contents stand behind those present. *)
Definition unmatched_last (toc_pages : list string) (out : list SpineEntry) : Prop :=
  forall P Q,
    In P out -> In Q out ->
    Py.mem (odread_original_path P) toc_pages = true ->
    Py.mem (odread_original_path Q) toc_pages = false ->
    precedes out P Q.


(** ** Content patcher: magazine style sheets *)

Definition not_brace (c : ascii) : bool :=
  negb (Ascii.eqb c "{"%char || Ascii.eqb c "}"%char).

(** [(#article-body\s*\{[^{}]+?)overflow-x:\s*hidden;([^{}]+?})] *)
Definition patch_magazine_css_re : Re.regex :=
  Re.Seq
    (Re.Group 1
       (Re.Seq (Re.lit "#article-body")
          (Re.Seq (Re.Star true (Re.Cls Re.is_space))
             (Re.Seq (Re.Chr "{") (Re.Plus false (Re.Cls not_brace))))))
    (Re.Seq (Re.lit "overflow-x:")
       (Re.Seq (Re.Star true (Re.Cls Re.is_space))
          (Re.Seq (Re.lit "hidden;")
             (Re.Group 2
                (Re.Seq (Re.Plus false (Re.Cls not_brace)) (Re.Chr "}")))))).

(** [css_content = patch_magazine_css_re.sub(r"\1\2", res.text)] *)
Definition patch_magazine_css (text : string) : string :=
  Re.sub patch_magazine_css_re (fun g => (Re.group 1 g ++ Re.group 2 g)%string) text.

(** All characters of a text are of a class. *)
Fixpoint all_of (p : ascii -> bool) (s : string) : bool :=
  match s with
  | EmptyString => true
  | String c s' => p c && all_of p s'
  end.

(** The text behind the leading characters of a class *)
Fixpoint skip_class (p : ascii -> bool) (s : string) : string :=
  match s with
  | EmptyString => EmptyString
  | String c s' => if p c then skip_class p s' else s
  end.

Fixpoint strip_prefix (p s : string) : option string :=
  match p, s with
  | EmptyString, _ => Some s
  | String a p', String b s' => if Ascii.eqb a b then strip_prefix p' s' else None
  | String _ _, EmptyString => None
  end.

(** Whether a rule block of the selector [#article-body] opens at the start
    of the text (the selector, white space, an opening brace), and whether
    one opens anywhere in it. *)
Definition article_body_block_opens (s : string) : bool :=
  match strip_prefix "#article-body" s with
  | Some rest => Py.startswith (skip_class Re.is_space rest) "{"
  | None => false
  end.

Fixpoint has_article_body_block (s : string) : bool :=
  article_body_block_opens s
  || match s with
     | EmptyString => false
     | String _ s' => has_article_body_block s'
     end.

(** ** Content patcher: structural cleanup *)

Definition quote : string := String "034"%char EmptyString.

Definition modified_doctype : string :=
  "html PUBLIC " ++ quote ++ "-//W3C//DTD XHTML 1.1//EN" ++ quote ++ " "
  ++ quote ++ "http://www.w3.org/TR/xhtml11/DTD/xhtml11.dtd" ++ quote.

(** [for item in soup.contents: if isinstance(item, Doctype):
    item.replace_with(Doctype(modified_doctype)); break] *)
Fixpoint replace_doctype (contents : list Bs4.node) : list Bs4.node :=
  match contents with
  | [] => []
  | Bs4.Doctype _ :: rest => Bs4.Doctype modified_doctype :: rest
  | item :: rest => item :: replace_doctype rest
  end.

Definition remove_attributes : list string :=
  ["aria-label"; "data-loc"; "data-epub-type"; "data-document-status";
   "data-xml-lang"; "lang"; "role"; "epub:type"; "epub:prefix"].

(** [del tag[attribute]] *)
Definition del_attribute (attribute : string) (h : Bs4.head) : Bs4.head :=
  (fst h, Bs4.del (snd h) attribute).

(** [invalid_tag.name = "div"] on the tags named [tag] *)
Definition convert_tag (tag : string) (h : Bs4.head) : Bs4.head :=
  if String.eqb (fst h) tag then ("div", snd h) else h.

(** The body of the loop over [soup.find_all("svg")] *)
Definition svg_namespaces (h : Bs4.head) : Bs4.head :=
  if String.eqb (fst h) "svg" then
    (fst h,
     Bs4.set_default
       (Bs4.set_default (snd h) "xmlns" "http://www.w3.org/2000/svg")
       "xmlns:xlink" "http://www.w3.org/1999/xlink")
  else h.

(** [html_tag = soup.find("html")], and the [xmlns] it is given when it
    has none *)
Definition html_namespace (n : Bs4.node) : Bs4.node :=
  match n with
  | Bs4.Tag name a contents =>
      Bs4.Tag name (Bs4.set_default a "xmlns" "http://www.w3.org/1999/xhtml") contents
  | _ => n
  end.

Definition set_html_namespace (soup : Bs4.soup) : Bs4.soup :=
  match Bs4.update (Bs4.named "html") html_namespace soup with
  | Some soup' => soup'
  | None => soup
  end.

Definition _cleanup_soup (soup : Bs4.soup) (version : string) : Bs4.soup :=
  let soup :=
    if String.eqb version "2.0" then
      let soup := replace_doctype soup in
      let soup :=
        fold_left
          (fun soup attribute => Bs4.map_soup (del_attribute attribute) soup)
          remove_attributes soup in
      fold_left (fun soup tag => Bs4.map_soup (convert_tag tag) soup)
        ["nav"; "section"] soup
    else soup in
  let soup := Bs4.map_soup svg_namespaces soup in
  let soup :=
    fold_left (fun soup tag => Bs4.map_soup (convert_tag tag) soup)
      ["figcaption"] soup in
  let soup := fold_left (fun soup tag => Bs4.decompose_all tag soup) ["base"] soup in
  set_html_namespace soup.

(** All that the loops of [_cleanup_soup] do to the name and the attributes
    of one tag, in their order. *)
Definition cleanup_head (version : string) (h : Bs4.head) : Bs4.head :=
  let h :=
    if String.eqb version "2.0" then
      fold_left (fun h tag => convert_tag tag h) ["nav"; "section"]
        (fold_left (fun h attribute => del_attribute attribute h)
           remove_attributes h)
    else h in
  fold_left (fun h tag => convert_tag tag h) ["figcaption"] (svg_namespaces h).

(** The attributes that the version 2.0 keeps *)
Definition kept_attribute (k : string) : bool :=
  negb (existsb (String.eqb k) remove_attributes).

Definition kept_attributes (a : Bs4.attrs) : Bs4.attrs :=
  filter (fun kv => kept_attribute (fst kv)) a.

Definition svg_attributes (a : Bs4.attrs) : Bs4.attrs :=
  Bs4.set_default (Bs4.set_default a "xmlns" "http://www.w3.org/2000/svg")
    "xmlns:xlink" "http://www.w3.org/1999/xlink".

(** The name and the attributes that [cleanup_head] gives a tag;
    [strict] says that the version is 2.0. *)
Definition clean_name (strict : bool) (name : string) : string :=
  if (strict && (String.eqb name "nav" || String.eqb name "section"))
     || String.eqb name "figcaption"
  then "div" else name.

Definition clean_attributes (strict : bool) (name : string) (a : Bs4.attrs)
    : Bs4.attrs :=
  let a := if strict then kept_attributes a else a in
  if String.eqb name "svg" then svg_attributes a else a.

(** The first document type declaration among [soup.contents], if there
    is one, is the XHTML 1.1 one. *)
Definition doctype_ok (soup : Bs4.soup) : Prop :=
  match Bs4.top_doctypes soup with
  | d :: _ => d = modified_doctype
  | [] => True
  end.

(** ** Content patcher: embedded bodies *)

(** [parent\.__bif_cfc0\(self,'(?P<base64_text>.+)'\)] *)
Definition contents_re : Re.regex :=
  Re.Seq (Re.lit "parent.__bif_cfc0(self,'")
    (Re.Seq (Re.Group 1 (Re.Plus true Re.Any)) (Re.lit "')")).

Definition epub_version : string := "3.0".

Definition is_script (h : Bs4.head) : bool :=
  Bs4.named "script" h && Bs4.has_attr "type" "text/javascript" h.

Section ContentPatcher.

(** [BeautifulSoup(base64.b64decode(text), features="html.parser")]: the
    decoder and the parser are libraries and are taken as a parameter;
    [None] stands for the [binascii.Error] of [b64decode]. *)
Variable decode_markup : string -> option Bs4.soup.

(** The document in which the body is replaced by the one that an inline
    script carries; [None] when an exception is raised on the way. *)
Definition embedded_body (soup : Bs4.soup) : option Bs4.soup :=
  match Bs4.find is_script soup with
  | Some script_ele =>
      let text :=
        match Bs4.string_of script_ele with
        | Some s => s
        | None => EmptyString
        end in
      match Re.search contents_re text with
      | Some (_, g) =>
          match decode_markup (Re.group 1 g) with
          | Some new_soup =>
              match Bs4.find (Bs4.named "body") new_soup with
              | Some new_body =>
                  Bs4.update (Bs4.named "body") (fun _ => new_body) soup
              | None => None
              end
          | None => None
          end
      | None => Some soup
      end
  | None => Some soup
  end.

(** What [process_ebook_loan] does to the markup of a fetched XHTML page
    before it writes it out. *)
Definition patch_xhtml (soup : Bs4.soup) : option Bs4.soup :=
  match embedded_body soup with
  | Some soup' => Some (_cleanup_soup soup' epub_version)
  | None => None
  end.

End ContentPatcher.

(** Running the patcher on a document that it has produced gives that
    document again. *)
Definition patcher_idempotent (decode_markup : string -> option Bs4.soup) : Prop :=
  forall soup cleaned,
    patch_xhtml decode_markup soup = Some cleaned ->
    patch_xhtml decode_markup cleaned = Some cleaned.

(** *** A page whose embedded body embeds a body in turn *)

(** Base64 with the standard alphabet and padding, for the payloads of the
    example; [base64.b64decode] gives the same bytes on such a text. *)
Definition b64_value (c : ascii) : option N :=
  let n := N_of_ascii c in
  if ((65 <=? n) && (n <=? 90))%N then Some (n - 65)%N
  else if ((97 <=? n) && (n <=? 122))%N then Some (n - 71)%N
  else if ((48 <=? n) && (n <=? 57))%N then Some (n + 4)%N
  else if (n =? 43)%N then Some 62%N
  else if (n =? 47)%N then Some 63%N
  else None.

Definition b64_quad (a b c d : ascii) : option N :=
  match b64_value a, b64_value b, b64_value c, b64_value d with
  | Some w, Some x, Some y, Some z => Some (((w * 64 + x) * 64 + y) * 64 + z)%N
  | _, _, _, _ => None
  end.

Definition byte_of (n : N) : ascii := ascii_of_N (n mod 256).

Fixpoint b64decode (s : string) : option string :=
  match s with
  | EmptyString => Some EmptyString
  | String a (String b (String c (String d rest))) =>
      if Ascii.eqb d "="%char then
        match rest with
        | EmptyString =>
            if Ascii.eqb c "="%char then
              match b64_quad a b "A" "A" with
              | Some n => Some (String (byte_of (n / 65536)) EmptyString)
              | None => None
              end
            else
              match b64_quad a b c "A" with
              | Some n =>
                  Some (String (byte_of (n / 65536))
                          (String (byte_of (n / 256)) EmptyString))
              | None => None
              end
        | _ => None
        end
      else
        match b64_quad a b c d, b64decode rest with
        | Some n, Some t =>
            Some (String (byte_of (n / 65536))
                    (String (byte_of (n / 256)) (String (byte_of n) t)))
        | _, _ => None
        end
  | _ => None
  end.

Definition script_call (payload : string) : string :=
  "parent.__bif_cfc0(self,'" ++ payload ++ "')".

Definition payload_inner : string :=
  "PGh0bWw+PGhlYWQ+PC9oZWFkPjxib2R5PjxwPnNlY29uZDwvcD48L2JvZHk+PC9odG1sPg==".

Definition payload_outer : string :=
  "PGh0bWw+PGhlYWQ+PC9oZWFkPjxib2R5PjxzY3JpcHQgdHlwZT0idGV4dC9qYXZhc2NyaXB0Ij5wYXJlbnQuX19iaWZfY2ZjMChzZWxmLCdQR2gwYld3K1BHaGxZV1ErUEM5b1pXRmtQanhpYjJSNVBqeHdQbk5sWTI5dVpEd3ZjRDQ4TDJKdlpIaytQQzlvZEcxc1BnPT0nKTwvc2NyaXB0PjwvYm9keT48L2h0bWw+".

Definition page_with (a : Bs4.attrs) (body : list Bs4.node) : Bs4.soup :=
  [Bs4.Tag "html" a [Bs4.Tag "head" [] []; Bs4.Tag "body" [] body]].

Definition script_with (payload : string) : Bs4.node :=
  Bs4.Tag "script" [("type", "text/javascript")]
    [Bs4.Str Bs4.Text (script_call payload)].

(** The two documents that the payloads hold, as text and parsed *)
Definition inner_text : string :=
  "<html><head></head><body><p>second</p></body></html>".

Definition outer_text : string :=
  "<html><head></head><body><script type=" ++ quote ++ "text/javascript" ++ quote
  ++ ">" ++ script_call payload_inner ++ "</script></body></html>".

Definition inner_page : Bs4.soup :=
  page_with [] [Bs4.Tag "p" [] [Bs4.Str Bs4.Text "second"]].

Definition outer_page : Bs4.soup := page_with [] [script_with payload_inner].

(** The decoder and the parser at the payloads of the example: the parser
    is given by its value on the two documents. *)
Definition sample_decode_markup (text : string) : option Bs4.soup :=
  match b64decode text with
  | Some html =>
      if String.eqb html inner_text then Some inner_page
      else if String.eqb html outer_text then Some outer_page
      else None
  | None => None
  end.

(** The page that is fetched: its script carries [outer_text]. *)
Definition nested_page : Bs4.soup := page_with [] [script_with payload_outer].

(** ** Navigation synthesizer: the NCX *)

(** [xml.etree.ElementTree.Element]: tag, attributes, text, children *)
#[warnings="-register-all"]
Inductive Element :=
| mkElement (tag : string) (attrib : list (string * string))
    (text : option string) (children : list Element).

Definition element_tag (e : Element) : string :=
  match e with mkElement t _ _ _ => t end.
Definition element_attrib (e : Element) : list (string * string) :=
  match e with mkElement _ a _ _ => a end.
Definition element_children (e : Element) : list Element :=
  match e with mkElement _ _ _ c => c end.

(** [openbook], as far as the module reads it: [openbook["title"]["main"]],
    the names of [openbook["creator"]], [openbook["nav"]["toc"]] and
    [openbook["spine"]]. *)
Record OpenBook := mkOpenBook {
  title_main : string;
  creator_names : list string;
  nav_toc : list TocItem;
  spine : list SpineEntry
}.

(** [f"navPoint{i}"] *)
Definition nav_point_id (i : nat) : string :=
  "navPoint" ++ NilZero.string_of_uint (Nat.to_uint i).

(** The [navPoint] elements of [enumerate(openbook["nav"]["toc"], start=i)] *)
Fixpoint nav_points (i : nat) (toc : list TocItem) : list Element :=
  match toc with
  | [] => []
  | item :: toc' =>
      mkElement "navPoint" [("id", nav_point_id i)] None
        [mkElement "navLabel" [] None
           [mkElement "text" [] (Some (toc_title item)) []];
         mkElement "content" [("src", toc_path item)] None []]
      :: nav_points (S i) toc'
  end.

Section Ncx.

Context {Format : Type}.

(** [extract_isbn] of [odmpy.processing.shared] and the two constants of
    [LibbyFormats] are not part of the module and are taken as parameters.
    The result of [extract_isbn] is only tested for truth. *)
Variable extract_isbn : list Format -> list string -> option string.
Variables EBookOverdrive MagazineOverDrive : string.

(** [extract_isbn(media_info["formats"], [...]) or media_info["id"]] *)
Definition publication_identifier (media_info : MediaInfo Format) : string :=
  let isbn :=
    extract_isbn (media_formats media_info) [EBookOverdrive; MagazineOverDrive] in
  if Py.truthy isbn then
    match isbn with
    | Some s => s
    | None => media_id media_info
    end
  else media_id media_info.

(** [None] stands for the [IndexError] of [openbook["creator"][0]]. *)
Definition _build_ncx (media_info : MediaInfo Format) (openbook : OpenBook)
    : option Element :=
  let publication_identifier := publication_identifier media_info in
  let head :=
    mkElement "head" [] None
      [mkElement "meta"
         [("content", publication_identifier); ("name", "dtb:uid")] None []] in
  let doc_title :=
    mkElement "docTitle" [] None
      [mkElement "text" [] (Some (title_main openbook)) []] in
  match creator_names openbook with
  | [] => None
  | name :: _ =>
      let doc_author :=
        mkElement "docAuthor" [] None [mkElement "text" [] (Some name) []] in
      let nav_map :=
        mkElement "navMap" [] None (nav_points 1 (nav_toc openbook)) in
      Some
        (mkElement "ncx"
           [("version", "2005-1");
            ("xmlns", "http://www.daisy.org/z3986/2005/ncx/");
            ("xml:lang", "en")]
           None [head; doc_title; doc_author; nav_map])
  end.

End Ncx.

(** The [content] of the [meta] elements named [dtb:uid] in the [head]
    elements of an NCX document *)
Definition dtb_uids (ncx : Element) : list string :=
  flat_map
    (fun head =>
       if String.eqb (element_tag head) "head" then
         flat_map
           (fun meta =>
              if String.eqb (element_tag meta) "meta"
                 && Bs4.has_attr "name" "dtb:uid" (element_tag meta, element_attrib meta)
              then
                match Bs4.get (element_attrib meta) "content" with
                | Some c => [c]
                | None => []
                end
              else [])
           (element_children head)
       else [])
    (element_children ncx).

(** ** Manifest builder *)

(** A row of the OPF manifest: the keys [href], [id], [media-type] and,
    when it is set, [properties]. *)
Record ManifestEntry := mkManifestEntry {
  href : string;
  id : string;
  media_type : option string;
  properties : option string
}.

Definition set_properties (e : ManifestEntry) (p : string) : ManifestEntry :=
  mkManifestEntry (href e) (id e) (media_type e) (Some p).

(** What the run meets for a roster entry: whether the asset file is already
    there, and the markup that is parsed, from the file when it is there
    and from the response otherwise. *)
Record Asset := mkAsset {
  entry : RemoteEntry;
  asset_exists : bool;
  markup : Bs4.soup
}.

(** The state of the loop over the roster *)
Record Assembly := mkAssembly {
  manifest_entries : list ManifestEntry;
  has_ncx : bool;
  has_nav : bool
}.

Definition is_type (media_type : option string) (t : string) : bool :=
  match media_type with
  | Some m => String.eqb m t
  | None => false
  end.

(** The properties read off the markup of a page *)
Definition detect_properties (soup : Bs4.soup) (manifest_entry : ManifestEntry)
    (has_nav : bool) : ManifestEntry * bool :=
  let manifest_entry :=
    if Bs4.soup_exists (Bs4.named "svg") soup
    then set_properties manifest_entry "svg"
    else manifest_entry in
  if Bs4.soup_exists (Bs4.has_attr "epub:type" "toc") soup
  then (set_properties manifest_entry "nav", true)
  else (manifest_entry, has_nav).

Definition nav_entry : ManifestEntry :=
  mkManifestEntry "nav.xhtml" "nav" (Some "application/xhtml+xml") (Some "nav").

Definition ncx_entry : ManifestEntry :=
  mkManifestEntry "toc.ncx" "ncx" (Some "application/x-dtbncx+xml") None.

Definition cover_entry : ManifestEntry :=
  mkManifestEntry "cover.jpg" "coverimage" (Some "image/jpeg") (Some "cover-image").

(** How many entries of a manifest carry the [nav] property *)
Definition is_nav (e : ManifestEntry) : bool :=
  match properties e with
  | Some p => String.eqb p "nav"
  | None => false
  end.

Definition nav_count (m : list ManifestEntry) : nat := length (filter is_nav m).

Section ManifestBuilder.

Variable guess_type : string -> option string.

(** [slugify] of [odmpy.utils] is not part of the module and is taken as a
    parameter. *)
Variable slugify : string -> string.

Variable decode_markup : string -> option Bs4.soup.

Context {Format : Type}.
Variable extract_isbn : list Format -> list string -> option string.
Variables EBookOverdrive MagazineOverDrive : string.

(** [None] stands for the [IndexError] of [string_id[0]]. *)
Definition _sanitise_opf_id (string_id : string) : option string :=
  let string_id := slugify string_id in
  match string_id with
  | EmptyString => None
  | String c _ => if Py.isdigit c then Some ("id_" ++ string_id)%string else Some string_id
  end.

(** The markup in which the properties of an XHTML page are looked up: the
    file as it is when it is there, the patched response otherwise. *)
Definition inspected_markup (a : Asset) : option Bs4.soup :=
  if asset_exists a then Some (markup a) else patch_xhtml decode_markup (markup a).

(** The id that the loop gives the manifest entry of an asset *)
Definition entry_id (a : Asset) : option string :=
  if is_type (guess_type (Py.tail (url_path (entry a)))) "application/x-dtbncx+xml"
  then Some "ncx"
  else _sanitise_opf_id (Py.tail (url_path (entry a))).

Definition is_ncx (a : Asset) : bool :=
  is_type (guess_type (Py.tail (url_path (entry a)))) "application/x-dtbncx+xml".

(** An XHTML page in whose inspected markup some element has
    [epub:type="toc"] *)
Definition is_nav_page (a : Asset) : bool :=
  is_type (guess_type (Py.tail (url_path (entry a)))) "application/xhtml+xml"
  && match inspected_markup a with
     | Some soup => Bs4.soup_exists (Bs4.has_attr "epub:type" "toc") soup
     | None => false
     end.

(** One turn of the loop over the roster *)
Definition process_entry (media_info : MediaInfo Format) (st : Assembly) (a : Asset)
    : option Assembly :=
  let path := url_path (entry a) in
  let media_type := guess_type (Py.tail path) in
  let has_ncx :=
    if is_type media_type "application/x-dtbncx+xml" then true else has_ncx st in
  match
    (if is_type media_type "application/x-dtbncx+xml" then Some "ncx"
     else _sanitise_opf_id (Py.tail path))
  with
  | None => None
  | Some entry_id =>
      let manifest_entry := mkManifestEntry (Py.tail path) entry_id media_type None in
      let result :=
        if asset_exists a then
          if is_type media_type "application/xhtml+xml"
          then Some (detect_properties (markup a) manifest_entry (has_nav st))
          else Some (manifest_entry, has_nav st)
        else if is_magazine (media_type_id media_info) && is_type media_type "text/css"
        then Some (manifest_entry, has_nav st)
        else if is_type media_type "application/xhtml+xml" then
          match patch_xhtml decode_markup (markup a) with
          | Some soup => Some (detect_properties soup manifest_entry (has_nav st))
          | None => None
          end
        else Some (manifest_entry, has_nav st) in
      match result with
      | Some (manifest_entry, has_nav) =>
          Some (mkAssembly (manifest_entries st ++ [manifest_entry]) has_ncx has_nav)
      | None => None
      end
  end.

(** The loop over the roster, which an exception ends *)
Fixpoint process_entries (media_info : MediaInfo Format) (st : Assembly)
    (roster : list Asset) : option Assembly :=
  match roster with
  | [] => Some st
  | a :: roster' =>
      match process_entry media_info st a with
      | Some st' => process_entries media_info st' roster'
      | None => None
      end
  end.

(** The roster entries that are processed *)
Definition selected (media_info : MediaInfo Format) (toc_pages : list string)
    (roster : list Asset) : list Asset :=
  filter (fun a => _filter_content guess_type (entry a) media_info toc_pages) roster.

(** The [item] elements of the manifest, in order, as [process_ebook_loan]
    writes them into the package document. *)
Definition manifest (media_info : MediaInfo Format) (openbook : OpenBook)
    (roster : list Asset) (cover_path : string) : option (list ManifestEntry) :=
  let toc_pages := toc_pages_of (nav_toc openbook) in
  match
    process_entries media_info (mkAssembly [] false false)
      (selected media_info toc_pages roster)
  with
  | None => None
  | Some st =>
      let entries := manifest_entries st in
      let entries := if has_nav st then entries else entries ++ [nav_entry] in
      let entries :=
        if has_ncx st then Some entries
        else
          match _build_ncx extract_isbn EBookOverdrive MagazineOverDrive
                  media_info openbook with
          | Some _ => Some (entries ++ [ncx_entry])
          | None => None
          end in
      match entries with
      | Some entries =>
          Some (if Py.truthy (Some cover_path) then entries ++ [cover_entry] else entries)
      | None => None
      end
  end.

(** The ids of the entries that are synthesized behind the roster *)
Definition synthesized_ids (st : Assembly) (cover_path : string) : list string :=
  (if has_nav st then [] else ["nav"])
  ++ (if has_ncx st then [] else ["ncx"])
  ++ (if Py.truthy (Some cover_path) then ["coverimage"] else []).

(** Every manifest has exactly one [nav] entry. *)
Definition exactly_one_nav : Prop :=
  forall media_info openbook roster cover_path m,
    manifest media_info openbook roster cover_path = Some m -> nav_count m = 1%nat.

(** The ids of every manifest are pairwise distinct. *)
Definition ids_distinct : Prop :=
  forall media_info openbook roster cover_path m,
    manifest media_info openbook roster cover_path = Some m -> NoDup (map id m).

End ManifestBuilder.


(** A stand-in for [slugify] in the examples: the characters other than
    letters, digits, [-] and [_] are dropped. *)
Definition slug_char (c : ascii) : bool :=
  let n := nat_of_ascii c in
  (((48 <=? n) && (n <=? 57)) || ((65 <=? n) && (n <=? 90))
   || ((97 <=? n) && (n <=? 122)) || (n =? 45) || (n =? 95))%nat.

Fixpoint sample_slugify (s : string) : string :=
  match s with
  | EmptyString => EmptyString
  | String c s' =>
      if slug_char c then String c (sample_slugify s') else sample_slugify s'
  end.

Definition sample_extract_isbn (_ : list unit) (_ : list string) : option string :=
  Some "9781250313195".

Definition sample_openbook : OpenBook :=
  mkOpenBook "The Issue" ["A. Writer"]
    [mkTocItem "Cover" "stories/a.xhtml"; mkTocItem "Letters" "stories/a.xhtml#letters"]
    [mkSpineEntry "stories/a.xhtml" 0].

Definition sample_ebook : MediaInfo unit := mkMediaInfo EBook "9215467" [].

(** The manifest of a run with the parameters of the examples *)
Definition sample_manifest :=
  manifest sample_guess_type sample_slugify sample_decode_markup
    sample_extract_isbn "ebook-overdrive" "magazine-overdrive".

(** A page with a table of contents and a drawing *)
Definition contents_page : Bs4.soup :=
  page_with []
    [Bs4.Tag "nav" [("epub:type", "toc")] [Bs4.Tag "ol" [] []];
     Bs4.Tag "svg" [] []].

(** ** Further notions for the properties of Part III *)

(** Two spine entries that the comparator cannot tell apart: the same rank
    and the same catalog position. *)
Definition same_key (toc_pages : list string) (a b : SpineEntry) : bool :=
  (toc_index toc_pages a =? toc_index toc_pages b)%Z
  && (odread_spine_position a =? odread_spine_position b)%Z.

(** [out] is [text] without some of its declarations
    [overflow-x:], white space, [hidden;], and nothing else is changed. *)
Inductive removes_only : string -> string -> Prop :=
| removes_nothing : removes_only EmptyString EmptyString
| removes_keep (c : ascii) (text out : string) :
    removes_only text out -> removes_only (String c text) (String c out)
| removes_declaration (ws text out : string) :
    all_of Re.is_space ws = true ->
    removes_only text out ->
    removes_only ("overflow-x:" ++ ws ++ "hidden;" ++ text) out.

(** The characters of a class, in order *)
Fixpoint keep_class (p : ascii -> bool) (s : string) : string :=
  match s with
  | EmptyString => EmptyString
  | String c s' => if p c then String c (keep_class p s') else keep_class p s'
  end.

Definition is_brace (c : ascii) : bool := negb (not_brace c).

(** The first success of a continuation on the suffixes of a text, the
    shortest suffix first: what a greedy repetition of [.] hands on. *)
Fixpoint first_suffix {T : Type} (k : string -> Re.groups -> option T)
    (s : string) (g : Re.groups) : option T :=
  match s with
  | EmptyString => k EmptyString g
  | String _ s' =>
      match first_suffix k s' g with
      | Some x => Some x
      | None => k s g
      end
  end.

Definition not_newline (c : ascii) : bool := negb (Re.is_newline c).

(** A tag that the selector [p] picks *)
Definition selected_by (p : Bs4.head -> bool) (n : Bs4.node) : Prop :=
  match n with
  | Bs4.Tag name a _ => p (name, a) = true
  | _ => False
  end.

(** The text of a script in which the pattern of embedded bodies is looked
    up: [script_ele.string or ""] *)
Definition script_text (script_ele : Bs4.node) : string :=
  match Bs4.string_of script_ele with
  | Some s => s
  | None => EmptyString
  end.

(** The strings of a tree other than document type declarations, in
    document order *)
Fixpoint strings (n : Bs4.node) : list (Bs4.string_kind * string) :=
  match n with
  | Bs4.Tag _ _ contents => flat_map strings contents
  | Bs4.Doctype _ => []
  | Bs4.Str k s => [(k, s)]
  end.

Definition soup_strings (s : Bs4.soup) : list (Bs4.string_kind * string) :=
  flat_map strings s.

(** The names of all tags of a document, in document order *)
Definition tag_names (s : Bs4.soup) : list string := map fst (Bs4.soup_heads s).

(** A tag after the namespace of [html] is set: as it was, or an [html]
    tag with the namespace. *)
Definition html_step (h h' : Bs4.head) : Prop :=
  h' = h \/
  (fst h = "html" /\
   h' = ("html", Bs4.set_default (snd h) "xmlns" "http://www.w3.org/1999/xhtml")).

(** *** Reading an NCX document *)

Definition children_named (tag : string) (e : Element) : list Element :=
  filter (fun c => String.eqb (element_tag c) tag) (element_children e).

Definition element_text (e : Element) : option string :=
  match e with mkElement _ _ t _ => t end.

(** The texts of the [text] children of the children named [tag] *)
Definition label_texts (tag : string) (e : Element) : list (option string) :=
  flat_map (fun c => map element_text (children_named "text" c))
    (children_named tag e).

(** The [navPoint] elements of the [navMap] *)
Definition ncx_nav_points (ncx : Element) : list Element :=
  flat_map (children_named "navPoint") (children_named "navMap" ncx).

(** Of a [navPoint]: its [id], the texts of its label and the [src] of its
    [content] elements *)
Definition nav_point_row (nav_point : Element)
    : option string * list (option string) * list (option string) :=
  (Bs4.get (element_attrib nav_point) "id",
   label_texts "navLabel" nav_point,
   map (fun c => Bs4.get (element_attrib c) "src")
     (children_named "content" nav_point)).

(** The row that [_build_ncx] writes for the [i]-th entry of the table of
    contents *)
Definition toc_row (i : nat) (item : TocItem)
    : option string * list (option string) * list (option string) :=
  (Some (nav_point_id i), [Some (toc_title item)], [Some (toc_path item)]).

Fixpoint toc_rows (i : nat) (toc : list TocItem) :=
  match toc with
  | [] => []
  | item :: toc' => toc_row i item :: toc_rows (S i) toc'
  end.

(** *** The rows of the manifest *)

(** The property that the two tests on the markup of a page leave *)
Definition detected_properties (soup : Bs4.soup) : option string :=
  if Bs4.soup_exists (Bs4.has_attr "epub:type" "toc") soup then Some "nav"
  else if Bs4.soup_exists (Bs4.named "svg") soup then Some "svg"
  else None.

Section ManifestRows.

Variable guess_type : string -> option string.
Variable slugify : string -> string.
Variable decode_markup : string -> option Bs4.soup.

Definition is_xhtml (a : Asset) : bool :=
  is_type (guess_type (Py.tail (url_path (entry a)))) "application/xhtml+xml".

(** The manifest entry of an asset: its relative path, its id, the media
    type guessed from the path and, for an XHTML page, the property
    detected in its markup. *)
Definition entry_row (a : Asset) : option ManifestEntry :=
  match entry_id guess_type slugify a with
  | Some i =>
      Some (mkManifestEntry (Py.tail (url_path (entry a))) i
              (guess_type (Py.tail (url_path (entry a))))
              (if is_xhtml a then
                 match inspected_markup decode_markup a with
                 | Some soup => detected_properties soup
                 | None => None
                 end
               else None))
  | None => None
  end.

(** An asset on which the loop raises: no id can be made of its path, or
    it is an XHTML page that has to be fetched and whose patch raises. *)
Definition asset_fails (a : Asset) : bool :=
  match entry_id guess_type slugify a with
  | None => true
  | Some _ =>
      negb (asset_exists a) && is_xhtml a
      && match patch_xhtml decode_markup (markup a) with
         | Some _ => false
         | None => true
         end
  end.

End ManifestRows.

(** The entries that are synthesized behind those of the roster *)
Definition synthesized_entries (nav_found ncx_found : bool) (cover_path : string)
    : list ManifestEntry :=
  (if nav_found then [] else [nav_entry])
  ++ (if ncx_found then [] else [ncx_entry])
  ++ (if Py.truthy (Some cover_path) then [cover_entry] else []).

(** *** The synthesized navigation document *)

(** [tag.append(child)] *)
Definition append_child (child : Bs4.node) (n : Bs4.node) : Bs4.node :=
  match n with
  | Bs4.Tag name a contents => Bs4.Tag name a (contents ++ [child])
  | _ => n
  end.

(** The list item that the loop over [openbook_toc] makes of an item:
    [<li><a href=path>title</a></li>] *)
Definition toc_li (item : TocItem) : Bs4.node :=
  Bs4.Tag "li" []
    [Bs4.Tag "a" [("href", toc_path item)] [Bs4.Str Bs4.Text (toc_title item)]].

(** [toc_ele = nav_soup.find(id="toc")], then one [toc_ele.append(li_ele)]
    for each item; [None] stands for the [AttributeError] of an append to
    [None]. *)
Definition append_toc_items (nav_soup : Bs4.soup) (openbook_toc : list TocItem)
    : option Bs4.soup :=
  fold_left
    (fun acc item =>
       match acc with
       | Some s => Bs4.update (Bs4.has_attr "id" "toc") (append_child (toc_li item)) s
       | None => None
       end)
    openbook_toc (Some nav_soup).

(** A parse tree with the elements of [NAV_XHTMLTEMPLATE] *)
Definition sample_nav_soup : Bs4.soup :=
  [Bs4.Doctype "html";
   Bs4.Tag "html" [("xmlns", "http://www.w3.org/1999/xhtml");
                   ("xmlns:epub", "http://www.idpf.org/2007/ops")]
     [Bs4.Tag "head" [] [Bs4.Tag "title" [] []];
      Bs4.Tag "body" []
        [Bs4.Tag "nav" [("epub:type", "toc")]
           [Bs4.Tag "h1" [] [Bs4.Str Bs4.Text "Contents"];
            Bs4.Tag "ol" [("id", "toc")] []]]]].

(** *** The pages of the table of contents *)


(** *** The cleanup of a part of a document *)

(** What the passes of [_cleanup_soup] over all tags do to a subtree: the
    loop body on each of its tags, and its [base] elements taken out. *)
Definition cleanup_node (version : string) (n : Bs4.node) : Bs4.node :=
  Bs4.decompose_in "base" (Bs4.map_tags (cleanup_head version) n).

(** *** A page with its script in the head *)

(** The document that the payload holds, as text and parsed: its body has
    elements that the cleanup changes. *)
Definition figure_text : string :=
  "<html><head></head><body><figure><svg></svg><figcaption>plate</figcaption></figure></body></html>".

Definition payload_figure : string :=
  "PGh0bWw+PGhlYWQ+PC9oZWFkPjxib2R5PjxmaWd1cmU+PHN2Zz48L3N2Zz48ZmlnY2FwdGlvbj5wbGF0ZTwvZmlnY2FwdGlvbj48L2ZpZ3VyZT48L2JvZHk+PC9odG1sPg==".

Definition figure_page : Bs4.soup :=
  page_with []
    [Bs4.Tag "figure" []
       [Bs4.Tag "svg" [] [];
        Bs4.Tag "figcaption" [] [Bs4.Str Bs4.Text "plate"]]].

(** The decoder and the parser at that payload *)
Definition sample_decode_figure (text : string) : option Bs4.soup :=
  match b64decode text with
  | Some html => if String.eqb html figure_text then Some figure_page else None
  | None => None
  end.

(** The page that is fetched: the script is in its head, and so outside
    the body that is replaced. *)
Definition head_script_page : Bs4.soup :=
  [Bs4.Tag "html" []
     [Bs4.Tag "head" [] [script_with payload_figure]; Bs4.Tag "body" [] []]].

(** What the patcher makes of it *)
Definition head_script_cleaned : Bs4.soup :=
  [Bs4.Tag "html" [("xmlns", "http://www.w3.org/1999/xhtml")]
     [Bs4.Tag "head" [] [script_with payload_figure];
      Bs4.Tag "body" []
        [Bs4.Tag "figure" []
           [Bs4.Tag "svg" [("xmlns", "http://www.w3.org/2000/svg");
                           ("xmlns:xlink", "http://www.w3.org/1999/xlink")] [];
            Bs4.Tag "div" [] [Bs4.Str Bs4.Text "plate"]]]]].
(* ================================================================== *)
(** * Part II: properties *)
(* ================================================================== *)

(** ** Sorting *)

Section Sorting.

Context {A : Type} (lt : A -> A -> bool).

Lemma insort_perm (x : A) (l : list A) : Permutation (Py.insort lt x l) (x :: l).
Proof.
  induction l as [|y l IH]; simpl.
  - apply Permutation_refl.
  - destruct (lt x y).
    + apply Permutation_refl.
    + eapply perm_trans; [apply perm_skip, IH | apply perm_swap].
Qed.

Lemma fold_insort_perm (l acc : list A) :
  Permutation (fold_left (fun acc x => Py.insort lt x acc) l acc) (acc ++ l).
Proof.
  revert acc; induction l as [|x l IH]; intros acc; simpl.
  - rewrite app_nil_r. apply Permutation_refl.
  - eapply perm_trans; [apply IH|].
    eapply perm_trans; [apply Permutation_app_tail, insort_perm|].
    simpl. apply Permutation_middle.
Qed.

Lemma sorted_perm (l : list A) : Permutation (Py.sorted lt l) l.
Proof. unfold Py.sorted. apply (fold_insort_perm l []). Qed.

Hypothesis lt_trans : forall x y z, lt x y = true -> lt y z = true -> lt x z = true.
Hypothesis lt_asym : forall x y, lt x y = true -> lt y x = false.

Lemma insort_sorted (x : A) (l : list A) :
  StronglySorted (Py.not_after lt) l -> StronglySorted (Py.not_after lt) (Py.insort lt x l).
Proof.
  induction 1 as [|y l Hs IH Hy]; simpl.
  - constructor; [constructor | constructor].
  - destruct (lt x y) eqn:Hxy.
    + constructor; [constructor; assumption|].
      constructor; [apply lt_asym; exact Hxy|].
      rewrite Forall_forall in *. intros z Hz. unfold Py.not_after.
      destruct (lt z x) eqn:Hzx; [|reflexivity].
      specialize (Hy z Hz). unfold Py.not_after in Hy.
      rewrite (lt_trans _ _ _ Hzx Hxy) in Hy. discriminate.
    + constructor; [exact IH|].
      rewrite Forall_forall in *. intros z Hz.
      apply (Permutation_in _ (insort_perm x l)) in Hz.
      destruct Hz as [<-|Hz]; [exact Hxy | apply Hy, Hz].
Qed.

Lemma sorted_sorted (l : list A) : StronglySorted (Py.not_after lt) (Py.sorted lt l).
Proof.
  unfold Py.sorted.
  assert (H : forall acc, StronglySorted (Py.not_after lt) acc ->
            StronglySorted (Py.not_after lt) (fold_left (fun acc x => Py.insort lt x acc) l acc)).
  { induction l as [|x l IH]; intros acc Hacc; simpl; [exact Hacc|].
    apply IH, insort_sorted, Hacc. }
  apply H. constructor.
Qed.

Lemma filter_sorted (f : A -> bool) (l : list A) :
  StronglySorted (Py.not_after lt) l -> StronglySorted (Py.not_after lt) (filter f l).
Proof.
  induction 1 as [|y l Hs IH Hy]; simpl; [constructor|].
  destruct (f y); [|exact IH].
  constructor; [exact IH|].
  rewrite Forall_forall in *. intros z Hz. apply filter_In in Hz. apply Hy, Hz.
Qed.

Lemma sorted_nth (l : list A) :
  StronglySorted (Py.not_after lt) l ->
  forall m n x y, (m < n)%nat ->
    nth_error l m = Some x -> nth_error l n = Some y -> Py.not_after lt x y.
Proof.
  induction 1 as [|z l Hs IH Hz]; intros m n x y Hmn Hm Hn.
  - destruct m; discriminate.
  - destruct n as [|n]; [lia|].
    destruct m as [|m]; simpl in *.
    + injection Hm as <-. rewrite Forall_forall in Hz.
      apply Hz. eapply nth_error_In; eassumption.
    + apply (IH m n); [lia|assumption|assumption].
Qed.

(** In a sorted list a strictly smaller element stands before a larger one. *)
Lemma sorted_precedes (l : list A) (x y : A) :
  StronglySorted (Py.not_after lt) l -> In x l -> In y l -> lt x y = true ->
  precedes l x y.
Proof.
  intros Hs Hx Hy Hxy. split; [exact Hx|]. split; [exact Hy|].
  intros m n Hm Hn.
  destruct (Nat.lt_trichotomy m n) as [H|[H|H]]; [exact H| |].
  - subst n. rewrite Hm in Hn. injection Hn as ->.
    rewrite (lt_asym _ _ Hxy) in Hxy. discriminate.
  - pose proof (sorted_nth l Hs n m y x H Hn Hm) as Hna.
    unfold Py.not_after in Hna. rewrite Hna in Hxy. discriminate.
Qed.

End Sorting.

(** ** Spine orderer *)

Section SpineOrder.

Variable toc_pages : list string.

Let spine_lt : SpineEntry -> SpineEntry -> bool :=
  Py.cmp_to_key (fun a b => _sort_spine_entries a b toc_pages).

(** The comparator orders by the pair (rank, catalog position). *)
Lemma spine_lt_iff (a b : SpineEntry) :
  spine_lt a b = true <->
  (toc_index toc_pages a < toc_index toc_pages b)%Z \/
  (toc_index toc_pages a = toc_index toc_pages b /\
   (odread_spine_position a < odread_spine_position b)%Z).
Proof.
  unfold spine_lt, Py.cmp_to_key, _sort_spine_entries.
  destruct (Z.eqb_spec (toc_index toc_pages a) (toc_index toc_pages b)) as [E|E];
    simpl;
    [ destruct (Z.ltb_spec (odread_spine_position a) (odread_spine_position b))
    | destruct (Z.ltb_spec (toc_index toc_pages a) (toc_index toc_pages b)) ];
    simpl; split; intros H0; try reflexivity; try discriminate; lia.
Qed.

Lemma spine_lt_trans (x y z : SpineEntry) :
  spine_lt x y = true -> spine_lt y z = true -> spine_lt x z = true.
Proof. rewrite !spine_lt_iff. lia. Qed.

Lemma spine_lt_asym (x y : SpineEntry) :
  spine_lt x y = true -> spine_lt y x = false.
Proof.
  intros H. destruct (spine_lt y x) eqn:E; [|reflexivity].
  rewrite spine_lt_iff in H, E. lia.
Qed.

Lemma sort_spine_sorted (l : list SpineEntry) :
  StronglySorted (Py.not_after spine_lt) (sort_spine toc_pages l).
Proof. apply sorted_sorted; [exact spine_lt_trans | exact spine_lt_asym]. Qed.

Lemma sort_spine_In (l : list SpineEntry) (e : SpineEntry) :
  In e (sort_spine toc_pages l) <-> In e l.
Proof.
  split; apply Permutation_in;
    [|apply Permutation_sym]; apply sorted_perm.
Qed.

Lemma sort_spine_precedes (l : list SpineEntry) (P Q : SpineEntry) :
  In P l -> In Q l -> spine_lt P Q = true -> precedes (sort_spine toc_pages l) P Q.
Proof.
  intros HP HQ Hlt.
  apply (sorted_precedes spine_lt spine_lt_asym);
    [apply sort_spine_sorted| apply sort_spine_In, HP | apply sort_spine_In, HQ | exact Hlt].
Qed.

Lemma spine_order_In (t : LibbyMediaTypes) (l : list SpineEntry) (e : SpineEntry) :
  In e (spine_order t toc_pages l) <-> In e l /\ spine_kept t toc_pages e = true.
Proof.
  unfold spine_order. rewrite filter_In, sort_spine_In, filter_In. tauto.
Qed.

Lemma spine_order_precedes (t : LibbyMediaTypes) (l : list SpineEntry) (P Q : SpineEntry) :
  In P l -> In Q l ->
  spine_kept t toc_pages P = true -> spine_kept t toc_pages Q = true ->
  spine_lt P Q = true -> precedes (spine_order t toc_pages l) P Q.
Proof.
  intros HP HQ KP KQ Hlt.
  apply (sorted_precedes spine_lt spine_lt_asym).
  - unfold spine_order. apply filter_sorted, sort_spine_sorted.
  - apply spine_order_In. split; assumption.
  - apply spine_order_In. split; assumption.
  - exact Hlt.
Qed.

Lemma index_bound (l : list string) (x : string) (i : nat) :
  Py.index l x = Some i -> (i < length l)%nat.
Proof.
  revert i; induction l as [|y l IH]; intros i; simpl; [discriminate|].
  destruct (String.eqb y x).
  - intros [= <-]. lia.
  - destruct (Py.index l x) as [k|]; [|discriminate].
    intros [= <-]. specialize (IH k eq_refl). lia.
Qed.

Lemma index_mem (l : list string) (x : string) :
  Py.mem x l = true <-> exists i, Py.index l x = Some i.
Proof.
  induction l as [|y l IH]; simpl.
  - split; [discriminate | intros [i H]; discriminate].
  - rewrite (String.eqb_sym x y). destruct (String.eqb y x); simpl.
    + split; [eexists; reflexivity | reflexivity].
    + rewrite IH. split; intros [i H].
      * rewrite H. eexists; reflexivity.
      * destruct (Py.index l x) as [k|]; [exists k; reflexivity | discriminate].
Qed.

Lemma index_not_mem (l : list string) (x : string) :
  Py.mem x l = false <-> Py.index l x = None.
Proof.
  pose proof (index_mem l x) as H.
  destruct (Py.mem x l), (Py.index l x) as [i|]; split; intros E;
    try reflexivity; try discriminate.
  - destruct (proj1 H eq_refl); discriminate.
  - assert (false = true) by (apply H; eexists; reflexivity). discriminate.
Qed.

Lemma kept_of_mem (t : LibbyMediaTypes) (e : SpineEntry) :
  Py.mem (odread_original_path e) toc_pages = true -> spine_kept t toc_pages e = true.
Proof. unfold spine_kept. intros ->. rewrite andb_false_r. reflexivity. Qed.

(** With at most 999 pages in the table of contents every rank of a page
    is below the rank 999 of an absent path, and absent entries come last. *)
Lemma unmatched_last_short_toc (t : LibbyMediaTypes) (spine : list SpineEntry) :
  (length toc_pages <= 999)%nat ->
  unmatched_last toc_pages (spine_order t toc_pages spine).
Proof.
  intros Hlen P Q HP HQ MP MQ.
  apply spine_order_In in HP, HQ. destruct HP as [HP KP], HQ as [HQ KQ].
  apply spine_order_precedes; try assumption.
  apply spine_lt_iff. left. unfold toc_index.
  apply index_mem in MP. destruct MP as [i Hi]. rewrite Hi.
  apply index_not_mem in MQ. rewrite MQ.
  apply index_bound in Hi. lia.
Qed.

(** Entries absent from the table of contents keep the ascending order of
    their catalog positions, whatever its length. *)
Lemma unmatched_by_position (t : LibbyMediaTypes) (spine : list SpineEntry)
    (P Q : SpineEntry) :
  In P (spine_order t toc_pages spine) -> In Q (spine_order t toc_pages spine) ->
  Py.mem (odread_original_path P) toc_pages = false ->
  Py.mem (odread_original_path Q) toc_pages = false ->
  (odread_spine_position P < odread_spine_position Q)%Z ->
  precedes (spine_order t toc_pages spine) P Q.
Proof.
  intros HP HQ MP MQ Hpos.
  apply spine_order_In in HP, HQ. destruct HP as [HP KP], HQ as [HQ KQ].
  apply spine_order_precedes; try assumption.
  apply spine_lt_iff. right. unfold toc_index.
  apply index_not_mem in MP, MQ. rewrite MP, MQ. split; [reflexivity | exact Hpos].
Qed.

End SpineOrder.

(** C1, evaluated where the code departs from it: with the 1001 pages of
    [long_toc], page [p1000] has rank 1000, above the rank 999 of a path
    that is absent, so the absent entry is emitted before the page of the
    table of contents and [unmatched_last] fails. *)
Theorem sentinel_rank_overtaken :
  let p1000 := mkSpineEntry "p1000" 0 in
  let extra := mkSpineEntry "appendix" 1 in
  Py.mem "p1000" long_toc = true /\
  Py.mem "appendix" long_toc = false /\
  spine_order EBook long_toc [p1000; extra] = [extra; p1000] /\
  ~ unmatched_last long_toc (spine_order EBook long_toc [p1000; extra]).
Proof.
  intros p1000 extra.
  assert (E : spine_order EBook long_toc [p1000; extra] = [extra; p1000])
    by (vm_compute; reflexivity).
  split; [vm_compute; reflexivity|].
  split; [vm_compute; reflexivity|].
  split; [exact E|].
  rewrite E. intros H.
  destruct (H p1000 extra) as (_ & _ & Hord);
    [right; left; reflexivity | left; reflexivity
    | vm_compute; reflexivity | vm_compute; reflexivity |].
  specialize (Hord 1%nat 0%nat eq_refl eq_refl). lia.
Qed.

(** C2 as stated fails when a page occurs twice in the table of contents:
    with pages [a; b; a], [b] stands at index 1 and [a] at index 2, yet
    [a] (first index 0) is sorted before [b]. *)
Lemma repeated_toc_page_breaks_any_index_order :
  let spine := [mkSpineEntry "a" 0; mkSpineEntry "b" 1] in
  ~ follows_any_toc_index ["a"; "b"; "a"] spine (sort_spine ["a"; "b"; "a"] spine).
Proof.
  intros spine H.
  destruct (H (mkSpineEntry "b" 1) (mkSpineEntry "a" 0) 1%nat 2%nat)
    as (_ & _ & Hord);
    [right; left; reflexivity | left; reflexivity
    | reflexivity | reflexivity | lia |].
  specialize (Hord 1%nat 0%nat eq_refl eq_refl). lia.
Qed.

(** C2, amended: when the path of [P] has its first occurrence in the table
    of contents at index [i] and the path of [Q] at index [j] with [i < j],
    then [P] precedes [Q] in the sorted spine and among the emitted
    [itemref] elements; and for the spine a:0, b:1, c:2 with pages [c; a]
    the sorted order is c, a, b. *)
Theorem spine_follows_first_toc_index :
  (forall (t : LibbyMediaTypes) (toc_pages : list string) (spine : list SpineEntry)
          (P Q : SpineEntry) (i j : nat),
      In P spine -> In Q spine ->
      Py.index toc_pages (odread_original_path P) = Some i ->
      Py.index toc_pages (odread_original_path Q) = Some j ->
      (i < j)%nat ->
      precedes (sort_spine toc_pages spine) P Q /\
      precedes (spine_order t toc_pages spine) P Q) /\
  (sort_spine ["c"; "a"]
     [mkSpineEntry "a" 0; mkSpineEntry "b" 1; mkSpineEntry "c" 2])
  = [mkSpineEntry "c" 2; mkSpineEntry "a" 0; mkSpineEntry "b" 1].
Proof.
  split; [|reflexivity].
  intros t toc_pages spine P Q i j HP HQ Hi Hj Hij.
  assert (Hlt : Py.cmp_to_key (fun a b => _sort_spine_entries a b toc_pages) P Q = true).
  { apply spine_lt_iff. left. unfold toc_index. rewrite Hi, Hj. lia. }
  split; [apply sort_spine_precedes; assumption|].
  apply spine_order_precedes; try assumption;
    apply kept_of_mem, index_mem; eexists; eassumption.
Qed.

Lemma spine_follows_first_toc_index_witness :
  let a := mkSpineEntry "a" 0 in
  let b := mkSpineEntry "b" 1 in
  let c := mkSpineEntry "c" 2 in
  precedes (sort_spine ["c"; "a"; "c"] [a; b; c]) c a /\
  precedes (spine_order Magazine ["c"; "a"; "c"] [a; b; c]) c a.
Proof.
  intros a b c.
  destruct spine_follows_first_toc_index as [Hgeneral _].
  apply (Hgeneral Magazine ["c"; "a"; "c"] [a; b; c] c a 0%nat 1%nat).
  - simpl; auto.
  - simpl; auto.
  - reflexivity.
  - reflexivity.
  - lia.
Defined.

(** ** Content selector *)

Section ContentSelectorProperties.

Variable guess_type : string -> option string.
Context {Format : Type}.

(** C10: a magazine entry whose path has no guessable media type skips
    both magazine rules and is kept exactly when its path does not start
    with [/_d/]. *)
Theorem untyped_magazine_entry_kept
    (entry : RemoteEntry) (media_info : MediaInfo Format) (toc_pages : list string) :
  is_magazine (media_type_id media_info) = true ->
  guess_type (Py.tail (url_path entry)) = None ->
  _filter_content guess_type entry media_info toc_pages
  = negb (Py.startswith (url_path entry) "/_d/").
Proof.
  intros _ Hnone. unfold _filter_content. rewrite Hnone.
  destruct (Py.startswith (url_path entry) "/_d/"); reflexivity.
Qed.

End ContentSelectorProperties.

Lemma untyped_magazine_entry_kept_witness :
  _filter_content sample_guess_type (mkRemoteEntry "/pages/contents")
    sample_magazine ["index.xhtml"]
  = negb (Py.startswith "/pages/contents" "/_d/").
Proof.
  apply (untyped_magazine_entry_kept sample_guess_type
           (mkRemoteEntry "/pages/contents") sample_magazine ["index.xhtml"]).
  - reflexivity.
  - vm_compute; reflexivity.
Defined.

(** C4 as stated fails: a magazine stylesheet under [/pages/] is kept,
    because the prefix rule only applies to entries of an image type. *)
Lemma preview_stylesheet_kept : ~ @drops_every_preview_path sample_guess_type unit.
Proof.
  intros H.
  specialize (H (mkRemoteEntry "/pages/page.css") sample_magazine []).
  vm_compute in H.
  assert (E : true = false) by (apply H; [reflexivity | left; reflexivity]).
  discriminate.
Qed.

(** C4, amended: every magazine entry of an image media type whose path
    begins with [/pages/] or [/thumbnails/] is dropped; and of three images
    under [/pages/] and two XHTML pages, one of them in the table of
    contents, only that page is kept. *)
Theorem preview_images_dropped :
  (forall (guess_type : string -> option string) (Format : Type)
          (entry : RemoteEntry) (media_info : MediaInfo Format)
          (toc_pages : list string) (mt : string),
      is_magazine (media_type_id media_info) = true ->
      guess_type (Py.tail (url_path entry)) = Some mt ->
      Py.startswith mt "image/" = true ->
      Py.startswith (url_path entry) "/pages/" = true \/
      Py.startswith (url_path entry) "/thumbnails/" = true ->
      _filter_content guess_type entry media_info toc_pages = false) /\
  title_content_entries sample_guess_type
    [mkRemoteEntry "/pages/1.jpg"; mkRemoteEntry "/pages/2.jpg";
     mkRemoteEntry "/pages/3.jpg"; mkRemoteEntry "/stories/a.xhtml";
     mkRemoteEntry "/stories/b.xhtml"]
    sample_magazine ["stories/a.xhtml"]
  = [mkRemoteEntry "/stories/a.xhtml"].
Proof.
  split; [|vm_compute; reflexivity].
  intros guess_type Format entry media_info toc_pages mt Hmag Hmt Himg Hpre.
  unfold _filter_content. rewrite Hmt, Hmag.
  destruct mt as [|c mt']; [discriminate Himg|].
  cbn [Py.truthy andb]. rewrite Himg.
  destruct Hpre as [-> | ->]; [reflexivity | rewrite orb_true_r; reflexivity].
Qed.

Lemma preview_images_dropped_witness :
  _filter_content sample_guess_type (mkRemoteEntry "/thumbnails/7.jpg")
    sample_magazine ["thumbnails/7.jpg"] = false.
Proof.
  destruct preview_images_dropped as [Hgeneral _].
  apply (Hgeneral sample_guess_type unit (mkRemoteEntry "/thumbnails/7.jpg")
           sample_magazine ["thumbnails/7.jpg"] "image/jpeg").
  - reflexivity.
  - vm_compute; reflexivity.
  - reflexivity.
  - right; reflexivity.
Defined.

(** ** Magazine style sheets *)


Section MatcherFacts.

Context {T : Type}.

(** A literal matches only a text that starts with it. *)
Lemma matches_lit (p s : string) (g : Re.groups)
    (k : string -> Re.groups -> option T) (x : T) :
  Re.matches (Re.lit p) s g k = Some x ->
  exists s', s = (p ++ s')%string /\ k s' g = Some x.
Proof.
  revert s; induction p as [|c p IH]; intros s; simpl.
  - intros H. exists s. split; [reflexivity | exact H].
  - destruct s as [|a s]; [discriminate|].
    destruct (Ascii.eqb_spec a c) as [->|]; [|discriminate].
    intros H. destruct (IH s H) as (s' & -> & Hk).
    exists s'. split; [reflexivity | exact Hk].
Qed.

(** A repetition of a class reads characters of the class and nothing else. *)
Lemma star_loop_class (p : ascii -> bool) (greedy : bool)
    (k : string -> Re.groups -> option T) (g : Re.groups) (x : T) (fuel : nat) :
  forall s,
    Re.star_loop (Re.matches (Re.Cls p)) greedy k fuel s g = Some x ->
    exists ws s', s = (ws ++ s')%string /\
                  (forall t, skip_class p (ws ++ t) = skip_class p t) /\
                  k s' g = Some x.
Proof.
  induction fuel as [|fuel IH]; intros s; cbn [Re.star_loop].
  - intros H. exists EmptyString, s.
    split; [reflexivity | split; [intros t; reflexivity | exact H]].
  - set (again := Re.matches (Re.Cls p) s g _).
    assert (Hagain : again = Some x ->
      exists ws s', s = (ws ++ s')%string /\
                    (forall t, skip_class p (ws ++ t) = skip_class p t) /\
                    k s' g = Some x).
    { subst again. destruct s as [|a s']; simpl; [discriminate|].
      destruct (p a) eqn:Hp; [|discriminate].
      destruct (String.length s' <? S (String.length s'))%nat; [|discriminate].
      intros H. destruct (IH s' H) as (ws & s'' & -> & Hws & Hk).
      exists (String a ws), s''.
      split; [reflexivity | split; [|exact Hk]].
      intros t. simpl. rewrite Hp. apply Hws. }
    assert (Hstop : k s g = Some x ->
      exists ws s', s = (ws ++ s')%string /\
                    (forall t, skip_class p (ws ++ t) = skip_class p t) /\
                    k s' g = Some x).
    { intros H. exists EmptyString, s.
      split; [reflexivity | split; [intros t; reflexivity | exact H]]. }
    clearbody again.
    destruct greedy.
    + destruct again as [y|]; [exact Hagain | exact Hstop].
    + destruct (k s g) as [y|]; [exact Hstop | exact Hagain].
Qed.

End MatcherFacts.

(** *** The fuel of the matcher

    A match reaches its continuation only with a suffix of the text, so
    the count of iterations that [matches] and [sub] start with is never
    used up before the text is. *)

Section MatcherFuel.

Context {T : Type}.

Lemma star_loop_via_suffix
    (step : string -> Re.groups -> (string -> Re.groups -> option T) -> option T)
    (greedy : bool) :
  Re.via_suffix step ->
  forall fuel, Re.via_suffix (fun s g k => Re.star_loop step greedy k fuel s g).
Proof.
  intros Hstep fuel. induction fuel as [|fuel IH]; intros s g k x; cbn [Re.star_loop].
  - intros H. exists s, g. split; [lia | exact H].
  - set (again := step s g _).
    assert (Hagain : again = Some x ->
              exists s' g', (String.length s' <= String.length s)%nat /\ k s' g' = Some x).
    { subst again. intros H. apply Hstep in H. destruct H as (s1 & g1 & Hlen & H).
      destruct (String.length s1 <? String.length s)%nat; [|discriminate].
      apply IH in H. destruct H as (s2 & g2 & Hlen2 & H).
      exists s2, g2. split; [lia | exact H]. }
    assert (Hstop : k s g = Some x ->
              exists s' g', (String.length s' <= String.length s)%nat /\ k s' g' = Some x).
    { intros H. exists s, g. split; [lia | exact H]. }
    clearbody again. destruct greedy.
    + destruct again; [exact Hagain | exact Hstop].
    + destruct (k s g); [exact Hstop | exact Hagain].
Qed.

Lemma matches_via_suffix (r : Re.regex) : Re.via_suffix (T := T) (Re.matches r).
Proof.
  induction r as [|c| |p|r1 IH1 r2 IH2|greedy r IH|n r IH]; intros s g k x;
    cbn [Re.matches].
  - intros H. exists s, g. split; [lia | exact H].
  - destruct s as [|a s']; [discriminate|].
    destruct (Ascii.eqb a c); [|discriminate].
    intros H. exists s', g. split; [simpl; lia | exact H].
  - destruct s as [|a s']; [discriminate|].
    destruct (Re.is_newline a); [discriminate|].
    intros H. exists s', g. split; [simpl; lia | exact H].
  - destruct s as [|a s']; [discriminate|].
    destruct (p a); [|discriminate].
    intros H. exists s', g. split; [simpl; lia | exact H].
  - intros H. apply IH1 in H. destruct H as (s1 & g1 & Hlen1 & H).
    apply IH2 in H. destruct H as (s2 & g2 & Hlen2 & H).
    exists s2, g2. split; [lia | exact H].
  - apply (star_loop_via_suffix (Re.matches r) greedy IH (String.length s)).
  - intros H. apply IH in H. destruct H as (s1 & g1 & Hlen1 & H).
    exists s1, ((n, Re.consumed s s1) :: g1). split; [exact Hlen1 | exact H].
Qed.

Lemma star_loop_ext
    (step : string -> Re.groups -> (string -> Re.groups -> option T) -> option T)
    (greedy : bool) :
  Re.continuation_ext step ->
  forall fuel, Re.continuation_ext (fun s g k => Re.star_loop step greedy k fuel s g).
Proof.
  intros Hstep fuel. induction fuel as [|fuel IH]; intros s g k1 k2 Hk;
    cbn [Re.star_loop].
  - apply Hk. lia.
  - rewrite (Hk s g) by lia.
    rewrite (Hstep s g
               (fun s' g' => if (String.length s' <? String.length s)%nat
                             then Re.star_loop step greedy k1 fuel s' g' else None)
               (fun s' g' => if (String.length s' <? String.length s)%nat
                             then Re.star_loop step greedy k2 fuel s' g' else None)).
    + reflexivity.
    + intros s' g' Hlen.
      destruct (String.length s' <? String.length s)%nat; [|reflexivity].
      apply IH. intros s2 g2 Hlen2. apply Hk. lia.
Qed.

Lemma matches_ext (r : Re.regex) : Re.continuation_ext (T := T) (Re.matches r).
Proof.
  induction r as [|c| |p|r1 IH1 r2 IH2|greedy r IH|n r IH]; intros s g k1 k2 Hk;
    cbn [Re.matches].
  - apply Hk. lia.
  - destruct s as [|a s']; [reflexivity|].
    destruct (Ascii.eqb a c); [|reflexivity]. apply Hk. simpl. lia.
  - destruct s as [|a s']; [reflexivity|].
    destruct (Re.is_newline a); [reflexivity|]. apply Hk. simpl. lia.
  - destruct s as [|a s']; [reflexivity|].
    destruct (p a); [|reflexivity]. apply Hk. simpl. lia.
  - apply IH1. intros s1 g1 Hlen1. apply IH2. intros s2 g2 Hlen2. apply Hk. lia.
  - apply (star_loop_ext (Re.matches r) greedy IH (String.length s)). exact Hk.
  - apply IH. intros s1 g1 Hlen1. apply Hk. exact Hlen1.
Qed.

(** More iterations than the text has characters change nothing. *)
Lemma star_loop_fuel (r : Re.regex) (greedy : bool)
    (k : string -> Re.groups -> option T) (n : nat) :
  forall m s g,
    (String.length s <= n)%nat -> (String.length s <= m)%nat ->
    Re.star_loop (Re.matches r) greedy k n s g
    = Re.star_loop (Re.matches r) greedy k m s g.
Proof.
  assert (Hnone : forall s g fuel,
    String.length s = 0%nat ->
    Re.matches r s g
      (fun s' g' => if (String.length s' <? String.length s)%nat
                    then Re.star_loop (Re.matches r) greedy k fuel s' g' else None)
    = None).
  { intros s g fuel Hs.
    destruct (Re.matches r s g _) as [x|] eqn:E; [|reflexivity].
    apply matches_via_suffix in E. destruct E as (s' & g' & Hlen & E).
    destruct (Nat.ltb_spec (String.length s') (String.length s)); [lia | discriminate]. }
  assert (Hzero : forall s g fuel,
    String.length s = 0%nat ->
    Re.star_loop (Re.matches r) greedy k fuel s g = k s g).
  { intros s g [|fuel] Hs; cbn [Re.star_loop]; [reflexivity|].
    rewrite (Hnone s g fuel Hs). destruct greedy; [reflexivity|].
    destruct (k s g); reflexivity. }
  induction n as [|n IH]; intros m s g Hn Hm.
  - rewrite !Hzero by lia. reflexivity.
  - destruct m as [|m]; [rewrite !Hzero by lia; reflexivity|].
    cbn [Re.star_loop].
    rewrite (matches_ext r s g
               (fun s' g' => if (String.length s' <? String.length s)%nat
                             then Re.star_loop (Re.matches r) greedy k n s' g' else None)
               (fun s' g' => if (String.length s' <? String.length s)%nat
                             then Re.star_loop (Re.matches r) greedy k m s' g' else None)).
    + reflexivity.
    + intros s' g' _.
      destruct (Nat.ltb_spec (String.length s') (String.length s)); [|reflexivity].
      apply IH; lia.
Qed.

End MatcherFuel.

Lemma match_at_suffix (r : Re.regex) (s s' : string) (g : Re.groups) :
  Re.match_at r s = Some (s', g) -> (String.length s' <= String.length s)%nat.
Proof.
  unfold Re.match_at. intros H. apply matches_via_suffix in H.
  destruct H as (s1 & g1 & Hlen & [= <- _]). exact Hlen.
Qed.

(** [sub] is given enough iterations: more of them change nothing. *)
Lemma sub_loop_fuel (r : Re.regex) (repl : Re.groups -> string) (n : nat) :
  forall m s,
    (String.length s < n)%nat -> (String.length s < m)%nat ->
    Re.sub_loop n r repl s = Re.sub_loop m r repl s.
Proof.
  induction n as [|n IH]; intros m s Hn Hm; [lia|].
  destruct m as [|m]; [lia|]. cbn [Re.sub_loop].
  destruct (Re.match_at r s) as [[s' g]|] eqn:E.
  - apply match_at_suffix in E.
    destruct (Nat.ltb_spec (String.length s') (String.length s)).
    + rewrite (IH m s') by lia. reflexivity.
    + destruct s as [|c t]; [reflexivity|]. simpl in Hn, Hm.
      rewrite (IH m t) by lia. reflexivity.
  - destruct s as [|c t]; [reflexivity|]. simpl in Hn, Hm.
    rewrite (IH m t) by lia. reflexivity.
Qed.

Lemma strip_prefix_app (p s : string) : strip_prefix p (p ++ s) = Some s.
Proof.
  induction p as [|c p IH]; simpl; [reflexivity|].
  rewrite Ascii.eqb_refl. exact IH.
Qed.

(** The pattern of the patch matches only where an [#article-body] rule
    block opens. *)
Lemma css_match_opens_block (s : string) (m : string * Re.groups) :
  Re.match_at patch_magazine_css_re s = Some m ->
  article_body_block_opens s = true.
Proof.
  unfold Re.match_at, patch_magazine_css_re. cbn [Re.matches].
  intros H. apply matches_lit in H. destruct H as (s1 & -> & H).
  cbn [Re.matches] in H.
  apply star_loop_class in H. destruct H as (ws & s2 & -> & Hws & H).
  cbn [Re.matches] in H.
  destruct s2 as [|a s3]; [discriminate|].
  destruct (Ascii.eqb_spec a "{"%char) as [->|]; [|discriminate].
  unfold article_body_block_opens. rewrite strip_prefix_app, Hws.
  vm_compute. reflexivity.
Qed.

Lemma sub_loop_without_block (repl : Re.groups -> string) (fuel : nat) :
  forall s, has_article_body_block s = false ->
            Re.sub_loop fuel patch_magazine_css_re repl s = s.
Proof.
  induction fuel as [|fuel IH]; intros s Hs; [reflexivity|].
  cbn [Re.sub_loop].
  destruct (Re.match_at patch_magazine_css_re s) as [m|] eqn:Em.
  - apply css_match_opens_block in Em.
    destruct s; cbn [has_article_body_block] in Hs; rewrite Em in Hs; discriminate.
  - destruct s as [|c t]; [reflexivity|].
    cbn [has_article_body_block] in Hs.
    apply orb_false_iff in Hs. destruct Hs as [_ Ht].
    rewrite (IH t Ht). reflexivity.
Qed.

(** [has_article_body_block] holds exactly of the texts in which the
    selector, white space and an opening brace follow one another. *)
Lemma strip_prefix_some (p s r : string) :
  strip_prefix p s = Some r -> s = (p ++ r)%string.
Proof.
  revert s; induction p as [|a p IH]; intros s; simpl.
  - intros [= ->]. reflexivity.
  - destruct s as [|b s]; [discriminate|].
    destruct (Ascii.eqb_spec a b) as [->|]; [|discriminate].
    intros H. rewrite (IH s H). reflexivity.
Qed.

Lemma skip_class_split (p : ascii -> bool) (s : string) :
  exists ws, s = (ws ++ skip_class p s)%string /\ all_of p ws = true.
Proof.
  induction s as [|c s IH]; simpl.
  - exists EmptyString. split; reflexivity.
  - destruct (p c) eqn:E.
    + destruct IH as (ws & Hs & Hws). exists (String c ws). simpl.
      rewrite <- Hs, E, Hws. split; reflexivity.
    + exists EmptyString. split; reflexivity.
Qed.

Lemma skip_class_all (p : ascii -> bool) (ws t : string) :
  all_of p ws = true -> skip_class p (ws ++ t) = skip_class p t.
Proof.
  induction ws as [|c ws IH]; simpl; [reflexivity|].
  intros H. apply andb_true_iff in H. destruct H as [-> H]. apply IH, H.
Qed.

Lemma has_article_body_block_iff (s : string) :
  has_article_body_block s = true <->
  exists pre ws post,
    s = (pre ++ "#article-body" ++ ws ++ "{" ++ post)%string /\
    all_of Re.is_space ws = true.
Proof.
  split.
  - induction s as [|c s IH]; cbn [has_article_body_block]; intros H;
      apply orb_true_iff in H.
    + destruct H as [H|H]; [discriminate H | discriminate H].
    + destruct H as [H|H].
      * unfold article_body_block_opens in H.
        destruct (strip_prefix "#article-body" (String c s)) as [r|] eqn:E;
          [|discriminate].
        apply strip_prefix_some in E.
        destruct (skip_class_split Re.is_space r) as (ws & Hr & Hws).
        destruct (skip_class Re.is_space r) as [|b post]; [discriminate|].
        cbn [Py.startswith] in H. apply andb_true_iff in H. destruct H as [H _].
        apply Ascii.eqb_eq in H. subst b.
        exists EmptyString, ws, post. split; [|exact Hws].
        rewrite E, Hr. reflexivity.
      * destruct (IH H) as (pre & ws & post & -> & Hws).
        exists (String c pre), ws, post. split; [reflexivity | exact Hws].
  - intros (pre & ws & post & -> & Hws).
    induction pre as [|c pre IH].
    + assert (E : article_body_block_opens
                    ("#article-body" ++ ws ++ "{" ++ post)%string = true).
      { unfold article_body_block_opens.
        rewrite strip_prefix_app, (skip_class_all _ _ _ Hws). reflexivity. }
      change ("" ++ "#article-body" ++ ws ++ "{" ++ post)%string
        with ("#article-body" ++ ws ++ "{" ++ post)%string.
      destruct ("#article-body" ++ ws ++ "{" ++ post)%string;
        cbn [has_article_body_block]; rewrite E; reflexivity.
    + change (String c pre ++ "#article-body" ++ ws ++ "{" ++ post)%string
        with (String c (pre ++ "#article-body" ++ ws ++ "{" ++ post))%string.
      cbn [has_article_body_block]. rewrite IH. apply orb_true_r.
Qed.

(** C5: the sample style sheet loses its [overflow-x: hidden;] declaration
    and nothing else, and a style sheet in which no [#article-body] rule
    block opens is returned as it is. *)
Theorem patch_magazine_css_scoped :
  patch_magazine_css "#article-body{color:red;overflow-x: hidden;padding:0}"
  = "#article-body{color:red;padding:0}" /\
  forall text : string,
    has_article_body_block text = false -> patch_magazine_css text = text.
Proof.
  split; [vm_compute; reflexivity|].
  intros text H.
  unfold patch_magazine_css, Re.sub. apply sub_loop_without_block, H.
Qed.

Lemma patch_magazine_css_scoped_witness :
  patch_magazine_css
    ".page{overflow-x: hidden;margin:0} #article-body-note{overflow-x: hidden;top:0}"
  = ".page{overflow-x: hidden;margin:0} #article-body-note{overflow-x: hidden;top:0}".
Proof.
  destruct patch_magazine_css_scoped as [_ Hgeneral].
  apply (Hgeneral
    ".page{overflow-x: hidden;margin:0} #article-body-note{overflow-x: hidden;top:0}").
  vm_compute. reflexivity.
Defined.

(** ** Attributes *)

Section Attributes.

Import Bs4.

Lemma get_set_same (a : attrs) (k v : string) : get (set a k v) k = Some v.
Proof.
  induction a as [|[k' v'] a IH]; simpl.
  - rewrite String.eqb_refl. reflexivity.
  - destruct (String.eqb k' k) eqn:E; simpl; rewrite E; [reflexivity | exact IH].
Qed.

Lemma get_set_other (a : attrs) (k k' v : string) :
  k <> k' -> get (set a k' v) k = get a k.
Proof.
  intros Hne. induction a as [|[k0 v0] a IH]; simpl.
  - destruct (String.eqb_spec k' k); [congruence | reflexivity].
  - destruct (String.eqb_spec k0 k') as [->|]; simpl.
    + destruct (String.eqb_spec k' k); [congruence | reflexivity].
    + destruct (String.eqb k0 k); [reflexivity | exact IH].
Qed.

Lemma get_set_default_other (a : attrs) (k k' v : string) :
  k <> k' -> get (set_default a k' v) k = get a k.
Proof.
  intros Hne. unfold set_default.
  destruct (Py.truthy (get a k')); [reflexivity | apply get_set_other, Hne].
Qed.

Lemma truthy_set_default (a : attrs) (k v : string) :
  v <> EmptyString -> Py.truthy (get (set_default a k v) k) = true.
Proof.
  intros Hv. unfold set_default.
  destruct (Py.truthy (get a k)) eqn:E; [exact E|].
  rewrite get_set_same. destruct v; [contradiction | reflexivity].
Qed.

Lemma set_default_fixed (a : attrs) (k v : string) :
  Py.truthy (get a k) = true -> set_default a k v = a.
Proof. unfold set_default. intros ->. reflexivity. Qed.

(** A filter on the keys that keeps the key [k] commutes with [get],
    [set] and [set_default] at [k]. *)
Section KeyFilter.

Variable keep : string -> bool.

Let kfilter (a : attrs) : attrs := filter (fun kv => keep (fst kv)) a.

Lemma get_filter (a : attrs) (k : string) :
  keep k = true -> get (kfilter a) k = get a k.
Proof.
  intros Hk. induction a as [|[k0 v0] a IH]; simpl; [reflexivity|].
  destruct (keep k0) eqn:E0; simpl.
  - destruct (String.eqb k0 k); [reflexivity | exact IH].
  - destruct (String.eqb_spec k0 k) as [->|]; [congruence | exact IH].
Qed.

Lemma filter_set (a : attrs) (k v : string) :
  keep k = true -> kfilter (set a k v) = set (kfilter a) k v.
Proof.
  intros Hk. induction a as [|[k0 v0] a IH]; simpl.
  - rewrite Hk. reflexivity.
  - destruct (String.eqb_spec k0 k) as [->|Hne]; simpl.
    + rewrite Hk. simpl. rewrite String.eqb_refl. reflexivity.
    + destruct (keep k0) eqn:E0; simpl.
      * destruct (String.eqb_spec k0 k); [contradiction|]. rewrite IH. reflexivity.
      * exact IH.
Qed.

Lemma filter_set_default (a : attrs) (k v : string) :
  keep k = true -> kfilter (set_default a k v) = set_default (kfilter a) k v.
Proof.
  intros Hk. unfold set_default. rewrite (get_filter a k Hk).
  destruct (Py.truthy (get a k)); [reflexivity | apply filter_set, Hk].
Qed.

Lemma filter_filter (a : attrs) : kfilter (kfilter a) = kfilter a.
Proof.
  unfold kfilter. induction a as [|[k0 v0] a IH]; simpl; [reflexivity|].
  destruct (keep k0) eqn:E0; simpl; [rewrite E0, IH; reflexivity | exact IH].
Qed.

End KeyFilter.

(** Deleting a list of keys one after the other is one filter on the keys. *)
Lemma fold_del (keys : list string) (a : attrs) :
  fold_left del keys a
  = filter (fun kv => negb (existsb (String.eqb (fst kv)) keys)) a.
Proof.
  revert a; induction keys as [|k keys IH]; intros a; simpl.
  - induction a as [|kv a IHa]; simpl; [reflexivity | rewrite <- IHa; reflexivity].
  - rewrite IH. unfold del. clear IH.
    induction a as [|[k0 v0] a IHa]; simpl; [reflexivity|].
    destruct (String.eqb k0 k); simpl; [exact IHa|].
    destruct (existsb (String.eqb k0) keys); simpl; [exact IHa | rewrite IHa; reflexivity].
Qed.

End Attributes.

(** ** What the cleanup does to one tag *)

Section CleanupHead.

Import Bs4.

Lemma fold_del_attribute (keys : list string) (name : string) (a : attrs) :
  fold_left (fun h attribute => del_attribute attribute h) keys (name, a)
  = (name, fold_left del keys a).
Proof.
  revert a; induction keys as [|k keys IH]; intros a; simpl; [reflexivity|].
  unfold del_attribute at 2. simpl. apply IH.
Qed.

Lemma cleanup_head_closed (version name : string) (a : attrs) :
  cleanup_head version (name, a)
  = (clean_name (String.eqb version "2.0") name,
     clean_attributes (String.eqb version "2.0") name a).
Proof.
  unfold cleanup_head, clean_name, clean_attributes.
  destruct (String.eqb version "2.0").
  - rewrite fold_del_attribute, fold_del. fold kept_attribute.
    change (filter (fun kv => kept_attribute (fst kv)) a) with (kept_attributes a).
    cbn [fold_left]. unfold convert_tag, svg_namespaces. cbn [fst snd andb].
    destruct (String.eqb_spec name "nav") as [->|Hnav]; [reflexivity|].
    cbn [fst snd orb].
    destruct (String.eqb_spec name "section") as [->|Hsec]; [reflexivity|].
    cbn [fst snd].
    destruct (String.eqb_spec name "svg") as [->|Hsvg]; [reflexivity|].
    cbn [fst snd].
    destruct (String.eqb_spec name "figcaption") as [->|Hfig]; reflexivity.
  - cbn [fold_left]. unfold convert_tag, svg_namespaces. cbn [fst snd andb orb].
    destruct (String.eqb_spec name "svg") as [->|Hsvg]; [reflexivity|].
    cbn [fst snd].
    destruct (String.eqb_spec name "figcaption") as [->|Hfig]; reflexivity.
Qed.

Lemma clean_name_cases (strict : bool) (name : string) :
  clean_name strict name = "div" \/
  (clean_name strict name = name /\
   String.eqb name "figcaption" = false /\
   (strict = true -> String.eqb name "nav" = false /\ String.eqb name "section" = false)).
Proof.
  unfold clean_name.
  destruct (String.eqb name "figcaption"); [left; rewrite orb_true_r; reflexivity|].
  destruct strict; simpl.
  - destruct (String.eqb name "nav"); [left; reflexivity|].
    destruct (String.eqb name "section"); [left; reflexivity|].
    right. repeat split.
  - right. repeat split; discriminate.
Qed.

Lemma clean_name_idem (strict : bool) (name : string) :
  clean_name strict (clean_name strict name) = clean_name strict name.
Proof.
  destruct (clean_name_cases strict name) as [->|(E & Hfig & Hs)].
  - destruct strict; reflexivity.
  - rewrite E. unfold clean_name. rewrite Hfig.
    destruct strict; [|reflexivity].
    destruct (Hs eq_refl) as [-> ->]. reflexivity.
Qed.

Lemma clean_name_svg (strict : bool) (name : string) :
  String.eqb (clean_name strict name) "svg" = String.eqb name "svg".
Proof.
  destruct (clean_name_cases strict name) as [E|(E & _)]; rewrite E; [|reflexivity].
  unfold clean_name in E.
  destruct (String.eqb_spec name "svg") as [->|]; [|reflexivity].
  destruct strict; discriminate.
Qed.

Lemma kept_attributes_idem (a : attrs) : kept_attributes (kept_attributes a) = kept_attributes a.
Proof. apply filter_filter. Qed.

Lemma kept_svg_attributes (a : attrs) :
  kept_attributes (svg_attributes a) = svg_attributes (kept_attributes a).
Proof.
  unfold svg_attributes, kept_attributes.
  rewrite !filter_set_default by reflexivity. reflexivity.
Qed.

Lemma svg_attributes_idem (a : attrs) : svg_attributes (svg_attributes a) = svg_attributes a.
Proof.
  unfold svg_attributes at 1.
  rewrite (set_default_fixed (svg_attributes a) "xmlns").
  - apply set_default_fixed. unfold svg_attributes.
    apply truthy_set_default. discriminate.
  - unfold svg_attributes. rewrite get_set_default_other by discriminate.
    apply truthy_set_default. discriminate.
Qed.

Lemma clean_attributes_idem (strict : bool) (name : string) (a : attrs) :
  clean_attributes strict (clean_name strict name) (clean_attributes strict name a)
  = clean_attributes strict name a.
Proof.
  unfold clean_attributes. rewrite clean_name_svg.
  destruct (String.eqb name "svg"), strict;
    rewrite ?kept_svg_attributes, ?kept_attributes_idem, ?svg_attributes_idem;
    reflexivity.
Qed.

(** Run on one tag, the loops reach a tag that they leave as it is. *)
Lemma cleanup_head_idem (version : string) (h : head) :
  cleanup_head version (cleanup_head version h) = cleanup_head version h.
Proof.
  destruct h as [name a]. rewrite !cleanup_head_closed.
  rewrite clean_name_idem, clean_attributes_idem. reflexivity.
Qed.

(** A tag named [html] that the loops leave as it is stays so when it is
    given its namespace. *)
Lemma cleanup_head_html (version : string) (a : attrs) (v : string) :
  cleanup_head version ("html", a) = ("html", a) ->
  cleanup_head version ("html", set_default a "xmlns" v)
  = ("html", set_default a "xmlns" v).
Proof.
  rewrite !cleanup_head_closed. unfold clean_attributes. simpl String.eqb at 2 4.
  cbv iota. intros H.
  assert (Hn : clean_name (String.eqb version "2.0") "html" = "html")
    by (destruct (String.eqb version "2.0"); reflexivity).
  rewrite Hn in *. f_equal.
  destruct (String.eqb version "2.0"); [|reflexivity].
  injection H as H. unfold kept_attributes in *.
  rewrite filter_set_default by reflexivity. rewrite H. reflexivity.
Qed.

End CleanupHead.

(** ** Trees *)

Section Trees.

Import Bs4.

(** Induction on a tree, with the hypothesis for all contents of a tag *)
Lemma node_induction (P : node -> Prop) :
  (forall name a contents, Forall P contents -> P (Tag name a contents)) ->
  (forall s, P (Doctype s)) ->
  (forall k s, P (Str k s)) ->
  forall n, P n.
Proof.
  intros Htag Hdoc Hstr. fix IH 1. intros [name a contents|s|k s].
  - apply Htag. induction contents as [|c contents IHc]; constructor.
    + apply IH.
    + exact IHc.
  - apply Hdoc.
  - apply Hstr.
Qed.

Lemma map_tags_heads (f : head -> head) (n : node) :
  heads (map_tags f n) = map f (heads n).
Proof.
  induction n as [name a contents IH|s|k s] using node_induction; simpl;
    [|reflexivity|reflexivity].
  destruct (f (name, a)) as [name' a'] eqn:E. simpl. f_equal.
  induction IH as [|c contents Hc _ IHcs]; simpl; [reflexivity|].
  rewrite map_app, Hc, IHcs. reflexivity.
Qed.

Lemma map_soup_heads (f : head -> head) (s : soup) :
  soup_heads (map_soup f s) = map f (soup_heads s).
Proof.
  unfold soup_heads, map_soup. induction s as [|c s IH]; simpl; [reflexivity|].
  rewrite map_app, map_tags_heads, IH. reflexivity.
Qed.

(** A loop that leaves every tag as it is leaves the tree as it is. *)
Lemma map_tags_fixed (f : head -> head) (n : node) :
  Forall (fun h => f h = h) (heads n) -> map_tags f n = n.
Proof.
  induction n as [name a contents IH|s|k s] using node_induction; simpl;
    [|reflexivity|reflexivity].
  intros H. inversion H as [|h hs Hh Hrest]; subst. rewrite Hh. simpl. f_equal.
  clear H Hh. induction IH as [|c contents Hc _ IHcs]; simpl; [reflexivity|].
  simpl in Hrest. apply Forall_app in Hrest. destruct Hrest as [H1 H2].
  rewrite (Hc H1), (IHcs H2). reflexivity.
Qed.

Lemma map_soup_fixed (f : head -> head) (s : soup) :
  Forall (fun h => f h = h) (soup_heads s) -> map_soup f s = s.
Proof.
  unfold soup_heads, map_soup. induction s as [|c s IH]; simpl; [reflexivity|].
  intros H. apply Forall_app in H. destruct H as [H1 H2].
  rewrite (map_tags_fixed f c H1), (IH H2). reflexivity.
Qed.

(** Two loops in a row are one loop with both bodies. *)
Lemma map_tags_map_tags (f g : head -> head) (n : node) :
  map_tags f (map_tags g n) = map_tags (fun h => f (g h)) n.
Proof.
  induction n as [name a contents IH|s|k s] using node_induction; simpl;
    [|reflexivity|reflexivity].
  rewrite <- surjective_pairing. f_equal.
  rewrite map_map. induction IH as [|c contents Hc _ IHcs]; simpl; [reflexivity|].
  rewrite Hc, IHcs. reflexivity.
Qed.

Lemma map_soup_map_soup (f g : head -> head) (s : soup) :
  map_soup f (map_soup g s) = map_soup (fun h => f (g h)) s.
Proof.
  unfold map_soup. rewrite map_map. apply map_ext. intros n. apply map_tags_map_tags.
Qed.

Lemma map_tags_ext (f g : head -> head) (n : node) :
  (forall h, f h = g h) -> map_tags f n = map_tags g n.
Proof.
  intros Hfg. induction n as [name a contents IH|s|k s] using node_induction; simpl;
    [|reflexivity|reflexivity].
  rewrite Hfg. f_equal.
  induction IH as [|c contents Hc _ IHcs]; simpl; [reflexivity|].
  rewrite Hc, IHcs. reflexivity.
Qed.

Lemma map_soup_ext (f g : head -> head) (s : soup) :
  (forall h, f h = g h) -> map_soup f s = map_soup g s.
Proof. intros H. unfold map_soup. apply map_ext. intros n. apply map_tags_ext, H. Qed.

Lemma map_soup_id (s : soup) : map_soup (fun h => h) s = s.
Proof. apply map_soup_fixed. apply Forall_forall. reflexivity. Qed.

(** A list of loops, one per element of [xs], is one loop. *)
Lemma fold_map_soup {X : Type} (body : X -> head -> head) (xs : list X) (s : soup) :
  fold_left (fun s x => map_soup (body x) s) xs s
  = map_soup (fun h => fold_left (fun h x => body x h) xs h) s.
Proof.
  revert s; induction xs as [|x xs IH]; intros s; simpl.
  - symmetry. apply map_soup_id.
  - rewrite IH, map_soup_map_soup. reflexivity.
Qed.

End Trees.

Section Decompose.

Import Bs4.

Variable name : string.

Let other (h : head) : Prop := String.eqb (fst h) name = false.

Lemma is_named_decompose_in (n : node) :
  is_named name (decompose_in name n) = is_named name n.
Proof. destruct n; reflexivity. Qed.

Lemma decompose_in_heads (Q : head -> Prop) (n : node) :
  Forall Q (heads n) -> Forall Q (heads (decompose_in name n)).
Proof.
  induction n as [x a contents IH|s|k s] using node_induction; simpl;
    [|trivial|trivial].
  intros H. inversion H as [|h hs Hh Hrest]; subst. constructor; [exact Hh|].
  clear H Hh. induction IH as [|c contents Hc _ IHcs]; simpl; [constructor|].
  simpl in Hrest. apply Forall_app in Hrest. destruct Hrest as [H1 H2].
  destruct (negb (is_named name (decompose_in name c))); simpl.
  - apply Forall_app. split; [apply Hc, H1 | apply IHcs, H2].
  - apply IHcs, H2.
Qed.

Lemma decompose_all_heads (Q : head -> Prop) (s : soup) :
  Forall Q (soup_heads s) -> Forall Q (soup_heads (decompose_all name s)).
Proof.
  unfold soup_heads, decompose_all.
  induction s as [|c s IH]; simpl; [trivial|].
  intros H. apply Forall_app in H. destruct H as [H1 H2].
  destruct (negb (is_named name (decompose_in name c))); simpl.
  - apply Forall_app. split; [apply decompose_in_heads, H1 | apply IH, H2].
  - apply IH, H2.
Qed.

(** No tag of the name is left in what is kept of a tree. *)
Lemma decompose_in_none (n : node) :
  is_named name n = false -> Forall other (heads (decompose_in name n)).
Proof.
  induction n as [x a contents IH|s|k s] using node_induction; simpl;
    [|constructor|constructor].
  intros Hx. constructor; [exact Hx|].
  clear Hx. induction IH as [|c contents Hc _ IHcs]; simpl; [constructor|].
  rewrite is_named_decompose_in.
  destruct (is_named name c) eqn:E; simpl; [exact IHcs|].
  apply Forall_app. split; [apply Hc, eq_refl | exact IHcs].
Qed.

Lemma decompose_all_none (s : soup) :
  Forall other (soup_heads (decompose_all name s)).
Proof.
  unfold soup_heads, decompose_all.
  induction s as [|c s IH]; simpl; [constructor|].
  rewrite is_named_decompose_in.
  destruct (is_named name c) eqn:E; simpl; [exact IH|].
  apply Forall_app. split; [apply decompose_in_none, E | exact IH].
Qed.

(** Without a tag of the name nothing is taken out. *)
Lemma decompose_in_fixed (n : node) :
  Forall other (heads n) -> decompose_in name n = n.
Proof.
  induction n as [x a contents IH|s|k s] using node_induction; simpl;
    [|reflexivity|reflexivity].
  intros H. inversion H as [|h hs Hh Hrest]; subst. f_equal.
  clear H Hh. induction IH as [|c contents Hc _ IHcs]; simpl; [reflexivity|].
  simpl in Hrest. apply Forall_app in Hrest. destruct Hrest as [H1 H2].
  rewrite (Hc H1), (IHcs H2).
  destruct c as [y b cs| |]; simpl; [|reflexivity|reflexivity].
  inversion H1 as [|h hs Hy _]; subst. unfold other in Hy. simpl in Hy.
  rewrite Hy. reflexivity.
Qed.

Lemma decompose_all_fixed (s : soup) :
  Forall other (soup_heads s) -> decompose_all name s = s.
Proof.
  unfold soup_heads, decompose_all.
  induction s as [|c s IH]; simpl; [reflexivity|].
  intros H. apply Forall_app in H. destruct H as [H1 H2].
  rewrite (decompose_in_fixed c H1), (IH H2).
  destruct c as [y b cs| |]; simpl; [|reflexivity|reflexivity].
  inversion H1 as [|h hs Hy _]; subst. unfold other in Hy. simpl in Hy.
  rewrite Hy. reflexivity.
Qed.

Lemma decompose_all_doctypes (s : soup) :
  top_doctypes (decompose_all name s) = top_doctypes s.
Proof.
  unfold top_doctypes, decompose_all.
  induction s as [|c s IH]; simpl; [reflexivity|].
  destruct c as [y b cs|d|k t]; simpl.
  - destruct (negb (String.eqb y name)); simpl; exact IH.
  - rewrite IH. reflexivity.
  - exact IH.
Qed.

End Decompose.

Section FirstTag.

Import Bs4.

Variable p : head -> bool.

(** The search inside a tag goes through its contents. *)
Lemma find_in_tag (name : string) (a : attrs) (contents : list node) :
  find_in p (Tag name a contents)
  = if p (name, a) then Some (Tag name a contents) else find p contents.
Proof.
  simpl. destruct (p (name, a)); [reflexivity|].
  induction contents as [|c contents IH]; simpl; [reflexivity|].
  rewrite IH. reflexivity.
Qed.

Variable f : node -> node.

Lemma update_in_tag (name : string) (a : attrs) (contents : list node) :
  update_in p f (Tag name a contents)
  = if p (name, a) then Some (f (Tag name a contents))
    else match update p f contents with
         | Some contents' => Some (Tag name a contents')
         | None => None
         end.
Proof.
  simpl. destruct (p (name, a)); [reflexivity|].
  assert (E : forall l,
    (fix first (l : list node) : option (list node) :=
       match l with
       | [] => None
       | c :: l' =>
           match update_in p f c with
           | Some c' => Some (c' :: l')
           | None =>
               match first l' with
               | Some l'' => Some (c :: l'')
               | None => None
               end
           end
       end) l = update p f l).
  { induction l as [|c l IH]; simpl; [reflexivity|]. rewrite IH. reflexivity. }
  rewrite E. reflexivity.
Qed.

(** What [f] makes of a selected tag: again a selected tag, which [f]
    leaves as it is. *)
Hypothesis f_selected : forall name a contents,
  p (name, a) = true ->
  exists name' a' contents',
    f (Tag name a contents) = Tag name' a' contents' /\ p (name', a') = true.
Hypothesis f_idem : forall name a contents,
  p (name, a) = true ->
  f (f (Tag name a contents)) = f (Tag name a contents).

Lemma update_in_again (n n' : node) :
  update_in p f n = Some n' -> update_in p f n' = Some n'.
Proof.
  revert n'. induction n as [name a contents IH|s|k s] using node_induction;
    intros n'; [|discriminate|discriminate].
  rewrite update_in_tag. destruct (p (name, a)) eqn:Ep.
  - intros [= <-].
    destruct (f_selected name a contents Ep) as (name' & a' & contents' & E & Ep').
    rewrite E, update_in_tag, Ep', <- E, f_idem by exact Ep. reflexivity.
  - destruct (update p f contents) as [contents'|] eqn:Eu; [|discriminate].
    intros [= <-]. rewrite update_in_tag, Ep.
    assert (E : update p f contents' = Some contents'); [|rewrite E; reflexivity].
    clear Ep. revert contents' Eu.
    induction IH as [|c contents Hc _ IHcs]; intros contents'; simpl; [discriminate|].
    destruct (update_in p f c) as [c'|] eqn:Ec.
    + intros [= <-]. simpl. rewrite (Hc c' eq_refl). reflexivity.
    + destruct (update p f contents) as [l|] eqn:El; [|discriminate].
      intros [= <-]. simpl. rewrite Ec, (IHcs l eq_refl). reflexivity.
Qed.

Lemma update_again (s s' : soup) :
  update p f s = Some s' -> update p f s' = Some s'.
Proof.
  revert s'. induction s as [|c s IH]; intros s'; simpl; [discriminate|].
  destruct (update_in p f c) as [c'|] eqn:Ec.
  - intros [= <-]. simpl. rewrite (update_in_again c c' Ec). reflexivity.
  - destruct (update p f s) as [l|] eqn:El; [|discriminate].
    intros [= <-]. simpl. rewrite Ec, (IH l eq_refl). reflexivity.
Qed.

(** A property of all tags that [f] keeps is kept by the update. *)
Variable Q : head -> Prop.
Hypothesis f_keeps : forall name a contents,
  p (name, a) = true ->
  Forall Q (heads (Tag name a contents)) ->
  Forall Q (heads (f (Tag name a contents))).

Lemma update_in_heads (n n' : node) :
  update_in p f n = Some n' -> Forall Q (heads n) -> Forall Q (heads n').
Proof.
  revert n'. induction n as [name a contents IH|s|k s] using node_induction;
    intros n'; [|discriminate|discriminate].
  rewrite update_in_tag. destruct (p (name, a)) eqn:Ep.
  - intros [= <-]. apply f_keeps, Ep.
  - destruct (update p f contents) as [contents'|] eqn:Eu; [|discriminate].
    intros [= <-] H. simpl in *. inversion H as [|h hs Hh Hrest]; subst.
    constructor; [exact Hh|]. clear H Hh Ep.
    revert contents' Eu Hrest.
    induction IH as [|c contents Hc _ IHcs]; intros contents'; simpl; [discriminate|].
    destruct (update_in p f c) as [c'|] eqn:Ec.
    + intros [= <-] H. apply Forall_app in H. destruct H as [H1 H2]. simpl.
      apply Forall_app. split; [apply (Hc c' eq_refl H1) | exact H2].
    + destruct (update p f contents) as [l|] eqn:El; [|discriminate].
      intros [= <-] H. apply Forall_app in H. destruct H as [H1 H2]. simpl.
      apply Forall_app. split; [exact H1 | apply (IHcs l eq_refl H2)].
Qed.

Lemma update_heads (s s' : soup) :
  update p f s = Some s' -> Forall Q (soup_heads s) -> Forall Q (soup_heads s').
Proof.
  unfold soup_heads. revert s'. induction s as [|c s IH]; intros s'; simpl; [discriminate|].
  destruct (update_in p f c) as [c'|] eqn:Ec.
  - intros [= <-] H. apply Forall_app in H. destruct H as [H1 H2]. simpl.
    apply Forall_app. split; [apply (update_in_heads c c' Ec H1) | exact H2].
  - destruct (update p f s) as [l|] eqn:El; [|discriminate].
    intros [= <-] H. apply Forall_app in H. destruct H as [H1 H2]. simpl.
    apply Forall_app. split; [exact H1 | apply (IH l eq_refl H2)].
Qed.

(** The update leaves the document type declarations where they are. *)
Lemma update_doctypes (s s' : soup) :
  update p f s = Some s' -> top_doctypes s' = top_doctypes s.
Proof.
  unfold top_doctypes. revert s'. induction s as [|c s IH]; intros s'; simpl; [discriminate|].
  destruct (update_in p f c) as [c'|] eqn:Ec.
  - intros [= <-]. simpl. f_equal.
    destruct c as [name a contents|d|k t]; [|discriminate|discriminate].
    rewrite update_in_tag in Ec. destruct (p (name, a)) eqn:Ep.
    + injection Ec as <-.
      destruct (f_selected name a contents Ep) as (name' & a' & contents' & -> & _).
      reflexivity.
    + destruct (update p f contents); [|discriminate]. injection Ec as <-. reflexivity.
  - destruct (update p f s) as [l|] eqn:El; [|discriminate].
    intros [= <-]. simpl. rewrite (IH l eq_refl). reflexivity.
Qed.

End FirstTag.

(** ** Structural cleanup *)

Section Cleanup.

Import Bs4.

Lemma map_soup_doctypes (f : head -> head) (s : soup) :
  top_doctypes (map_soup f s) = top_doctypes s.
Proof.
  unfold top_doctypes, map_soup. induction s as [|c s IH]; simpl; [reflexivity|].
  rewrite IH. destruct c; reflexivity.
Qed.

Lemma replace_doctype_ok (s : soup) : doctype_ok (replace_doctype s).
Proof.
  unfold doctype_ok, top_doctypes.
  induction s as [|c s IH]; simpl; [exact I|].
  destruct c as [name a contents|d|k t]; simpl; [exact IH | reflexivity | exact IH].
Qed.

Lemma replace_doctype_fixed (s : soup) : doctype_ok s -> replace_doctype s = s.
Proof.
  unfold doctype_ok, top_doctypes.
  induction s as [|c s IH]; simpl; [reflexivity|].
  destruct c as [name a contents|d|k t]; simpl.
  - intros H. rewrite (IH H). reflexivity.
  - intros ->. reflexivity.
  - intros H. rewrite (IH H). reflexivity.
Qed.

Lemma html_selected (name : string) (a : attrs) (contents : list node) :
  named "html" (name, a) = true ->
  exists name' a' contents',
    html_namespace (Tag name a contents) = Tag name' a' contents' /\
    named "html" (name', a') = true.
Proof. intros H. eexists _, _, _. split; [reflexivity | exact H]. Qed.

Lemma html_namespace_idem (name : string) (a : attrs) (contents : list node) :
  named "html" (name, a) = true ->
  html_namespace (html_namespace (Tag name a contents))
  = html_namespace (Tag name a contents).
Proof.
  intros _. simpl. f_equal. apply set_default_fixed, truthy_set_default. discriminate.
Qed.

Lemma set_html_namespace_idem (s : soup) :
  set_html_namespace (set_html_namespace s) = set_html_namespace s.
Proof.
  unfold set_html_namespace.
  destruct (update (named "html") html_namespace s) as [s'|] eqn:E; [|rewrite E; reflexivity].
  rewrite (update_again (named "html") html_namespace html_selected html_namespace_idem s s' E).
  reflexivity.
Qed.

Lemma set_html_namespace_heads (Q : head -> Prop) (s : soup) :
  (forall a v, Q ("html", a) -> Q ("html", set_default a "xmlns" v)) ->
  Forall Q (soup_heads s) -> Forall Q (soup_heads (set_html_namespace s)).
Proof.
  intros HQ H. unfold set_html_namespace.
  destruct (update (named "html") html_namespace s) as [s'|] eqn:E; [|exact H].
  apply (update_heads (named "html") html_namespace Q) with (s := s); [|exact E|exact H].
  intros name a contents Hp Hall. simpl in *.
  inversion Hall as [|h hs Hh Hrest]; subst. constructor; [|exact Hrest].
  unfold named in Hp. simpl in Hp. apply String.eqb_eq in Hp. subst name.
  apply HQ, Hh.
Qed.

Lemma set_html_namespace_doctypes (s : soup) :
  top_doctypes (set_html_namespace s) = top_doctypes s.
Proof.
  unfold set_html_namespace.
  destruct (update (named "html") html_namespace s) as [s'|] eqn:E; [|reflexivity].
  apply (update_doctypes (named "html") html_namespace html_selected s s' E).
Qed.

(** The passes of [_cleanup_soup] as four steps: the document type, one
    loop over all tags, the removal of [base], the namespace of [html]. *)
Lemma cleanup_steps (s : soup) (version : string) :
  _cleanup_soup s version
  = set_html_namespace
      (decompose_all "base"
         (map_soup (cleanup_head version)
            (if String.eqb version "2.0" then replace_doctype s else s))).
Proof.
  unfold _cleanup_soup. f_equal. cbn [fold_left]. f_equal.
  destruct (String.eqb version "2.0") eqn:E.
  - rewrite !fold_map_soup, !map_soup_map_soup.
    apply map_soup_ext. intros h. unfold cleanup_head. rewrite E. reflexivity.
  - rewrite map_soup_map_soup.
    apply map_soup_ext. intros h. unfold cleanup_head. rewrite E. reflexivity.
Qed.

(** The cleanup leaves a cleaned document as it is. *)
Lemma cleanup_idempotent (s : soup) (version : string) :
  _cleanup_soup (_cleanup_soup s version) version = _cleanup_soup s version.
Proof.
  rewrite (cleanup_steps s version).
  set (x1 := if String.eqb version "2.0" then replace_doctype s else s).
  set (x2 := map_soup (cleanup_head version) x1).
  set (x3 := decompose_all "base" x2).
  set (x4 := set_html_namespace x3).
  assert (A : Forall (fun h => cleanup_head version h = h) (soup_heads x4)).
  { apply set_html_namespace_heads.
    - intros a v. apply cleanup_head_html.
    - apply decompose_all_heads. unfold x2. rewrite map_soup_heads.
      apply Forall_forall. intros h Hh. apply in_map_iff in Hh.
      destruct Hh as (h0 & <- & _). apply cleanup_head_idem. }
  assert (B : Forall (fun h => String.eqb (fst h) "base" = false) (soup_heads x4)).
  { apply set_html_namespace_heads.
    - intros a v _. reflexivity.
    - apply decompose_all_none. }
  assert (C : String.eqb version "2.0" = true -> doctype_ok x4).
  { intros E. unfold doctype_ok, x4, x3, x2.
    rewrite set_html_namespace_doctypes, decompose_all_doctypes, map_soup_doctypes.
    unfold x1. rewrite E. apply replace_doctype_ok. }
  change (_cleanup_soup x4 version = x4).
  rewrite (cleanup_steps x4 version).
  transitivity
    (set_html_namespace (decompose_all "base" (map_soup (cleanup_head version) x4))).
  { do 3 f_equal. destruct (String.eqb version "2.0"); [|reflexivity].
    apply replace_doctype_fixed, C, eq_refl. }
  rewrite (map_soup_fixed _ _ A), (decompose_all_fixed _ _ B).
  apply set_html_namespace_idem.
Qed.

End Cleanup.

(** ** The NCX *)

(** C6: for every [media_info] and every [openbook] with a creator, the
    NCX is built and the [dtb:uid] written into it is the ISBN that
    [extract_isbn] finds for the ebook and magazine formats, and
    [media_info["id"]] when it finds none. *)
Theorem ncx_uid_prefers_isbn
    (Format : Type) (extract_isbn : list Format -> list string -> option string)
    (EBookOverdrive MagazineOverDrive : string)
    (media_info : MediaInfo Format) (openbook : OpenBook) :
  creator_names openbook <> [] ->
  exists ncx,
    _build_ncx extract_isbn EBookOverdrive MagazineOverDrive media_info openbook
    = Some ncx /\
    (forall isbn,
        extract_isbn (media_formats media_info) [EBookOverdrive; MagazineOverDrive]
        = Some isbn ->
        isbn <> EmptyString -> dtb_uids ncx = [isbn]) /\
    (Py.truthy
       (extract_isbn (media_formats media_info) [EBookOverdrive; MagazineOverDrive])
     = false ->
     dtb_uids ncx = [media_id media_info]).
Proof.
  intros Hc. unfold _build_ncx.
  destruct (creator_names openbook) as [|name names]; [contradiction|].
  eexists. split; [reflexivity|].
  unfold dtb_uids, publication_identifier. cbn.
  split.
  - intros isbn -> Hne. destruct isbn; [contradiction | reflexivity].
  - intros ->. reflexivity.
Qed.

Lemma ncx_uid_prefers_isbn_witness :
  (exists ncx,
     _build_ncx (fun (_ : list unit) (_ : list string) => Some "9781250313195")
       "ebook-overdrive" "magazine-overdrive" sample_magazine sample_openbook
     = Some ncx /\
     dtb_uids ncx = ["9781250313195"]) /\
  (exists ncx,
     _build_ncx (fun (_ : list unit) (_ : list string) => None)
       "ebook-overdrive" "magazine-overdrive" sample_magazine sample_openbook
     = Some ncx /\
     dtb_uids ncx = ["9215467"]).
Proof.
  split.
  - destruct (ncx_uid_prefers_isbn unit
                (fun (_ : list unit) (_ : list string) => Some "9781250313195")
                "ebook-overdrive" "magazine-overdrive" sample_magazine sample_openbook)
      as (ncx & E & Hisbn & _); [discriminate|].
    exists ncx. split; [exact E|]. apply Hisbn; [reflexivity | discriminate].
  - destruct (ncx_uid_prefers_isbn unit
                (fun (_ : list unit) (_ : list string) => None)
                "ebook-overdrive" "magazine-overdrive" sample_magazine sample_openbook)
      as (ncx & E & _ & Hid); [discriminate|].
    exists ncx. split; [exact E|]. apply Hid. reflexivity.
Defined.

(** ** Patching a page twice *)

(** C7 as stated fails with the decode step: the script of [nested_page]
    carries a page whose script carries another page.  The first run puts
    the inner script into the body and cleans up; the second run finds
    that script and replaces the body again. *)
Lemma nested_payload_patched_twice : ~ patcher_idempotent sample_decode_markup.
Proof.
  intros H.
  specialize (H nested_page
                (page_with [("xmlns", "http://www.w3.org/1999/xhtml")]
                   [script_with payload_inner])).
  assert (E : patch_xhtml sample_decode_markup nested_page
              = Some (page_with [("xmlns", "http://www.w3.org/1999/xhtml")]
                        [script_with payload_inner]))
    by (vm_compute; reflexivity).
  specialize (H E).
  assert (E2 : patch_xhtml sample_decode_markup
                 (page_with [("xmlns", "http://www.w3.org/1999/xhtml")]
                    [script_with payload_inner])
               = Some (page_with [("xmlns", "http://www.w3.org/1999/xhtml")]
                         [Bs4.Tag "p" [] [Bs4.Str Bs4.Text "second"]]))
    by (vm_compute; reflexivity).
  rewrite E2 in H. discriminate H.
Qed.

(** ** Manifest builder *)

Section ManifestProperties.

Variable guess_type : string -> option string.
Variable slugify : string -> string.
Variable decode_markup : string -> option Bs4.soup.
Context {Format : Type}.
Variable extract_isbn : list Format -> list string -> option string.
Variables EBookOverdrive MagazineOverDrive : string.

Lemma is_type_css_xhtml (t : option string) :
  is_type t "text/css" = true -> is_type t "application/xhtml+xml" = false.
Proof.
  destruct t as [m|]; simpl; [|discriminate].
  intros H. apply String.eqb_eq in H. subst m. reflexivity.
Qed.

(** What the markup of a page adds to its manifest entry *)
Lemma detect_properties_entry (soup : Bs4.soup) (m : ManifestEntry) (nav : bool) :
  properties m = None ->
  href (fst (detect_properties soup m nav)) = href m /\
  id (fst (detect_properties soup m nav)) = id m /\
  is_nav (fst (detect_properties soup m nav))
  = Bs4.soup_exists (Bs4.has_attr "epub:type" "toc") soup /\
  snd (detect_properties soup m nav)
  = nav || Bs4.soup_exists (Bs4.has_attr "epub:type" "toc") soup.
Proof.
  intros Hp. unfold detect_properties, is_nav.
  destruct (Bs4.soup_exists (Bs4.named "svg") soup),
           (Bs4.soup_exists (Bs4.has_attr "epub:type" "toc") soup);
    simpl; rewrite ?Hp, ?orb_true_r, ?orb_false_r; repeat split.
Qed.

(** One turn of the loop appends one entry. *)
Lemma process_entry_appends
    (media_info : MediaInfo Format) (st st' : Assembly) (a : Asset) :
  process_entry guess_type slugify decode_markup media_info st a = Some st' ->
  exists m,
    manifest_entries st' = manifest_entries st ++ [m] /\
    entry_id guess_type slugify a = Some (id m) /\
    is_nav m = is_nav_page guess_type decode_markup a /\
    has_nav st' = has_nav st || is_nav_page guess_type decode_markup a /\
    has_ncx st' = has_ncx st || is_ncx guess_type a.
Proof.
  unfold process_entry, entry_id, is_nav_page, is_ncx, inspected_markup.
  set (path := Py.tail (url_path (entry a))).
  set (mt := guess_type path).
  set (eid := if is_type mt "application/x-dtbncx+xml" then Some "ncx"
              else _sanitise_opf_id slugify path).
  destruct eid as [i|]; [|discriminate].
  set (m0 := mkManifestEntry path i mt None).
  assert (Hncx : (if is_type mt "application/x-dtbncx+xml" then true else has_ncx st)
                 = has_ncx st || is_type mt "application/x-dtbncx+xml").
  { destruct (is_type mt "application/x-dtbncx+xml"), (has_ncx st); reflexivity. }
  rewrite Hncx. clear Hncx.
  destruct (asset_exists a).
  - destruct (is_type mt "application/xhtml+xml"); simpl.
    + destruct (detect_properties_entry (markup a) m0 (has_nav st) eq_refl)
        as (_ & Hid & Hnav & Hflag).
      destruct (detect_properties (markup a) m0 (has_nav st)) as [m flag].
      simpl in *. intros [= <-]. exists m. simpl.
      rewrite Hid, Hnav, Hflag. repeat split.
    + intros [= <-]. exists m0. simpl. rewrite orb_false_r. repeat split.
  - destruct (is_magazine (media_type_id media_info) && is_type mt "text/css") eqn:Ecss.
    + apply andb_true_iff in Ecss. destruct Ecss as [_ Ecss].
      rewrite (is_type_css_xhtml mt Ecss). simpl.
      intros [= <-]. exists m0. simpl. rewrite orb_false_r. repeat split.
    + destruct (is_type mt "application/xhtml+xml"); simpl.
      * destruct (patch_xhtml decode_markup (markup a)) as [soup|]; [|discriminate].
        destruct (detect_properties_entry soup m0 (has_nav st) eq_refl)
          as (_ & Hid & Hnav & Hflag).
        destruct (detect_properties soup m0 (has_nav st)) as [m flag].
        simpl in *. intros [= <-]. exists m. simpl.
        rewrite Hid, Hnav, Hflag. repeat split.
      * intros [= <-]. exists m0. simpl. rewrite orb_false_r. repeat split.
Qed.

(** The loop appends one entry for each asset of the roster. *)
Lemma process_entries_appends (media_info : MediaInfo Format) (roster : list Asset) :
  forall st st',
    process_entries guess_type slugify decode_markup media_info st roster = Some st' ->
    exists ms,
      manifest_entries st' = manifest_entries st ++ ms /\
      Forall2 (fun a m => entry_id guess_type slugify a = Some (id m) /\
                          is_nav m = is_nav_page guess_type decode_markup a)
        roster ms /\
      has_nav st' = has_nav st || existsb (is_nav_page guess_type decode_markup) roster /\
      has_ncx st' = has_ncx st || existsb (is_ncx guess_type) roster.
Proof.
  induction roster as [|a roster IH]; intros st st'; simpl.
  - intros [= <-]. exists []. rewrite app_nil_r, !orb_false_r.
    repeat split. constructor.
  - destruct (process_entry guess_type slugify decode_markup media_info st a)
      as [st1|] eqn:E1; [|discriminate].
    intros E. apply process_entry_appends in E1.
    destruct E1 as (m & Hm & Hid & Hnav & Hflag & Hncx).
    destruct (IH st1 st' E) as (ms & Hms & Hall & Hflag' & Hncx').
    exists (m :: ms). rewrite Hms, Hm, <- app_assoc. simpl.
    rewrite Hflag', Hflag, Hncx', Hncx, !orb_assoc.
    repeat split. constructor; [split; assumption | exact Hall].
Qed.

Lemma nav_count_pages (roster : list Asset) (ms : list ManifestEntry) :
  Forall2 (fun a m => entry_id guess_type slugify a = Some (id m) /\
                      is_nav m = is_nav_page guess_type decode_markup a)
    roster ms ->
  nav_count ms = length (filter (is_nav_page guess_type decode_markup) roster).
Proof.
  unfold nav_count. induction 1 as [|a m roster ms [_ Hnav] _ IH]; simpl; [reflexivity|].
  rewrite Hnav. destruct (is_nav_page guess_type decode_markup a); simpl; rewrite IH; reflexivity.
Qed.

Lemma nav_count_app (l1 l2 : list ManifestEntry) :
  nav_count (l1 ++ l2) = (nav_count l1 + nav_count l2)%nat.
Proof. unfold nav_count. rewrite filter_app, length_app. reflexivity. Qed.

Lemma filter_length_existsb {X : Type} (p : X -> bool) (l : list X) :
  existsb p l = negb (length (filter p l) =? 0)%nat.
Proof.
  induction l as [|x l IH]; simpl; [reflexivity|].
  destruct (p x); simpl; [reflexivity | exact IH].
Qed.

Lemma NoDup_app_disjoint {X : Type} (l1 l2 : list X) (x : X) :
  NoDup (l1 ++ l2) -> In x l2 -> ~ In x l1.
Proof.
  induction l1 as [|y l1 IH]; simpl; [tauto|].
  intros H Hx2 [<-|Hx1].
  - apply NoDup_cons_iff in H. apply (proj1 H), in_or_app. right. exact Hx2.
  - apply NoDup_cons_iff in H. exact (IH (proj2 H) Hx2 Hx1).
Qed.

Lemma synthesized_ids_distinct (st : Assembly) (cover_path : string) :
  NoDup (synthesized_ids st cover_path).
Proof.
  unfold synthesized_ids.
  destruct (has_nav st), (has_ncx st), (Py.truthy (Some cover_path)); simpl;
    repeat (constructor; [simpl; intuition discriminate|]); constructor.
Qed.

(** The manifest is what the loop gives for the selected entries, followed
    by the entries that are synthesized. *)
Lemma manifest_shape (media_info : MediaInfo Format) (openbook : OpenBook)
    (roster : list Asset) (cover_path : string) (m : list ManifestEntry) :
  manifest guess_type slugify decode_markup extract_isbn EBookOverdrive
    MagazineOverDrive media_info openbook roster cover_path = Some m ->
  exists st,
    process_entries guess_type slugify decode_markup media_info
      (mkAssembly [] false false)
      (selected guess_type media_info (toc_pages_of (nav_toc openbook)) roster)
    = Some st /\
    m = manifest_entries st
        ++ (if has_nav st then [] else [nav_entry])
        ++ (if has_ncx st then [] else [ncx_entry])
        ++ (if Py.truthy (Some cover_path) then [cover_entry] else []).
Proof.
  unfold manifest.
  destruct (process_entries _ _ _ _ _ _) as [st|]; [|discriminate].
  intros H. exists st. split; [reflexivity|].
  destruct (has_nav st), (has_ncx st);
    try (destruct (_build_ncx _ _ _ _ _); [|discriminate]);
    destruct (Py.truthy (Some cover_path));
    injection H as <-; rewrite <- ?app_assoc, ?app_nil_r; reflexivity.
Qed.

(** C9: an XHTML page whose inspected markup has an [svg] element and an
    element with [epub:type="toc"] gets the property [nav], not [svg]. *)
Theorem nav_overrides_svg
    (media_info : MediaInfo Format) (st st' : Assembly) (a : Asset) (soup : Bs4.soup) :
  process_entry guess_type slugify decode_markup media_info st a = Some st' ->
  is_type (guess_type (Py.tail (url_path (entry a)))) "application/xhtml+xml" = true ->
  inspected_markup decode_markup a = Some soup ->
  Bs4.soup_exists (Bs4.named "svg") soup = true ->
  Bs4.soup_exists (Bs4.has_attr "epub:type" "toc") soup = true ->
  exists m,
    manifest_entries st' = manifest_entries st ++ [m] /\
    properties m = Some "nav" /\
    has_nav st' = true.
Proof.
  intros Hp Hx Hs _ Ht. apply process_entry_appends in Hp.
  destruct Hp as (m & Hm & _ & Hnav & Hflag & _).
  assert (Hpage : is_nav_page guess_type decode_markup a = true).
  { unfold is_nav_page. rewrite Hx, Hs, Ht. reflexivity. }
  rewrite Hpage in Hnav, Hflag. rewrite orb_true_r in Hflag.
  exists m. split; [exact Hm|]. split; [|exact Hflag].
  unfold is_nav in Hnav. destruct (properties m) as [p|]; [|discriminate].
  apply String.eqb_eq in Hnav. subst p. reflexivity.
Qed.

(** C3, amended: when serialization starts the manifest has at least one
    [nav] entry.  Without a processed XHTML page that has an element with
    [epub:type="toc"], one entry is synthesized and is the only one; with
    such pages none is synthesized and each of them carries [nav]. *)
Theorem manifest_nav_entries
    (media_info : MediaInfo Format) (openbook : OpenBook)
    (roster : list Asset) (cover_path : string) (m : list ManifestEntry) :
  manifest guess_type slugify decode_markup extract_isbn EBookOverdrive
    MagazineOverDrive media_info openbook roster cover_path = Some m ->
  nav_count m
  = Nat.max 1
      (length
         (filter (is_nav_page guess_type decode_markup)
            (selected guess_type media_info (toc_pages_of (nav_toc openbook)) roster)))
  /\
  (filter (is_nav_page guess_type decode_markup)
     (selected guess_type media_info (toc_pages_of (nav_toc openbook)) roster) = [] ->
   In nav_entry m).
Proof.
  intros H. apply manifest_shape in H. destruct H as (st & Hst & ->).
  apply process_entries_appends in Hst.
  destruct Hst as (ms & Hms & Hall & Hnav & _). simpl in Hms, Hnav.
  rewrite Hms, !nav_count_app, (nav_count_pages _ _ Hall).
  rewrite filter_length_existsb in Hnav.
  set (pages := filter _ _) in *.
  assert (Hrest :
    nav_count (if has_ncx st then [] else [ncx_entry]) = 0%nat /\
    nav_count (if Py.truthy (Some cover_path) then [cover_entry] else []) = 0%nat).
  { destruct (has_ncx st), (Py.truthy (Some cover_path)); split; reflexivity. }
  destruct Hrest as [-> ->]. rewrite Hnav.
  destruct pages as [|a pages]; simpl.
  - split; [reflexivity|]. intros _. apply in_or_app. right. left. reflexivity.
  - split; [|discriminate]. unfold nav_count. simpl. lia.
Qed.

(** C8, amended: the ids of the manifest are, in order, the id of each
    processed entry ([ncx] for an NCX, the sanitised relative path for the
    others) and the ids [nav], [ncx] and [coverimage] of the entries that
    are synthesized.  They are pairwise distinct exactly when the ids of
    the processed entries are and none of them is the id of a synthesized
    entry. *)
Theorem manifest_ids
    (media_info : MediaInfo Format) (openbook : OpenBook)
    (roster : list Asset) (cover_path : string) (m : list ManifestEntry) :
  manifest guess_type slugify decode_markup extract_isbn EBookOverdrive
    MagazineOverDrive media_info openbook roster cover_path = Some m ->
  exists st ids,
    process_entries guess_type slugify decode_markup media_info
      (mkAssembly [] false false)
      (selected guess_type media_info (toc_pages_of (nav_toc openbook)) roster)
    = Some st /\
    Forall2 (fun a i => entry_id guess_type slugify a = Some i)
      (selected guess_type media_info (toc_pages_of (nav_toc openbook)) roster) ids /\
    map id m = ids ++ synthesized_ids st cover_path /\
    (NoDup (map id m) <->
     NoDup ids /\ forall x, In x (synthesized_ids st cover_path) -> ~ In x ids).
Proof.
  intros H. apply manifest_shape in H. destruct H as (st & Hst & ->).
  pose proof (process_entries_appends _ _ _ _ Hst) as (ms & Hms & Hall & _ & _).
  simpl in Hms. exists st, (map id ms).
  assert (Hids : map id (manifest_entries st
                         ++ (if has_nav st then [] else [nav_entry])
                         ++ (if has_ncx st then [] else [ncx_entry])
                         ++ (if Py.truthy (Some cover_path) then [cover_entry] else []))
                 = map id ms ++ synthesized_ids st cover_path).
  { rewrite Hms, !map_app. unfold synthesized_ids.
    destruct (has_nav st), (has_ncx st), (Py.truthy (Some cover_path)); reflexivity. }
  split; [exact Hst|]. split; [|split; [exact Hids|]].
  - clear Hids Hms Hst.
    induction Hall as [|a x l l' [Hx _] _ IH]; simpl; constructor; assumption.
  - rewrite Hids. split.
    + intros Hnd. split; [apply (NoDup_app_remove_r _ _ Hnd)|].
      intros x Hx. apply (NoDup_app_disjoint _ _ x Hnd Hx).
    + intros [Hnd Hdis]. apply NoDup_app; [exact Hnd | apply synthesized_ids_distinct|].
      intros x Hx1 Hx2. exact (Hdis x Hx2 Hx1).
Qed.

(** An id that [_sanitise_opf_id] returns does not start with a digit. *)
Lemma sanitised_id_no_digit (string_id i : string) :
  _sanitise_opf_id slugify string_id = Some i ->
  match i with
  | EmptyString => False
  | String c _ => Py.isdigit c = false
  end.
Proof.
  unfold _sanitise_opf_id. destruct (slugify string_id) as [|c r]; [discriminate|].
  destruct (Py.isdigit c) eqn:E; intros [= <-]; [reflexivity | exact E].
Qed.

End ManifestProperties.

Lemma nav_overrides_svg_witness :
  let st := mkAssembly [] false false in
  let st' :=
    mkAssembly
      [mkManifestEntry "toc.xhtml" "tocxhtml" (Some "application/xhtml+xml")
         (Some "nav")]
      false true in
  exists m,
    manifest_entries st' = manifest_entries st ++ [m] /\
    properties m = Some "nav" /\
    has_nav st' = true.
Proof.
  intros st st'.
  apply (nav_overrides_svg sample_guess_type sample_slugify sample_decode_markup
           sample_ebook st st'
           (mkAsset (mkRemoteEntry "/toc.xhtml") false contents_page)
           (_cleanup_soup contents_page "3.0")).
  - vm_compute. reflexivity.
  - vm_compute. reflexivity.
  - vm_compute. reflexivity.
  - vm_compute. reflexivity.
  - vm_compute. reflexivity.
Defined.

(** C3 as stated fails: two pages that each have a table of contents both
    carry [nav]. *)
Lemma two_nav_pages :
  ~ exactly_one_nav sample_guess_type sample_slugify sample_decode_markup
      sample_extract_isbn "ebook-overdrive" "magazine-overdrive".
Proof.
  intros H.
  specialize (H sample_ebook sample_openbook
                [mkAsset (mkRemoteEntry "/toc.xhtml") false contents_page;
                 mkAsset (mkRemoteEntry "/contents.xhtml") true contents_page]
                EmptyString
                [mkManifestEntry "toc.xhtml" "tocxhtml"
                   (Some "application/xhtml+xml") (Some "nav");
                 mkManifestEntry "contents.xhtml" "contentsxhtml"
                   (Some "application/xhtml+xml") (Some "nav");
                 ncx_entry]).
  assert (E : nav_count
                [mkManifestEntry "toc.xhtml" "tocxhtml"
                   (Some "application/xhtml+xml") (Some "nav");
                 mkManifestEntry "contents.xhtml" "contentsxhtml"
                   (Some "application/xhtml+xml") (Some "nav");
                 ncx_entry] = 1%nat)
    by (apply H; vm_compute; reflexivity).
  vm_compute in E. discriminate E.
Qed.

Lemma manifest_nav_entries_witness :
  exists m,
    sample_manifest sample_magazine sample_openbook
      [mkAsset (mkRemoteEntry "/stories/a.xhtml") false inner_page;
       mkAsset (mkRemoteEntry "/2019/style.css") false []] "cover.jpg"
    = Some m /\
    nav_count m = 1%nat /\ In nav_entry m.
Proof.
  eexists. split; [vm_compute; reflexivity|].
  destruct (manifest_nav_entries sample_guess_type sample_slugify sample_decode_markup
              sample_extract_isbn "ebook-overdrive" "magazine-overdrive"
              sample_magazine sample_openbook
              [mkAsset (mkRemoteEntry "/stories/a.xhtml") false inner_page;
               mkAsset (mkRemoteEntry "/2019/style.css") false []] "cover.jpg"
              _ eq_refl) as [Hcount Hin].
  split; [exact Hcount | apply Hin; reflexivity].
Defined.

(** C8 as stated fails: two NCX documents in the roster both get the id
    [ncx]. *)
Lemma two_ncx_documents :
  ~ ids_distinct sample_guess_type sample_slugify sample_decode_markup
      sample_extract_isbn "ebook-overdrive" "magazine-overdrive".
Proof.
  intros H.
  specialize (H sample_ebook sample_openbook
                [mkAsset (mkRemoteEntry "/toc.ncx") false [];
                 mkAsset (mkRemoteEntry "/parts/toc.ncx") false []]
                "cover.jpg"
                [mkManifestEntry "toc.ncx" "ncx" (Some "application/x-dtbncx+xml") None;
                 mkManifestEntry "parts/toc.ncx" "ncx"
                   (Some "application/x-dtbncx+xml") None;
                 nav_entry; cover_entry]).
  assert (E : NoDup ["ncx"; "ncx"; "nav"; "coverimage"])
    by (apply H; vm_compute; reflexivity).
  apply NoDup_cons_iff in E. apply (proj1 E). left. reflexivity.
Qed.

Lemma manifest_ids_witness :
  exists m,
    sample_manifest sample_magazine sample_openbook
      [mkAsset (mkRemoteEntry "/stories/a.xhtml") false inner_page;
       mkAsset (mkRemoteEntry "/2019/style.css") false []] "cover.jpg"
    = Some m /\
    map id m = ["storiesaxhtml"; "id_2019stylecss"; "nav"; "ncx"; "coverimage"] /\
    NoDup (map id m).
Proof.
  eexists. split; [vm_compute; reflexivity|]. split; [reflexivity|].
  destruct (manifest_ids sample_guess_type sample_slugify sample_decode_markup
              sample_extract_isbn "ebook-overdrive" "magazine-overdrive"
              sample_magazine sample_openbook
              [mkAsset (mkRemoteEntry "/stories/a.xhtml") false inner_page;
               mkAsset (mkRemoteEntry "/2019/style.css") false []] "cover.jpg"
              _ eq_refl) as (st & ids & Hst & Hall & Hids & Hnd).
  vm_compute in Hst. injection Hst as <-.
  vm_compute in Hids.
  assert (Ei : ids = ["storiesaxhtml"; "id_2019stylecss"]).
  { change ["storiesaxhtml"; "id_2019stylecss"; "nav"; "ncx"; "coverimage"]
      with (["storiesaxhtml"; "id_2019stylecss"] ++ ["nav"; "ncx"; "coverimage"]) in Hids.
    symmetry. apply (app_inv_tail _ _ _ Hids). }
  subst ids. apply Hnd. split.
  - repeat (constructor; [simpl; intuition discriminate|]); constructor.
  - vm_compute. intros x [<-|[<-|[<-|[]]]]; intuition discriminate.
Defined.

(* ================================================================== *)
(** * Part III: further properties of the module *)
(* ================================================================== *)

(** ** The comparator and the spine *)

(** X1: [_sort_spine_entries] never answers 0: it answers -1 exactly when
    [a] has the smaller rank in the table of contents, or the same rank
    and the smaller catalog position, and 1 otherwise.  So when it puts
    [a] before [b] it puts [b] behind [a], and two entries with the same
    rank and the same position compare as 1 both ways. *)
Theorem sort_spine_entries_never_zero (a b : SpineEntry) (toc_pages : list string) :
  (_sort_spine_entries a b toc_pages = (-1)%Z \/
   _sort_spine_entries a b toc_pages = 1%Z) /\
  (_sort_spine_entries a b toc_pages = (-1)%Z <->
   (toc_index toc_pages a < toc_index toc_pages b)%Z \/
   (toc_index toc_pages a = toc_index toc_pages b /\
    (odread_spine_position a < odread_spine_position b)%Z)) /\
  (_sort_spine_entries a b toc_pages = (-1)%Z ->
   _sort_spine_entries b a toc_pages = 1%Z) /\
  (toc_index toc_pages a = toc_index toc_pages b ->
   odread_spine_position a = odread_spine_position b ->
   _sort_spine_entries a b toc_pages = 1%Z /\
   _sort_spine_entries b a toc_pages = 1%Z).
Proof.
  unfold _sort_spine_entries.
  destruct (Z.eqb_spec (toc_index toc_pages a) (toc_index toc_pages b)) as [E|E];
    destruct (Z.eqb_spec (toc_index toc_pages b) (toc_index toc_pages a)) as [E'|E'];
    try congruence; simpl.
  - destruct (Z.ltb_spec (odread_spine_position a) (odread_spine_position b));
      destruct (Z.ltb_spec (odread_spine_position b) (odread_spine_position a));
      repeat split; intros; try lia; auto; try (right; lia).
  - destruct (Z.ltb_spec (toc_index toc_pages a) (toc_index toc_pages b));
      destruct (Z.ltb_spec (toc_index toc_pages b) (toc_index toc_pages a));
      repeat split; intros; try lia; auto; try (left; lia).
Qed.

Lemma sort_spine_entries_never_zero_witness :
  _sort_spine_entries (mkSpineEntry "a" 3) (mkSpineEntry "b" 3) ["c"] = 1%Z /\
  _sort_spine_entries (mkSpineEntry "b" 3) (mkSpineEntry "a" 3) ["c"] = 1%Z.
Proof.
  apply (sort_spine_entries_never_zero (mkSpineEntry "a" 3) (mkSpineEntry "b" 3) ["c"]);
    reflexivity.
Defined.

(** X2: the emitted spine is a rearrangement of the catalog spine entries
    that pass the magazine filter: none is lost, none is repeated; for a
    loan that is not a magazine these are all entries. *)
Theorem spine_order_permutation
    (t : LibbyMediaTypes) (toc_pages : list string) (spine : list SpineEntry) :
  Permutation (spine_order t toc_pages spine) (filter (spine_kept t toc_pages) spine) /\
  Permutation (spine_order EBook toc_pages spine) spine.
Proof.
  assert (H : forall t', Permutation (spine_order t' toc_pages spine)
                           (filter (spine_kept t' toc_pages) spine)).
  { intros t'. unfold spine_order.
    set (kept := filter (spine_kept t' toc_pages) spine).
    assert (Hall : forallb (spine_kept t' toc_pages) (sort_spine toc_pages kept) = true).
    { apply forallb_forall. intros e He. apply sort_spine_In in He.
      apply filter_In in He. apply He. }
    assert (Hid : forall l, forallb (spine_kept t' toc_pages) l = true ->
                            filter (spine_kept t' toc_pages) l = l).
    { induction l as [|e l IH]; simpl; [reflexivity|].
      intros Hl. apply andb_true_iff in Hl. destruct Hl as [-> Hl].
      rewrite (IH Hl). reflexivity. }
    rewrite (Hid _ Hall). apply sorted_perm. }
  split; [apply H|].
  eapply perm_trans; [apply (H EBook)|].
  assert (Hid : forall l, filter (spine_kept EBook toc_pages) l = l).
  { induction l as [|e l IH]; simpl; [reflexivity|]. rewrite IH. reflexivity. }
  rewrite Hid. apply Permutation_refl.
Qed.

(** X3: for a magazine only pages of the table of contents are emitted. *)
Theorem magazine_spine_only_toc_pages
    (toc_pages : list string) (spine : list SpineEntry) (e : SpineEntry) :
  In e (spine_order Magazine toc_pages spine) ->
  Py.mem (odread_original_path e) toc_pages = true.
Proof.
  intros H. apply spine_order_In in H. destruct H as [_ H].
  unfold spine_kept in H. simpl in H.
  destruct (Py.mem (odread_original_path e) toc_pages); [reflexivity | discriminate].
Qed.

Lemma magazine_spine_only_toc_pages_witness :
  Py.mem (odread_original_path (mkSpineEntry "a" 0)) ["c"; "a"] = true.
Proof.
  apply (magazine_spine_only_toc_pages ["c"; "a"]
           [mkSpineEntry "a" 0; mkSpineEntry "b" 1; mkSpineEntry "c" 2]
           (mkSpineEntry "a" 0)).
  vm_compute. right. left. reflexivity.
Defined.

(** X4: the emitted spine is in ascending order of the pair (rank in the
    table of contents, catalog position). *)
Theorem spine_order_sorted
    (t : LibbyMediaTypes) (toc_pages : list string) (spine : list SpineEntry)
    (m n : nat) (a b : SpineEntry) :
  (m < n)%nat ->
  nth_error (spine_order t toc_pages spine) m = Some a ->
  nth_error (spine_order t toc_pages spine) n = Some b ->
  (toc_index toc_pages a < toc_index toc_pages b)%Z \/
  (toc_index toc_pages a = toc_index toc_pages b /\
   (odread_spine_position a <= odread_spine_position b)%Z).
Proof.
  intros Hmn Hm Hn.
  assert (Hs : StronglySorted
                 (Py.not_after
                    (Py.cmp_to_key (fun a b => _sort_spine_entries a b toc_pages)))
                 (spine_order t toc_pages spine)).
  { unfold spine_order. apply filter_sorted, sort_spine_sorted. }
  pose proof (sorted_nth _ _ Hs m n a b Hmn Hm Hn) as H.
  unfold Py.not_after in H.
  destruct (Z.lt_trichotomy (toc_index toc_pages a) (toc_index toc_pages b))
    as [Hlt|[Heq|Hgt]].
  - left. exact Hlt.
  - right. split; [exact Heq|].
    destruct (Z.le_gt_cases (odread_spine_position a) (odread_spine_position b))
      as [Hle|Hpos]; [exact Hle|].
    assert (E : Py.cmp_to_key (fun a b => _sort_spine_entries a b toc_pages) b a = true)
      by (apply spine_lt_iff; right; split; [symmetry; exact Heq | lia]).
    rewrite E in H. discriminate.
  - assert (E : Py.cmp_to_key (fun a b => _sort_spine_entries a b toc_pages) b a = true)
      by (apply spine_lt_iff; left; lia).
    rewrite E in H. discriminate.
Qed.

Lemma spine_order_sorted_witness :
  (toc_index ["c"; "a"] (mkSpineEntry "c" 2) < toc_index ["c"; "a"] (mkSpineEntry "b" 1))%Z \/
  (toc_index ["c"; "a"] (mkSpineEntry "c" 2) = toc_index ["c"; "a"] (mkSpineEntry "b" 1) /\
   (odread_spine_position (mkSpineEntry "c" 2) <= odread_spine_position (mkSpineEntry "b" 1))%Z).
Proof.
  apply (spine_order_sorted EBook ["c"; "a"]
           [mkSpineEntry "a" 0; mkSpineEntry "b" 1; mkSpineEntry "c" 2]
           0%nat 2%nat (mkSpineEntry "c" 2) (mkSpineEntry "b" 1)).
  - lia.
  - vm_compute. reflexivity.
  - vm_compute. reflexivity.
Defined.

Section SpineStability.

Variable toc_pages : list string.

Let spine_lt : SpineEntry -> SpineEntry -> bool :=
  Py.cmp_to_key (fun a b => _sort_spine_entries a b toc_pages).

Lemma same_key_iff (a b : SpineEntry) :
  same_key toc_pages a b = true <->
  toc_index toc_pages a = toc_index toc_pages b /\
  odread_spine_position a = odread_spine_position b.
Proof.
  unfold same_key. rewrite andb_true_iff, !Z.eqb_eq. tauto.
Qed.

Lemma spine_lt_false (a b : SpineEntry) :
  spine_lt a b = false <->
  (toc_index toc_pages b < toc_index toc_pages a)%Z \/
  (toc_index toc_pages a = toc_index toc_pages b /\
   (odread_spine_position b <= odread_spine_position a)%Z).
Proof.
  pose proof (spine_lt_iff toc_pages a b) as H. fold spine_lt in H.
  destruct (spine_lt a b); split; intros H0; try reflexivity; try discriminate.
  - assert (H1 := proj1 H eq_refl). lia.
  - destruct (Z.lt_trichotomy (toc_index toc_pages a) (toc_index toc_pages b))
      as [Hlt|[Heq|Hgt]].
    + assert (true = false) by (symmetry; apply H; left; exact Hlt). discriminate.
    + destruct (Z.le_gt_cases (odread_spine_position b) (odread_spine_position a)).
      * right. split; assumption.
      * assert (false = true) by (apply H; right; split; [exact Heq | lia]).
        discriminate.
    + left. lia.
Qed.

Lemma insort_same_key (k x : SpineEntry) (acc : list SpineEntry) :
  StronglySorted (Py.not_after spine_lt) acc ->
  filter (same_key toc_pages k) (Py.insort spine_lt x acc)
  = filter (same_key toc_pages k) acc ++ filter (same_key toc_pages k) [x].
Proof.
  induction 1 as [|y acc Hs IH Hy]; [reflexivity|].
  cbn [Py.insort]. destruct (spine_lt x y) eqn:Hxy.
  - destruct (same_key toc_pages k x) eqn:Hkx.
    + assert (Hnone : filter (same_key toc_pages k) (y :: acc) = []).
      { assert (Hall : forall z, In z (y :: acc) -> same_key toc_pages k z = false).
        { intros z Hz. destruct (same_key toc_pages k z) eqn:Hkz; [|reflexivity].
          apply same_key_iff in Hkx, Hkz.
          apply (spine_lt_iff toc_pages) in Hxy.
          destruct Hz as [<-|Hz]; [lia|].
          rewrite Forall_forall in Hy. specialize (Hy z Hz).
          unfold Py.not_after in Hy. apply spine_lt_false in Hy. lia. }
        clear - Hall. induction (y :: acc) as [|z l IHl]; [reflexivity|].
        simpl. rewrite (Hall z (or_introl eq_refl)). apply IHl.
        intros w Hw. apply Hall. right. exact Hw. }
      change (x :: y :: acc) with ([x] ++ y :: acc).
      rewrite filter_app, Hnone, app_nil_r. reflexivity.
    + change (x :: y :: acc) with ([x] ++ y :: acc).
      rewrite filter_app. cbn [filter]. rewrite Hkx, app_nil_r. reflexivity.
  - cbn [filter]. destruct (same_key toc_pages k y); rewrite IH; reflexivity.
Qed.

Lemma fold_insort_same_key (k : SpineEntry) (l : list SpineEntry) :
  forall acc,
    StronglySorted (Py.not_after spine_lt) acc ->
    filter (same_key toc_pages k) (fold_left (fun acc x => Py.insort spine_lt x acc) l acc)
    = filter (same_key toc_pages k) acc ++ filter (same_key toc_pages k) l.
Proof.
  induction l as [|x l IH]; intros acc Hacc; simpl fold_left.
  - rewrite app_nil_r. reflexivity.
  - rewrite IH by (apply insort_sorted;
                   [apply spine_lt_trans | apply spine_lt_asym | exact Hacc]).
    rewrite insort_same_key by exact Hacc.
    rewrite <- app_assoc, <- filter_app. reflexivity.
Qed.

End SpineStability.

(** X5: the sort is stable: spine entries with the same rank and the same
    catalog position leave it in the order in which the catalog lists
    them. *)
Theorem sort_spine_stable (toc_pages : list string) (k : SpineEntry)
    (spine_entries : list SpineEntry) :
  filter (same_key toc_pages k) (sort_spine toc_pages spine_entries)
  = filter (same_key toc_pages k) spine_entries.
Proof.
  unfold sort_spine, Py.sorted.
  rewrite fold_insort_same_key by constructor. reflexivity.
Qed.

(** ** The content selector *)

(** X6: an entry under the ebook prefix [/_d/] is dropped, whatever the
    loan and whatever its media type. *)
Theorem internal_assets_dropped
    (guess_type : string -> option string) (Format : Type)
    (entry : RemoteEntry) (media_info : MediaInfo Format) (toc_pages : list string) :
  Py.startswith (url_path entry) "/_d/" = true ->
  _filter_content guess_type entry media_info toc_pages = false.
Proof.
  intros H. unfold _filter_content. rewrite H.
  destruct (guess_type (Py.tail (url_path entry))) as [mt|]; [|reflexivity].
  destruct (is_magazine (media_type_id media_info) && Py.truthy (Some mt));
    [|reflexivity].
  destruct (Py.startswith mt "image/"
            && (Py.startswith (url_path entry) "/pages/"
                || Py.startswith (url_path entry) "/thumbnails/")); [reflexivity|].
  destruct (String.eqb mt "application/xhtml+xml"
            && negb (Py.mem (Py.tail (url_path entry)) toc_pages)); reflexivity.
Qed.

Lemma internal_assets_dropped_witness :
  _filter_content sample_guess_type (mkRemoteEntry "/_d/fonts/serif.css")
    sample_ebook ["index.xhtml"] = false.
Proof.
  apply (internal_assets_dropped sample_guess_type unit
           (mkRemoteEntry "/_d/fonts/serif.css") sample_ebook ["index.xhtml"]).
  reflexivity.
Defined.

(** X7: for a loan that is not a magazine the prefix [/_d/] is the only
    rule: neither the media type nor the table of contents matters. *)
Theorem ebook_entries_kept
    (guess_type : string -> option string) (Format : Type)
    (entry : RemoteEntry) (media_info : MediaInfo Format) (toc_pages : list string) :
  is_magazine (media_type_id media_info) = false ->
  _filter_content guess_type entry media_info toc_pages
  = negb (Py.startswith (url_path entry) "/_d/").
Proof.
  intros H. unfold _filter_content. rewrite H.
  destruct (guess_type (Py.tail (url_path entry))); simpl;
    destruct (Py.startswith (url_path entry) "/_d/"); reflexivity.
Qed.

Lemma ebook_entries_kept_witness :
  _filter_content sample_guess_type (mkRemoteEntry "/pages/1.jpg") sample_ebook []
  = negb (Py.startswith "/pages/1.jpg" "/_d/").
Proof.
  apply (ebook_entries_kept sample_guess_type unit
           (mkRemoteEntry "/pages/1.jpg") sample_ebook []).
  reflexivity.
Defined.

(** X8: an XHTML entry of a magazine is kept exactly when its relative
    path is a page of the table of contents and it is not under [/_d/]. *)
Theorem magazine_pages_kept
    (guess_type : string -> option string) (Format : Type)
    (entry : RemoteEntry) (media_info : MediaInfo Format) (toc_pages : list string) :
  is_magazine (media_type_id media_info) = true ->
  guess_type (Py.tail (url_path entry)) = Some "application/xhtml+xml" ->
  _filter_content guess_type entry media_info toc_pages
  = Py.mem (Py.tail (url_path entry)) toc_pages
    && negb (Py.startswith (url_path entry) "/_d/").
Proof.
  intros Hmag Hmt. unfold _filter_content. rewrite Hmt, Hmag.
  cbn [Py.truthy andb].
  change (Py.startswith "application/xhtml+xml" "image/") with false.
  cbn [andb]. rewrite String.eqb_refl. cbn [andb].
  destruct (Py.mem (Py.tail (url_path entry)) toc_pages); cbn [negb andb];
    [|reflexivity].
  destruct (Py.startswith (url_path entry) "/_d/"); reflexivity.
Qed.

Lemma magazine_pages_kept_witness :
  _filter_content sample_guess_type (mkRemoteEntry "/stories/a.xhtml")
    sample_magazine ["stories/a.xhtml"]
  = Py.mem (Py.tail "/stories/a.xhtml") ["stories/a.xhtml"]
    && negb (Py.startswith "/stories/a.xhtml" "/_d/").
Proof.
  apply (magazine_pages_kept sample_guess_type unit
           (mkRemoteEntry "/stories/a.xhtml") sample_magazine ["stories/a.xhtml"]).
  - reflexivity.
  - vm_compute. reflexivity.
Defined.

(** ** The patch of magazine style sheets *)

Lemma string_app_assoc (a b c : string) : ((a ++ b) ++ c = a ++ (b ++ c))%string.
Proof. induction a as [|x a IH]; simpl; [reflexivity | rewrite IH; reflexivity]. Qed.

Lemma string_length_app (a b : string) :
  String.length (a ++ b) = (String.length a + String.length b)%nat.
Proof. induction a as [|x a IH]; simpl; [reflexivity | rewrite IH; reflexivity]. Qed.

Lemma consumed_app (pre s' : string) : Re.consumed (pre ++ s') s' = pre.
Proof.
  unfold Re.consumed. rewrite string_length_app.
  replace (String.length pre + String.length s' - String.length s')%nat
    with (String.length pre) by lia.
  induction pre as [|c pre IH]; simpl.
  - destruct s'; reflexivity.
  - rewrite IH. reflexivity.
Qed.

Lemma skip_class_all_of (p : ascii -> bool) (ws : string) :
  (forall t, skip_class p (ws ++ t) = skip_class p t) -> all_of p ws = true.
Proof.
  induction ws as [|c ws IH]; intros H; simpl; [reflexivity|].
  destruct (p c) eqn:E.
  - apply IH. intros t. specialize (H t). simpl in H. rewrite E in H. exact H.
  - specialize (H EmptyString). simpl in H. rewrite E in H. discriminate.
Qed.

Section ClassRepetitions.

Context {T : Type}.

Lemma star_class (p : ascii -> bool) (greedy : bool) (s : string) (g : Re.groups)
    (k : string -> Re.groups -> option T) (x : T) :
  Re.matches (Re.Star greedy (Re.Cls p)) s g k = Some x ->
  exists ws s', s = (ws ++ s')%string /\ all_of p ws = true /\ k s' g = Some x.
Proof.
  cbn [Re.matches]. intros H. apply star_loop_class in H.
  destruct H as (ws & s' & Hs & Hws & Hk).
  exists ws, s'. split; [exact Hs|]. split; [apply skip_class_all_of, Hws | exact Hk].
Qed.

Lemma plus_class (p : ascii -> bool) (greedy : bool) (s : string) (g : Re.groups)
    (k : string -> Re.groups -> option T) (x : T) :
  Re.matches (Re.Plus greedy (Re.Cls p)) s g k = Some x ->
  exists cs s', s = (cs ++ s')%string /\ all_of p cs = true /\ k s' g = Some x.
Proof.
  unfold Re.Plus. cbn [Re.matches].
  destruct s as [|c s1]; [discriminate|].
  destruct (p c) eqn:E; [|discriminate].
  intros H. apply star_loop_class in H. destruct H as (ws & s' & -> & Hws & Hk).
  exists (String c ws), s'. split; [reflexivity|]. split; [|exact Hk].
  simpl. rewrite E. apply skip_class_all_of, Hws.
Qed.

End ClassRepetitions.

(** What a match of the pattern of the patch is made of *)
Lemma css_match_pieces (s s' : string) (g : Re.groups) :
  Re.match_at patch_magazine_css_re s = Some (s', g) ->
  exists g1 ws g2,
    s = (g1 ++ "overflow-x:" ++ ws ++ "hidden;" ++ g2 ++ s')%string /\
    all_of Re.is_space ws = true /\
    Re.group 1 g = g1 /\ Re.group 2 g = g2 /\
    (String.length s' < String.length s)%nat.
Proof.
  unfold Re.match_at, patch_magazine_css_re. cbn [Re.matches].
  intros H. apply matches_lit in H. destruct H as (t1 & Hs & H).
  apply star_class in H. destruct H as (ws1 & t2 & -> & _ & H).
  cbn [Re.matches] in H.
  destruct t2 as [|b t3]; [discriminate|].
  destruct (Ascii.eqb_spec b "{"%char) as [->|]; [|discriminate].
  apply plus_class in H. destruct H as (cs & t4 & -> & _ & H).
  apply matches_lit in H. destruct H as (t5 & -> & H).
  apply star_class in H. destruct H as (ws & t6 & -> & Hws & H).
  apply matches_lit in H. destruct H as (t7 & -> & H).
  cbn [Re.matches] in H.
  apply plus_class in H. destruct H as (ds & t8 & -> & _ & H).
  cbn [Re.matches] in H.
  destruct t8 as [|e t9]; [discriminate|].
  destruct (Ascii.eqb_spec e "}"%char) as [->|]; [|discriminate].
  injection H as Es' Eg. subst t9 g.
  set (g1 := ("#article-body" ++ ws1 ++ String "{" cs)%string).
  assert (E1 : s = (g1 ++ "overflow-x:" ++ ws ++ "hidden;"
                       ++ (ds ++ "}") ++ s')%string).
  { subst s g1. rewrite !string_app_assoc. reflexivity. }
  exists g1, ws, (ds ++ "}")%string.
  split; [exact E1|]. split; [exact Hws|].
  assert (E2 : Re.consumed (ds ++ String "}" s') s' = (ds ++ "}")%string).
  { replace (ds ++ String "}" s')%string with ((ds ++ "}") ++ s')%string
      by (rewrite string_app_assoc; reflexivity).
    apply consumed_app. }
  assert (E3 : Re.consumed s ("overflow-x:" ++ ws ++ "hidden;" ++ ds ++ String "}" s')
               = g1).
  { rewrite E1 at 1.
    replace ("overflow-x:" ++ ws ++ "hidden;" ++ ds ++ String "}" s')%string
      with ("overflow-x:" ++ ws ++ "hidden;" ++ (ds ++ "}") ++ s')%string
      by (rewrite (string_app_assoc ds); reflexivity).
    apply consumed_app. }
  split; [cbn [Re.group Nat.eqb]; exact E3|].
  split; [cbn [Re.group Nat.eqb]; exact E2|].
  assert (Hg1 : (0 < String.length g1)%nat) by (subst g1; simpl; lia).
  rewrite E1, !string_length_app. lia.
Qed.

Lemma removes_only_refl (s : string) : removes_only s s.
Proof. induction s; constructor; assumption. Qed.

Lemma removes_only_keep (p s o : string) :
  removes_only s o -> removes_only (p ++ s) (p ++ o).
Proof. intros H. induction p as [|c p IH]; simpl; [exact H | constructor; exact IH]. Qed.

Lemma sub_loop_removes_only (fuel : nat) :
  forall s,
    removes_only s
      (Re.sub_loop fuel patch_magazine_css_re
         (fun g => (Re.group 1 g ++ Re.group 2 g)%string) s).
Proof.
  induction fuel as [|fuel IH]; intros s; cbn [Re.sub_loop].
  - apply removes_only_refl.
  - destruct (Re.match_at patch_magazine_css_re s) as [[s' g]|] eqn:E.
    + apply css_match_pieces in E.
      destruct E as (g1 & ws & g2 & Hs & Hws & -> & -> & Hlen).
      apply Nat.ltb_lt in Hlen. rewrite Hlen.
      rewrite Hs at 1. rewrite string_app_assoc.
      apply removes_only_keep. constructor; [exact Hws|].
      apply removes_only_keep. apply IH.
    + destruct s as [|c t]; constructor. apply IH.
Qed.

(** X9: the patch only removes declarations [overflow-x:], white space,
    [hidden;]: every other character of the style sheet is kept, in its
    place. *)
Theorem patch_magazine_css_removes_only (text : string) :
  removes_only text (patch_magazine_css text).
Proof. unfold patch_magazine_css, Re.sub. apply sub_loop_removes_only. Qed.

Lemma keep_class_app (p : ascii -> bool) (a b : string) :
  keep_class p (a ++ b) = (keep_class p a ++ keep_class p b)%string.
Proof.
  induction a as [|c a IH]; simpl; [reflexivity|].
  destruct (p c); simpl; rewrite IH; reflexivity.
Qed.

Lemma spaces_no_brace (ws : string) :
  all_of Re.is_space ws = true -> keep_class is_brace ws = EmptyString.
Proof.
  induction ws as [|c ws IH]; simpl; [reflexivity|].
  intros H. apply andb_true_iff in H. destruct H as [Hc H].
  assert (E : is_brace c = false).
  { unfold is_brace, not_brace. rewrite negb_involutive.
    destruct (Ascii.eqb_spec c "{"%char) as [->|]; [discriminate Hc|].
    destruct (Ascii.eqb_spec c "}"%char) as [->|]; [discriminate Hc | reflexivity]. }
  rewrite E. apply IH, H.
Qed.

Lemma removes_only_keeps_braces (text out : string) :
  removes_only text out -> keep_class is_brace out = keep_class is_brace text.
Proof.
  induction 1 as [|c t o _ IH|ws t o Hws _ IH].
  - reflexivity.
  - simpl. destruct (is_brace c); rewrite IH; reflexivity.
  - rewrite IH.
    change ("overflow-x:" ++ ws ++ "hidden;" ++ t)%string
      with ("overflow-x:" ++ (ws ++ ("hidden;" ++ t)))%string.
    rewrite !keep_class_app, (spaces_no_brace ws Hws). reflexivity.
Qed.

(** X10: the patch leaves the braces of the style sheet as they are. *)
Theorem patch_magazine_css_keeps_braces (text : string) :
  keep_class is_brace (patch_magazine_css text) = keep_class is_brace text.
Proof.
  apply removes_only_keeps_braces.
  unfold patch_magazine_css, Re.sub. apply sub_loop_removes_only.
Qed.

(** ** The pattern of embedded bodies *)

Section GreedyAny.

Context {T : Type}.

Lemma matches_lit_app (p t : string) (g : Re.groups)
    (k : string -> Re.groups -> option T) :
  Re.matches (Re.lit p) (p ++ t) g k = k t g.
Proof.
  induction p as [|c p IH]; simpl; [reflexivity|].
  rewrite Ascii.eqb_refl. exact IH.
Qed.

(** A greedy [.*] on a text without a newline tries the suffixes of the
    text from the shortest to the longest. *)
Lemma greedy_any (k : string -> Re.groups -> option T) (g : Re.groups) (s : string) :
  all_of not_newline s = true ->
  forall fuel, (String.length s <= fuel)%nat ->
    Re.star_loop (Re.matches Re.Any) true k fuel s g = first_suffix k s g.
Proof.
  induction s as [|c s IH]; intros Hs fuel Hfuel.
  - destruct fuel; reflexivity.
  - simpl in Hs. apply andb_true_iff in Hs. destruct Hs as [Hc Hs].
    destruct fuel as [|fuel]; [simpl in Hfuel; lia|].
    cbn [Re.star_loop Re.matches first_suffix].
    unfold not_newline in Hc. apply negb_true_iff in Hc. rewrite Hc.
    assert (E : (String.length s <? String.length (String c s))%nat = true)
      by (apply Nat.ltb_lt; simpl; lia).
    rewrite E, IH by (simpl in Hfuel; try assumption; lia). reflexivity.
Qed.

Lemma first_suffix_app (k : string -> Re.groups -> option T) (g : Re.groups)
    (u z : string) (x : T) :
  first_suffix k z g = Some x -> first_suffix k (u ++ z) g = Some x.
Proof.
  intros H. induction u as [|c u IH]; simpl; [exact H|]. rewrite IH. reflexivity.
Qed.

End GreedyAny.

Lemma all_of_app (p : ascii -> bool) (a b : string) :
  all_of p (a ++ b) = all_of p a && all_of p b.
Proof.
  induction a as [|c a IH]; simpl; [reflexivity|].
  rewrite IH, andb_assoc. reflexivity.
Qed.

(** X11: from the text of a script that is the call
    [parent.__bif_cfc0(self,'...')] the pattern takes out what stands
    between the quotes, for every payload that is not empty and has no
    newline. *)
Theorem contents_re_extracts_payload (payload : string) :
  payload <> EmptyString ->
  all_of not_newline payload = true ->
  Re.search contents_re ("parent.__bif_cfc0(self,'" ++ payload ++ "')")
  = Some (EmptyString, [(1%nat, payload)]).
Proof.
  intros Hne Hnl.
  assert (E : Re.match_at contents_re ("parent.__bif_cfc0(self,'" ++ payload ++ "')")
              = Some (EmptyString, [(1%nat, payload)])).
  { unfold Re.match_at, contents_re. cbn [Re.matches].
    rewrite matches_lit_app. unfold Re.Plus.
    destruct payload as [|c w]; [contradiction|].
    simpl in Hnl. apply andb_true_iff in Hnl. destruct Hnl as [Hc Hw].
    unfold not_newline in Hc. apply negb_true_iff in Hc.
    change (String c w ++ "')")%string with (String c (w ++ "')")).
    cbn [Re.matches]. rewrite Hc.
    etransitivity;
      [apply (greedy_any _ _ (w ++ "')")%string);
       [rewrite all_of_app, Hw; reflexivity | apply Nat.le_refl]|].
    apply first_suffix_app.
    cbn [first_suffix Re.matches Re.lit Ascii.eqb Bool.eqb].
    f_equal. f_equal. f_equal. f_equal.
    change (String c (w ++ "')")) with ((String c w) ++ "')")%string.
    apply consumed_app. }
  set (text := ("parent.__bif_cfc0(self,'" ++ payload ++ "')")%string) in *.
  destruct text; cbn [Re.search]; rewrite E; reflexivity.
Qed.

Lemma contents_re_extracts_payload_witness :
  Re.search contents_re ("parent.__bif_cfc0(self,'" ++ payload_inner ++ "')")
  = Some (EmptyString, [(1%nat, payload_inner)]).
Proof.
  apply (contents_re_extracts_payload payload_inner).
  - discriminate.
  - vm_compute. reflexivity.
Defined.

(** ** Finding and replacing the first tag *)

Section FirstTagFound.

Import Bs4.

Variable p : head -> bool.

Lemma find_in_selected (n t : node) : find_in p n = Some t -> selected_by p t.
Proof.
  revert t. induction n as [name a contents IH|s|k s] using node_induction;
    intros t; [|discriminate|discriminate].
  rewrite find_in_tag. destruct (p (name, a)) eqn:Ep.
  - intros [= <-]. exact Ep.
  - clear Ep. induction IH as [|c contents Hc _ IHcs]; simpl; [discriminate|].
    destruct (find_in p c) as [t'|] eqn:Ec.
    + intros [= <-]. apply (Hc t' eq_refl).
    + exact IHcs.
Qed.

Lemma find_selected (s : soup) (t : node) : find p s = Some t -> selected_by p t.
Proof.
  induction s as [|c s IH]; simpl; [discriminate|].
  destruct (find_in p c) as [t'|] eqn:Ec.
  - intros [= <-]. apply (find_in_selected c t' Ec).
  - exact IH.
Qed.

Variable f : node -> node.

(** There is something to replace exactly when there is something to find. *)
Lemma update_in_none (n : node) : update_in p f n = None <-> find_in p n = None.
Proof.
  induction n as [name a contents IH|s|k s] using node_induction;
    [|split; reflexivity|split; reflexivity].
  rewrite update_in_tag, find_in_tag. destruct (p (name, a)); [split; discriminate|].
  assert (E : update p f contents = None <-> find p contents = None).
  { induction IH as [|c contents Hc _ IHcs]; simpl; [split; reflexivity|].
    destruct (update_in p f c) as [c'|] eqn:Eu, (find_in p c) as [t|] eqn:Ef.
    - split; discriminate.
    - discriminate (proj2 Hc eq_refl).
    - discriminate (proj1 Hc eq_refl).
    - destruct (update p f contents); [|exact IHcs].
      split; [discriminate|]. intros H. apply IHcs in H. discriminate. }
  destruct (update p f contents).
  - split; [discriminate|]. intros H. apply E in H. discriminate.
  - split; [intros _; apply E; reflexivity | reflexivity].
Qed.

Lemma update_none (s : soup) : update p f s = None <-> find p s = None.
Proof.
  induction s as [|c s IH]; simpl; [split; reflexivity|].
  pose proof (update_in_none c) as Hc.
  destruct (update_in p f c) as [c'|] eqn:Eu, (find_in p c) as [t|] eqn:Ef.
  - split; discriminate.
  - discriminate (proj2 Hc eq_refl).
  - discriminate (proj1 Hc eq_refl).
  - destruct (update p f s); [|exact IH].
    split; [discriminate|]. intros H. apply IH in H. discriminate.
Qed.

(** After the replacement the first selected tag is the replacement, when
    the selector picks it. *)
Lemma update_in_find (n t : node) :
  find_in p n = Some t -> selected_by p (f t) ->
  exists n', update_in p f n = Some n' /\ find_in p n' = Some (f t).
Proof.
  revert t. induction n as [name a contents IH|s|k s] using node_induction;
    intros t; [|discriminate|discriminate].
  rewrite find_in_tag, update_in_tag. destruct (p (name, a)) eqn:Ep.
  - intros [= <-] Hsel. eexists. split; [reflexivity|].
    destruct (f (Tag name a contents)) as [name' a' contents'| |];
      [|contradiction|contradiction].
    rewrite find_in_tag. simpl in Hsel. rewrite Hsel. reflexivity.
  - intros Hfind Hsel.
    assert (E : exists contents',
               update p f contents = Some contents' /\ find p contents' = Some (f t)).
    { clear Ep. revert Hfind.
      induction IH as [|c contents Hc _ IHcs]; simpl; [discriminate|].
      destruct (find_in p c) as [t'|] eqn:Ec.
      - intros [= ->]. destruct (Hc t eq_refl Hsel) as (c' & Hu & Hf).
        rewrite Hu. eexists. split; [reflexivity|]. simpl. rewrite Hf. reflexivity.
      - intros Hfind. apply update_in_none in Ec. rewrite Ec.
        destruct (IHcs Hfind) as (l & Hu & Hf). rewrite Hu.
        eexists. split; [reflexivity|]. simpl.
        apply update_in_none in Ec. rewrite Ec. exact Hf. }
    destruct E as (contents' & Hu & Hf). rewrite Hu.
    eexists. split; [reflexivity|]. rewrite find_in_tag, Ep. exact Hf.
Qed.

Lemma update_find (s : soup) (t : node) :
  find p s = Some t -> selected_by p (f t) ->
  exists s', update p f s = Some s' /\ find p s' = Some (f t).
Proof.
  induction s as [|c s IH]; simpl; [discriminate|].
  destruct (find_in p c) as [t'|] eqn:Ec.
  - intros [= ->] Hsel. destruct (update_in_find c t Ec Hsel) as (c' & Hu & Hf).
    rewrite Hu. eexists. split; [reflexivity|]. simpl. rewrite Hf. reflexivity.
  - intros Hfind Hsel. apply update_in_none in Ec. rewrite Ec.
    destruct (IH Hfind Hsel) as (l & Hu & Hf). rewrite Hu.
    eexists. split; [reflexivity|]. simpl.
    apply update_in_none in Ec. rewrite Ec. exact Hf.
Qed.

End FirstTagFound.

(** ** The embedded body *)

Section EmbeddedBody.

Variable decode_markup : string -> option Bs4.soup.

(** A page without an inline script of the type [text/javascript], or
    whose first such script does not hold the call, is patched by the
    structural cleanup alone: nothing is decoded and nothing is raised. *)
Theorem page_without_payload_is_cleaned (soup : Bs4.soup) :
  Bs4.find is_script soup = None \/
  (exists script_ele,
      Bs4.find is_script soup = Some script_ele /\
      Re.search contents_re (script_text script_ele) = None) ->
  patch_xhtml decode_markup soup = Some (_cleanup_soup soup epub_version).
Proof.
  unfold patch_xhtml, embedded_body.
  intros [H|(script_ele & H & Hre)]; rewrite H; [reflexivity|].
  fold (script_text script_ele). rewrite Hre. reflexivity.
Qed.

(** X12: when the first script holds the call, its payload decodes to a
    document with a body and the page has a body, then the body of the page
    is replaced: the first body of the result is the decoded one. *)
Theorem embedded_body_replaces_body
    (soup new_soup : Bs4.soup) (script_ele old_body new_body : Bs4.node)
    (rest : string) (g : Re.groups) :
  Bs4.find is_script soup = Some script_ele ->
  Re.search contents_re (script_text script_ele) = Some (rest, g) ->
  decode_markup (Re.group 1 g) = Some new_soup ->
  Bs4.find (Bs4.named "body") new_soup = Some new_body ->
  Bs4.find (Bs4.named "body") soup = Some old_body ->
  exists soup',
    embedded_body decode_markup soup = Some soup' /\
    Bs4.find (Bs4.named "body") soup' = Some new_body.
Proof.
  intros Hs Hre Hd Hnew Hold. unfold embedded_body.
  rewrite Hs. fold (script_text script_ele). rewrite Hre, Hd, Hnew.
  apply (update_find (Bs4.named "body") (fun _ => new_body) soup old_body Hold).
  apply (find_selected _ _ _ Hnew).
Qed.

(** X13: the decode step raises exactly when the first script holds the
    call and the payload cannot be decoded, or the decoded document has no
    body, or the page itself has none. *)
Theorem embedded_body_raises
    (soup : Bs4.soup) (script_ele : Bs4.node) (rest : string) (g : Re.groups) :
  Bs4.find is_script soup = Some script_ele ->
  Re.search contents_re (script_text script_ele) = Some (rest, g) ->
  (embedded_body decode_markup soup = None <->
   decode_markup (Re.group 1 g) = None \/
   (exists new_soup,
       decode_markup (Re.group 1 g) = Some new_soup /\
       Bs4.find (Bs4.named "body") new_soup = None) \/
   Bs4.find (Bs4.named "body") soup = None).
Proof.
  intros Hs Hre. unfold embedded_body.
  rewrite Hs. fold (script_text script_ele). rewrite Hre.
  destruct (decode_markup (Re.group 1 g)) as [new_soup|].
  - destruct (Bs4.find (Bs4.named "body") new_soup) as [new_body|] eqn:Hnew.
    + rewrite update_none. split.
      * intros H. right. right. exact H.
      * intros [H|[(ns & [= <-] & H)|H]]; [discriminate| |exact H].
        rewrite Hnew in H. discriminate.
    + split; [|reflexivity]. intros _. right. left.
      exists new_soup. split; [reflexivity | exact Hnew].
  - split; [|reflexivity]. intros _. left. reflexivity.
Qed.

End EmbeddedBody.

Lemma page_without_payload_is_cleaned_witness :
  patch_xhtml sample_decode_markup inner_page
  = Some (_cleanup_soup inner_page epub_version).
Proof.
  apply (page_without_payload_is_cleaned sample_decode_markup inner_page).
  left. vm_compute. reflexivity.
Defined.

Lemma embedded_body_replaces_body_witness :
  exists soup',
    embedded_body sample_decode_markup nested_page = Some soup' /\
    Bs4.find (Bs4.named "body") soup'
    = Some (Bs4.Tag "body" [] [script_with payload_inner]).
Proof.
  apply (embedded_body_replaces_body sample_decode_markup nested_page outer_page
           (script_with payload_outer)
           (Bs4.Tag "body" [] [script_with payload_outer])
           (Bs4.Tag "body" [] [script_with payload_inner])
           EmptyString [(1%nat, payload_outer)]).
  - vm_compute. reflexivity.
  - vm_compute. reflexivity.
  - vm_compute. reflexivity.
  - vm_compute. reflexivity.
  - vm_compute. reflexivity.
Defined.

Lemma embedded_body_raises_witness :
  embedded_body (fun _ => None) nested_page = None <->
  (fun _ : string => @None Bs4.soup) (Re.group 1 [(1%nat, payload_outer)]) = None \/
  (exists new_soup,
      (fun _ : string => @None Bs4.soup) (Re.group 1 [(1%nat, payload_outer)])
      = Some new_soup /\
      Bs4.find (Bs4.named "body") new_soup = None) \/
  Bs4.find (Bs4.named "body") nested_page = None.
Proof.
  apply (embedded_body_raises (fun _ => None) nested_page
           (script_with payload_outer) EmptyString [(1%nat, payload_outer)]).
  - vm_compute. reflexivity.
  - vm_compute. reflexivity.
Defined.

(** ** What the cleanup leaves behind *)

Section CleanupResult.

Import Bs4.

(** A property that every tag has after the loops, and that the namespace
    of [html] keeps, holds of all tags of the cleaned document. *)
Lemma cleanup_heads_all (Q : head -> Prop) (soup : Bs4.soup) (version : string) :
  (forall h, Q (cleanup_head version h)) ->
  (forall a v, Q ("html", a) -> Q ("html", set_default a "xmlns" v)) ->
  Forall Q (soup_heads (_cleanup_soup soup version)).
Proof.
  intros HQ Hhtml. rewrite cleanup_steps.
  apply set_html_namespace_heads; [exact Hhtml|].
  apply decompose_all_heads. rewrite map_soup_heads.
  apply Forall_forall. intros h Hh. apply in_map_iff in Hh.
  destruct Hh as (h0 & <- & _). apply HQ.
Qed.

Lemma cleanup_no_base (soup : Bs4.soup) (version : string) :
  Forall (fun h => String.eqb (fst h) "base" = false)
    (soup_heads (_cleanup_soup soup version)).
Proof.
  rewrite cleanup_steps. apply set_html_namespace_heads.
  - intros a v _. reflexivity.
  - apply decompose_all_none.
Qed.

Lemma get_filter_dropped (keep : string -> bool) (a : attrs) (k : string) :
  keep k = false -> get (filter (fun kv => keep (fst kv)) a) k = None.
Proof.
  intros Hk. induction a as [|[k0 v0] a IH]; simpl; [reflexivity|].
  destruct (keep k0) eqn:E0; simpl; [|exact IH].
  destruct (String.eqb_spec k0 k) as [->|]; [congruence | exact IH].
Qed.

Lemma removed_attribute_not_kept (k : string) :
  In k remove_attributes -> kept_attribute k = false /\ k <> "xmlns" /\ k <> "xmlns:xlink".
Proof.
  unfold remove_attributes. simpl.
  intros [<-|[<-|[<-|[<-|[<-|[<-|[<-|[<-|[<-|[]]]]]]]]]];
    (split; [reflexivity | split; discriminate]).
Qed.

End CleanupResult.

Lemma cleanup_tags_clean (soup : Bs4.soup) (version : string) :
  Forall
    (fun h =>
       fst h <> "base" /\ fst h <> "figcaption" /\
       (fst h = "svg" ->
        Py.truthy (Bs4.get (snd h) "xmlns") = true /\
        Py.truthy (Bs4.get (snd h) "xmlns:xlink") = true))
    (Bs4.soup_heads (_cleanup_soup soup version)).
Proof.
  assert (H1 := cleanup_no_base soup version).
  assert (H2 : Forall
    (fun h =>
       fst h <> "figcaption" /\
       (fst h = "svg" ->
        Py.truthy (Bs4.get (snd h) "xmlns") = true /\
        Py.truthy (Bs4.get (snd h) "xmlns:xlink") = true))
    (Bs4.soup_heads (_cleanup_soup soup version))).
  { apply cleanup_heads_all.
    - intros [name a]. rewrite cleanup_head_closed. simpl fst. simpl snd. split.
      + destruct (clean_name_cases (String.eqb version "2.0") name) as [->|(-> & Hf & _)];
          [discriminate|].
        intros ->. discriminate.
      + intros Hsvg. unfold clean_attributes.
        assert (E : String.eqb name "svg" = true).
        { rewrite <- (clean_name_svg (String.eqb version "2.0")), Hsvg. reflexivity. }
        rewrite E. unfold svg_attributes. split.
        * rewrite get_set_default_other by discriminate.
          apply truthy_set_default. discriminate.
        * apply truthy_set_default. discriminate.
    - intros a v [_ _]. split; [discriminate|]. intros H. discriminate H. }
  rewrite Forall_forall in *. intros h Hh. specialize (H1 h Hh). specialize (H2 h Hh).
  split; [|exact H2]. intros E. rewrite E in H1. discriminate.
Qed.

(** The elements of a document cleaned for the version 2.0 *)
Lemma cleanup_strict_heads (soup : Bs4.soup) :
  Forall
    (fun h =>
       fst h <> "nav" /\ fst h <> "section" /\
       forall k, In k remove_attributes -> Bs4.get (snd h) k = None)
    (Bs4.soup_heads (_cleanup_soup soup "2.0")).
Proof.
  apply cleanup_heads_all.
  - intros [name a]. rewrite cleanup_head_closed. simpl fst. simpl snd.
    change (String.eqb "2.0" "2.0") with true.
    split; [|split].
    + destruct (clean_name_cases true name) as [->|(-> & _ & Hs)]; [discriminate|].
      intros ->. destruct (Hs eq_refl) as [Hn _]. discriminate.
    + destruct (clean_name_cases true name) as [->|(-> & _ & Hs)]; [discriminate|].
      intros ->. destruct (Hs eq_refl) as [_ Hn]. discriminate.
    + intros k Hk. apply removed_attribute_not_kept in Hk.
      destruct Hk as (Hkept & Hx & Hl).
      unfold clean_attributes, svg_attributes.
      destruct (String.eqb name "svg").
      * rewrite !get_set_default_other by assumption.
        apply get_filter_dropped, Hkept.
      * apply get_filter_dropped, Hkept.
  - intros a v (Hn & Hs & Hk). split; [discriminate|]. split; [discriminate|].
    intros k Hin. simpl. pose proof (removed_attribute_not_kept k Hin) as (_ & Hx & _).
    rewrite get_set_default_other by exact Hx. apply Hk, Hin.
Qed.

(** X14: for the version 2.0 the cleaned document has no [nav] and no
    [section] element, no element has one of the attributes that are
    removed, and the first document type declaration among the contents
    of the document, if there is one, is the XHTML 1.1 one. *)
Theorem cleanup_strict_postcondition (soup : Bs4.soup) :
  Forall
    (fun h =>
       fst h <> "nav" /\ fst h <> "section" /\
       forall k, In k remove_attributes -> Bs4.get (snd h) k = None)
    (Bs4.soup_heads (_cleanup_soup soup "2.0")) /\
  doctype_ok (_cleanup_soup soup "2.0").
Proof.
  split; [apply cleanup_strict_heads|].
  rewrite cleanup_steps. unfold doctype_ok.
  rewrite set_html_namespace_doctypes, decompose_all_doctypes, map_soup_doctypes.
  apply replace_doctype_ok.
Qed.

Section CleanupStructure.

Import Bs4.

Lemma exists_tag_heads (p : head -> bool) (n : node) :
  exists_tag p n = existsb p (heads n).
Proof.
  induction n as [name a contents IH|s|k s] using node_induction; simpl;
    [|reflexivity|reflexivity].
  f_equal. induction IH as [|c contents Hc _ IHcs]; simpl; [reflexivity|].
  rewrite existsb_app, Hc, IHcs. reflexivity.
Qed.

Lemma soup_exists_heads (p : head -> bool) (s : soup) :
  soup_exists p s = existsb p (soup_heads s).
Proof.
  unfold soup_exists, soup_heads. induction s as [|c s IH]; simpl; [reflexivity|].
  rewrite existsb_app, exists_tag_heads, IH. reflexivity.
Qed.

(** The loop over all tags and the removal of a tag commute when the loop
    does not rename to or from the name that is removed. *)
Lemma decompose_in_map_tags (name : string) (f : head -> head) (n : node) :
  (forall h, String.eqb (fst (f h)) name = String.eqb (fst h) name) ->
  decompose_in name (map_tags f n) = map_tags f (decompose_in name n).
Proof.
  intros Hf. induction n as [x a contents IH|s|k s] using node_induction; simpl;
    [|reflexivity|reflexivity].
  f_equal. induction IH as [|c contents Hc _ IHcs]; simpl; [reflexivity|].
  rewrite Hc, IHcs.
  assert (E : is_named name (map_tags f (decompose_in name c))
              = is_named name (decompose_in name c)).
  { destruct (decompose_in name c) as [y b cs| |]; simpl; [|reflexivity|reflexivity].
    apply (Hf (y, b)). }
  rewrite E. destruct (is_named name (decompose_in name c)); reflexivity.
Qed.

Lemma decompose_all_map_soup (name : string) (f : head -> head) (s : soup) :
  (forall h, String.eqb (fst (f h)) name = String.eqb (fst h) name) ->
  decompose_all name (map_soup f s) = map_soup f (decompose_all name s).
Proof.
  intros Hf. unfold decompose_all, map_soup.
  induction s as [|c s IH]; simpl; [reflexivity|].
  rewrite IH, (decompose_in_map_tags name f c Hf).
  assert (E : is_named name (map_tags f (decompose_in name c))
              = is_named name (decompose_in name c)).
  { destruct (decompose_in name c) as [y b cs| |]; simpl; [|reflexivity|reflexivity].
    apply (Hf (y, b)). }
  rewrite E. destruct (is_named name (decompose_in name c)); reflexivity.
Qed.

Lemma cleanup_head_base (version : string) (h : head) :
  String.eqb (fst (cleanup_head version h)) "base" = String.eqb (fst h) "base".
Proof.
  destruct h as [name a]. rewrite cleanup_head_closed. simpl.
  destruct (clean_name_cases (String.eqb version "2.0") name) as [E|(E & _)];
    rewrite E; [|reflexivity].
  unfold clean_name in E.
  destruct (String.eqb_spec name "base") as [->|]; [|reflexivity].
  destruct (String.eqb version "2.0"); discriminate.
Qed.

Lemma replace_doctype_decompose (name : string) (s : soup) :
  decompose_all name (replace_doctype s) = replace_doctype (decompose_all name s).
Proof.
  unfold decompose_all. induction s as [|c s IH]; simpl; [reflexivity|].
  destruct c as [x a cs|d|k t]; simpl.
  - destruct (negb (String.eqb x name)); simpl; [rewrite IH; reflexivity | exact IH].
  - reflexivity.
  - rewrite IH. reflexivity.
Qed.

Lemma replace_doctype_heads (s : soup) : soup_heads (replace_doctype s) = soup_heads s.
Proof.
  unfold soup_heads. induction s as [|c s IH]; simpl; [reflexivity|].
  destruct c; simpl; [rewrite IH; reflexivity | reflexivity | exact IH].
Qed.

Lemma replace_doctype_strings (s : soup) :
  soup_strings (replace_doctype s) = soup_strings s.
Proof.
  unfold soup_strings. induction s as [|c s IH]; simpl; [reflexivity|].
  destruct c; simpl; [rewrite IH; reflexivity | reflexivity | rewrite IH; reflexivity].
Qed.

Lemma map_tags_strings (f : head -> head) (n : node) : strings (map_tags f n) = strings n.
Proof.
  induction n as [name a contents IH|s|k s] using node_induction; simpl;
    [|reflexivity|reflexivity].
  induction IH as [|c contents Hc _ IHcs]; simpl; [reflexivity|].
  rewrite Hc, IHcs. reflexivity.
Qed.

Lemma map_soup_strings (f : head -> head) (s : soup) :
  soup_strings (map_soup f s) = soup_strings s.
Proof.
  unfold soup_strings, map_soup. induction s as [|c s IH]; simpl; [reflexivity|].
  rewrite map_tags_strings, IH. reflexivity.
Qed.

(** The cleanup as the removal of [base] followed by the other steps *)
Lemma cleanup_after_decompose (s : soup) (version : string) :
  _cleanup_soup s version
  = set_html_namespace
      (map_soup (cleanup_head version)
         (if String.eqb version "2.0"
          then replace_doctype (decompose_all "base" s)
          else decompose_all "base" s)).
Proof.
  rewrite cleanup_steps. f_equal.
  rewrite decompose_all_map_soup by (apply cleanup_head_base). f_equal.
  destruct (String.eqb version "2.0"); [apply replace_doctype_decompose | reflexivity].
Qed.

Lemma Forall2_same {X : Type} (R : X -> X -> Prop) (l : list X) :
  (forall x, R x x) -> Forall2 R l l.
Proof. intros H. induction l; constructor; auto. Qed.

Lemma html_namespace_in_heads (n n' : node) :
  update_in (named "html") html_namespace n = Some n' ->
  Forall2 html_step (heads n) (heads n') /\ strings n' = strings n.
Proof.
  revert n'. induction n as [name a contents IH|s|k s] using node_induction;
    intros n'; [|discriminate|discriminate].
  rewrite update_in_tag. destruct (named "html" (name, a)) eqn:Ep.
  - intros [= <-]. simpl. split; [|reflexivity].
    constructor; [|apply Forall2_same; left; reflexivity].
    right. unfold named in Ep. simpl in Ep. apply String.eqb_eq in Ep. subst name.
    split; reflexivity.
  - destruct (update (named "html") html_namespace contents) as [contents'|] eqn:Eu;
      [|discriminate].
    intros [= <-]. simpl.
    assert (E : Forall2 html_step (flat_map heads contents) (flat_map heads contents')
                /\ flat_map strings contents' = flat_map strings contents).
    { clear Ep. revert contents' Eu.
      induction IH as [|c contents Hc _ IHcs]; intros contents'; simpl; [discriminate|].
      destruct (update_in (named "html") html_namespace c) as [c'|] eqn:Ec.
      - intros [= <-]. destruct (Hc c' eq_refl) as [Hh Hs]. simpl. split.
        + apply Forall2_app; [exact Hh | apply Forall2_same; left; reflexivity].
        + rewrite Hs. reflexivity.
      - destruct (update (named "html") html_namespace contents) as [l|] eqn:El;
          [|discriminate].
        intros [= <-]. destruct (IHcs l eq_refl) as [Hh Hs]. simpl. split.
        + apply Forall2_app; [apply Forall2_same; left; reflexivity | exact Hh].
        + rewrite Hs. reflexivity. }
    destruct E as [Hh Hs]. split; [|exact Hs].
    constructor; [left; reflexivity | exact Hh].
Qed.

Lemma set_html_namespace_in_heads (s : soup) :
  Forall2 html_step (soup_heads s) (soup_heads (set_html_namespace s)) /\
  soup_strings (set_html_namespace s) = soup_strings s.
Proof.
  unfold set_html_namespace.
  destruct (update (named "html") html_namespace s) as [s'|] eqn:E;
    [|split; [apply Forall2_same; left; reflexivity | reflexivity]].
  unfold soup_heads, soup_strings. revert s' E.
  induction s as [|c s IH]; intros s'; simpl; [discriminate|].
  destruct (update_in (named "html") html_namespace c) as [c'|] eqn:Ec.
  - intros [= <-]. destruct (html_namespace_in_heads c c' Ec) as [Hh Hs]. simpl. split.
    + apply Forall2_app; [exact Hh | apply Forall2_same; left; reflexivity].
    + rewrite Hs. reflexivity.
  - destruct (update (named "html") html_namespace s) as [l|] eqn:El; [|discriminate].
    intros [= <-]. destruct (IH l eq_refl) as [Hh Hs]. simpl. split.
    + apply Forall2_app; [apply Forall2_same; left; reflexivity | exact Hh].
    + rewrite Hs. reflexivity.
Qed.

Lemma html_step_names (l l' : list head) :
  Forall2 html_step l l' -> map fst l' = map fst l.
Proof.
  induction 1 as [|h h' l l' [->|[Hn ->]] _ IH]; simpl; [reflexivity| |];
    rewrite IH; [reflexivity|]. rewrite Hn. reflexivity.
Qed.

Lemma html_step_exists (p : head -> bool) (l l' : list head) :
  (forall a v, p ("html", set_default a "xmlns" v) = p ("html", a)) ->
  Forall2 html_step l l' -> existsb p l' = existsb p l.
Proof.
  intros Hp. induction 1 as [|h h' l l' Hstep _ IH]; simpl; [reflexivity|].
  rewrite IH. f_equal. destruct Hstep as [->|[Hn ->]]; [reflexivity|].
  destruct h as [name a]. simpl in *. subst name. apply Hp.
Qed.

End CleanupStructure.

Lemma html_has_namespace (soup : Bs4.soup) :
  match Bs4.find (Bs4.named "html") (set_html_namespace soup) with
  | Some (Bs4.Tag _ a _) => Py.truthy (Bs4.get a "xmlns") = true
  | _ => True
  end.
Proof.
  unfold set_html_namespace.
  destruct (Bs4.find (Bs4.named "html") soup) as [t|] eqn:Ef.
  - pose proof (find_selected _ _ _ Ef) as Hsel.
    destruct t as [name a contents| |]; [|contradiction|contradiction].
    destruct (update_find (Bs4.named "html") html_namespace soup _ Ef Hsel)
      as (s' & Hu & Hf).
    rewrite Hu, Hf. simpl. apply truthy_set_default. discriminate.
  - pose proof (proj2 (update_none (Bs4.named "html") html_namespace soup) Ef) as Hu.
    rewrite Hu, Ef. exact I.
Qed.

(** X15: in either version the cleaned document has no [base] and no
    [figcaption] element, each of its [svg] elements declares both
    namespaces, and its first [html] element declares a namespace. *)
Theorem cleanup_postcondition (soup : Bs4.soup) (version : string) :
  Forall
    (fun h =>
       fst h <> "base" /\ fst h <> "figcaption" /\
       (fst h = "svg" ->
        Py.truthy (Bs4.get (snd h) "xmlns") = true /\
        Py.truthy (Bs4.get (snd h) "xmlns:xlink") = true))
    (Bs4.soup_heads (_cleanup_soup soup version)) /\
  match Bs4.find (Bs4.named "html") (_cleanup_soup soup version) with
  | Some (Bs4.Tag _ a _) => Py.truthy (Bs4.get a "xmlns") = true
  | _ => True
  end.
Proof.
  split; [apply cleanup_tags_clean|].
  rewrite cleanup_steps. apply html_has_namespace.
Qed.

(** X16: the cleanup neither adds nor drops an element, but for [base]
    elements and what they contain: the names of the elements of the
    cleaned document are those of the document without [base], with
    [figcaption] and, for the version 2.0, [nav] and [section] renamed to
    [div]. *)
Theorem cleanup_tag_names (soup : Bs4.soup) (version : string) :
  tag_names (_cleanup_soup soup version)
  = map (clean_name (String.eqb version "2.0"))
      (tag_names (Bs4.decompose_all "base" soup)).
Proof.
  unfold tag_names. rewrite cleanup_after_decompose.
  rewrite (html_step_names _ _ (proj1 (set_html_namespace_in_heads _))).
  rewrite map_soup_heads, !map_map.
  assert (E : Bs4.soup_heads
                (if String.eqb version "2.0"
                 then replace_doctype (Bs4.decompose_all "base" soup)
                 else Bs4.decompose_all "base" soup)
              = Bs4.soup_heads (Bs4.decompose_all "base" soup)).
  { destruct (String.eqb version "2.0"); [apply replace_doctype_heads | reflexivity]. }
  rewrite E. apply map_ext. intros [name a]. rewrite cleanup_head_closed. reflexivity.
Qed.

(** X17: for a version other than 2.0, and so for the version 3.0 that
    [process_ebook_loan] asks for, the two tests made on the cleaned page,
    for an [svg] element and for an element with [epub:type="toc"], give
    what they give on the page without its [base] elements.  For the
    version 2.0 no element with an [epub:type] is left to find. *)
Theorem cleanup_keeps_detection (soup : Bs4.soup) (version : string) :
  String.eqb version "2.0" = false ->
  Bs4.soup_exists (Bs4.named "svg") (_cleanup_soup soup version)
  = Bs4.soup_exists (Bs4.named "svg") (Bs4.decompose_all "base" soup) /\
  Bs4.soup_exists (Bs4.has_attr "epub:type" "toc") (_cleanup_soup soup version)
  = Bs4.soup_exists (Bs4.has_attr "epub:type" "toc") (Bs4.decompose_all "base" soup) /\
  Bs4.soup_exists (Bs4.has_attr "epub:type" "toc") (_cleanup_soup soup "2.0") = false.
Proof.
  intros Hv.
  assert (Hgen : forall p : Bs4.head -> bool,
    (forall a v, p ("html", Bs4.set_default a "xmlns" v) = p ("html", a)) ->
    (forall h, p (cleanup_head version h) = p h) ->
    Bs4.soup_exists p (_cleanup_soup soup version)
    = Bs4.soup_exists p (Bs4.decompose_all "base" soup)).
  { intros p Hhtml Hhead. rewrite !soup_exists_heads, cleanup_after_decompose.
    rewrite (html_step_exists p _ _ Hhtml (proj1 (set_html_namespace_in_heads _))).
    rewrite map_soup_heads, Hv.
    clear - Hhead. induction (Bs4.soup_heads (Bs4.decompose_all "base" soup))
      as [|h l IH]; simpl; [reflexivity|]. rewrite Hhead, IH. reflexivity. }
  split; [|split].
  - apply Hgen; [reflexivity|].
    intros [name a]. rewrite cleanup_head_closed. unfold Bs4.named. simpl.
    apply clean_name_svg.
  - apply Hgen.
    + intros a v. unfold Bs4.has_attr. simpl.
      rewrite get_set_default_other by discriminate. reflexivity.
    + intros [name a]. rewrite cleanup_head_closed, Hv. unfold Bs4.has_attr. simpl.
      unfold clean_attributes, svg_attributes.
      destruct (String.eqb name "svg"); [|reflexivity].
      rewrite !get_set_default_other by discriminate. reflexivity.
  - rewrite soup_exists_heads.
    pose proof (cleanup_strict_heads soup) as Hall.
    induction Hall as [|h l (_ & _ & Hk) _ IH]; simpl; [reflexivity|].
    rewrite IH, orb_false_r. unfold Bs4.has_attr.
    rewrite (Hk "epub:type"); [reflexivity|].
    unfold remove_attributes. simpl. tauto.
Qed.

Lemma cleanup_keeps_detection_witness :
  Bs4.soup_exists (Bs4.named "svg") (_cleanup_soup contents_page "3.0")
  = Bs4.soup_exists (Bs4.named "svg") (Bs4.decompose_all "base" contents_page) /\
  Bs4.soup_exists (Bs4.has_attr "epub:type" "toc") (_cleanup_soup contents_page "3.0")
  = Bs4.soup_exists (Bs4.has_attr "epub:type" "toc")
      (Bs4.decompose_all "base" contents_page) /\
  Bs4.soup_exists (Bs4.has_attr "epub:type" "toc") (_cleanup_soup contents_page "2.0")
  = false.
Proof.
  apply (cleanup_keeps_detection contents_page "3.0"). reflexivity.
Defined.

Lemma decompose_strings_unchanged_by_doctype (s : Bs4.soup) (version : string) :
  soup_strings
    (if String.eqb version "2.0"
     then replace_doctype (Bs4.decompose_all "base" s)
     else Bs4.decompose_all "base" s)
  = soup_strings (Bs4.decompose_all "base" s).
Proof.
  destruct (String.eqb version "2.0"); [apply replace_doctype_strings | reflexivity].
Qed.

(** X18: the cleanup changes no text: the strings of the cleaned document
    (text, comments and the like) are those of the document without its
    [base] elements, in the same order. *)
Theorem cleanup_keeps_strings (soup : Bs4.soup) (version : string) :
  soup_strings (_cleanup_soup soup version)
  = soup_strings (Bs4.decompose_all "base" soup).
Proof.
  rewrite cleanup_after_decompose.
  rewrite (proj2 (set_html_namespace_in_heads _)), map_soup_strings.
  apply decompose_strings_unchanged_by_doctype.
Qed.

Lemma replace_doctype_doctypes (s : Bs4.soup) :
  Bs4.top_doctypes (replace_doctype s)
  = match Bs4.top_doctypes s with
    | [] => []
    | _ :: rest => modified_doctype :: rest
    end.
Proof.
  unfold Bs4.top_doctypes. induction s as [|c s IH]; simpl; [reflexivity|].
  destruct c; simpl; [exact IH | reflexivity | exact IH].
Qed.

(** X19: of the document type declarations among the contents of the
    document, the version 2.0 replaces the first by the XHTML 1.1 one and
    keeps the others; any other version keeps them all. *)
Theorem cleanup_doctypes (soup : Bs4.soup) (version : string) :
  Bs4.top_doctypes (_cleanup_soup soup version)
  = if String.eqb version "2.0" then
      match Bs4.top_doctypes soup with
      | [] => []
      | _ :: rest => modified_doctype :: rest
      end
    else Bs4.top_doctypes soup.
Proof.
  rewrite cleanup_steps.
  rewrite set_html_namespace_doctypes, decompose_all_doctypes, map_soup_doctypes.
  destruct (String.eqb version "2.0"); [apply replace_doctype_doctypes | reflexivity].
Qed.

(** ** The synthesized NCX *)

Lemma nav_points_rows (i : nat) (toc : list TocItem) :
  map nav_point_row (nav_points i toc) = toc_rows i toc.
Proof.
  revert i; induction toc as [|item toc IH]; intros i; simpl; [reflexivity|].
  rewrite IH. reflexivity.
Qed.

Lemma nav_points_all_named (i : nat) (toc : list TocItem) :
  filter (fun c => String.eqb (element_tag c) "navPoint") (nav_points i toc)
  = nav_points i toc.
Proof.
  revert i; induction toc as [|item toc IH]; intros i; simpl; [reflexivity|].
  rewrite IH. reflexivity.
Qed.

Lemma nav_points_length (i : nat) (toc : list TocItem) :
  length (nav_points i toc) = length toc.
Proof.
  revert i; induction toc as [|item toc IH]; intros i; simpl; [reflexivity|].
  rewrite IH. reflexivity.
Qed.

(** X20: the navigation map of the NCX has one [navPoint] for each entry
    of the table of contents, in its order: the [i]-th has the id
    [navPoint] followed by [i], counted from 1, the title of the entry as
    its label and the path of the entry, fragment included, as its
    source. *)
Theorem ncx_nav_map_mirrors_toc
    (Format : Type) (extract_isbn : list Format -> list string -> option string)
    (EBookOverdrive MagazineOverDrive : string)
    (media_info : MediaInfo Format) (openbook : OpenBook) (ncx : Element) :
  _build_ncx extract_isbn EBookOverdrive MagazineOverDrive media_info openbook
  = Some ncx ->
  map nav_point_row (ncx_nav_points ncx) = toc_rows 1 (nav_toc openbook) /\
  length (ncx_nav_points ncx) = length (nav_toc openbook).
Proof.
  unfold _build_ncx. destruct (creator_names openbook) as [|name names]; [discriminate|].
  intros [= <-].
  assert (E : ncx_nav_points
                (mkElement "ncx"
                   [("version", "2005-1");
                    ("xmlns", "http://www.daisy.org/z3986/2005/ncx/");
                    ("xml:lang", "en")] None
                   [mkElement "head" [] None
                      [mkElement "meta"
                         [("content",
                           publication_identifier extract_isbn EBookOverdrive
                             MagazineOverDrive media_info);
                          ("name", "dtb:uid")] None []];
                    mkElement "docTitle" [] None
                      [mkElement "text" [] (Some (title_main openbook)) []];
                    mkElement "docAuthor" [] None
                      [mkElement "text" [] (Some name) []];
                    mkElement "navMap" [] None (nav_points 1 (nav_toc openbook))])
              = nav_points 1 (nav_toc openbook)).
  { unfold ncx_nav_points, children_named. simpl.
    rewrite app_nil_r. apply nav_points_all_named. }
  rewrite E, nav_points_rows. split; [reflexivity | apply nav_points_length].
Qed.

Lemma ncx_nav_map_mirrors_toc_witness :
  exists ncx,
    _build_ncx sample_extract_isbn "ebook-overdrive" "magazine-overdrive"
      sample_magazine sample_openbook = Some ncx /\
    map nav_point_row (ncx_nav_points ncx)
    = [(Some "navPoint1", [Some "Cover"], [Some "stories/a.xhtml"]);
       (Some "navPoint2", [Some "Letters"], [Some "stories/a.xhtml#letters"])].
Proof.
  eexists. split; [vm_compute; reflexivity|].
  apply (ncx_nav_map_mirrors_toc unit sample_extract_isbn "ebook-overdrive"
           "magazine-overdrive" sample_magazine sample_openbook _ eq_refl).
Defined.

(** [_build_ncx] raises exactly when [openbook] has no creator.
    Otherwise the title of the document is the main title and its author
    is the first creator, whatever the others are. *)
Theorem ncx_title_and_author
    (Format : Type) (extract_isbn : list Format -> list string -> option string)
    (EBookOverdrive MagazineOverDrive : string)
    (media_info : MediaInfo Format) (openbook : OpenBook) :
  match _build_ncx extract_isbn EBookOverdrive MagazineOverDrive media_info openbook with
  | None => creator_names openbook = []
  | Some ncx =>
      label_texts "docTitle" ncx = [Some (title_main openbook)] /\
      label_texts "docAuthor" ncx = [nth_error (creator_names openbook) 0]
  end.
Proof.
  unfold _build_ncx. destruct (creator_names openbook) as [|name names]; [reflexivity|].
  split; reflexivity.
Qed.

(** ** The rows of the manifest *)

Section ManifestRowsProperties.

Variable guess_type : string -> option string.
Variable slugify : string -> string.
Variable decode_markup : string -> option Bs4.soup.
Context {Format : Type}.
Variable extract_isbn : list Format -> list string -> option string.
Variables EBookOverdrive MagazineOverDrive : string.

Lemma detect_properties_detected (soup : Bs4.soup) (m : ManifestEntry) (nav : bool) :
  properties m = None ->
  detect_properties soup m nav
  = (mkManifestEntry (href m) (id m) (media_type m) (detected_properties soup),
     nav || Bs4.soup_exists (Bs4.has_attr "epub:type" "toc") soup).
Proof.
  destruct m as [h i mt pr]. simpl. intros ->.
  unfold detect_properties, detected_properties, set_properties.
  destruct (Bs4.soup_exists (Bs4.named "svg") soup),
           (Bs4.soup_exists (Bs4.has_attr "epub:type" "toc") soup);
    simpl; rewrite ?orb_true_r, ?orb_false_r; reflexivity.
Qed.

(** One turn of the loop: it raises on the assets that fail, and appends
    the row of the asset otherwise. *)
Lemma process_entry_row (media_info : MediaInfo Format) (st : Assembly) (a : Asset) :
  process_entry guess_type slugify decode_markup media_info st a
  = if asset_fails guess_type slugify decode_markup a then None
    else
      match entry_row guess_type slugify decode_markup a with
      | Some m =>
          Some (mkAssembly (manifest_entries st ++ [m])
                  (has_ncx st || is_ncx guess_type a)
                  (has_nav st || is_nav_page guess_type decode_markup a))
      | None => None
      end.
Proof.
  unfold process_entry, asset_fails, entry_row, entry_id, is_nav_page, is_ncx,
    is_xhtml, inspected_markup.
  set (path := Py.tail (url_path (entry a))).
  set (mt := guess_type path).
  assert (Hncx : (if is_type mt "application/x-dtbncx+xml" then true else has_ncx st)
                 = has_ncx st || is_type mt "application/x-dtbncx+xml").
  { destruct (is_type mt "application/x-dtbncx+xml"), (has_ncx st); reflexivity. }
  rewrite Hncx. clear Hncx.
  destruct (if is_type mt "application/x-dtbncx+xml" then Some "ncx"
            else _sanitise_opf_id slugify path) as [i|]; [|reflexivity].
  destruct (asset_exists a); cbn [negb andb].
  - destruct (is_type mt "application/xhtml+xml"); cbn [andb].
    + rewrite detect_properties_detected by reflexivity. reflexivity.
    + rewrite orb_false_r. reflexivity.
  - destruct (is_magazine (media_type_id media_info) && is_type mt "text/css") eqn:Ecss.
    + apply andb_true_iff in Ecss. destruct Ecss as [_ Ecss].
      rewrite (is_type_css_xhtml mt Ecss). cbn [andb]. rewrite orb_false_r. reflexivity.
    + destruct (is_type mt "application/xhtml+xml"); cbn [andb].
      * destruct (patch_xhtml decode_markup (markup a)) as [soup|]; [|reflexivity].
        rewrite detect_properties_detected by reflexivity. reflexivity.
      * rewrite orb_false_r. reflexivity.
Qed.

Lemma process_entries_rows (media_info : MediaInfo Format) (roster : list Asset) :
  forall st,
    match process_entries guess_type slugify decode_markup media_info st roster with
    | None => existsb (asset_fails guess_type slugify decode_markup) roster = true
    | Some st' =>
        existsb (asset_fails guess_type slugify decode_markup) roster = false /\
        exists ms,
          Forall2 (fun a m => entry_row guess_type slugify decode_markup a = Some m)
            roster ms /\
          manifest_entries st' = manifest_entries st ++ ms /\
          has_ncx st' = has_ncx st || existsb (is_ncx guess_type) roster /\
          has_nav st' = has_nav st
                        || existsb (is_nav_page guess_type decode_markup) roster
    end.
Proof.
  induction roster as [|a roster IH]; intros st; simpl.
  - split; [reflexivity|]. exists []. rewrite app_nil_r, !orb_false_r.
    repeat split. constructor.
  - rewrite process_entry_row.
    destruct (asset_fails guess_type slugify decode_markup a) eqn:Ef; [reflexivity|].
    destruct (entry_row guess_type slugify decode_markup a) as [m|] eqn:Er.
    + specialize (IH (mkAssembly (manifest_entries st ++ [m])
                        (has_ncx st || is_ncx guess_type a)
                        (has_nav st || is_nav_page guess_type decode_markup a))).
      destruct (process_entries _ _ _ _ _ roster) as [st'|]; [|exact IH].
      destruct IH as (Hf & ms & Hall & Hm & Hncx & Hnav). simpl in *.
      split; [exact Hf|]. exists (m :: ms).
      rewrite Hm, <- app_assoc, Hncx, Hnav, !orb_assoc.
      repeat split. constructor; assumption.
    + unfold asset_fails in Ef. unfold entry_row in Er.
      destruct (entry_id guess_type slugify a); discriminate.
Qed.

(** X21: the manifest is, in order, the row of each selected asset (its
    relative path, its id, the media type guessed from its path, the
    property detected in its markup), then the navigation document when no
    selected page is one, then the NCX when no selected asset is one, then
    the cover when a cover path is given. *)
Theorem manifest_rows
    (media_info : MediaInfo Format) (openbook : OpenBook)
    (roster : list Asset) (cover_path : string) (m : list ManifestEntry) :
  manifest guess_type slugify decode_markup extract_isbn EBookOverdrive
    MagazineOverDrive media_info openbook roster cover_path = Some m ->
  exists ms,
    Forall2 (fun a e => entry_row guess_type slugify decode_markup a = Some e)
      (selected guess_type media_info (toc_pages_of (nav_toc openbook)) roster) ms /\
    m = ms
        ++ synthesized_entries
             (existsb (is_nav_page guess_type decode_markup)
                (selected guess_type media_info (toc_pages_of (nav_toc openbook)) roster))
             (existsb (is_ncx guess_type)
                (selected guess_type media_info (toc_pages_of (nav_toc openbook)) roster))
             cover_path.
Proof.
  intros H. apply manifest_shape in H. destruct H as (st & Hst & ->).
  pose proof (process_entries_rows media_info
                (selected guess_type media_info (toc_pages_of (nav_toc openbook)) roster)
                (mkAssembly [] false false)) as Hrows.
  rewrite Hst in Hrows. destruct Hrows as (_ & ms & Hall & Hm & Hncx & Hnav).
  simpl in Hm, Hncx, Hnav. exists ms. split; [exact Hall|].
  rewrite Hm, Hncx, Hnav. reflexivity.
Qed.

(** X22: the run raises before the package is written exactly when the
    loop raises on a selected asset (no id can be made of its path, or the
    patch of a fetched page raises), or when no selected asset is an NCX
    and [openbook] has no creator for the one that is synthesized. *)
Theorem manifest_raises
    (media_info : MediaInfo Format) (openbook : OpenBook)
    (roster : list Asset) (cover_path : string) :
  manifest guess_type slugify decode_markup extract_isbn EBookOverdrive
    MagazineOverDrive media_info openbook roster cover_path = None <->
  existsb (asset_fails guess_type slugify decode_markup)
    (selected guess_type media_info (toc_pages_of (nav_toc openbook)) roster) = true \/
  (existsb (is_ncx guess_type)
     (selected guess_type media_info (toc_pages_of (nav_toc openbook)) roster) = false /\
   creator_names openbook = []).
Proof.
  unfold manifest.
  pose proof (process_entries_rows media_info
                (selected guess_type media_info (toc_pages_of (nav_toc openbook)) roster)
                (mkAssembly [] false false)) as Hrows.
  destruct (process_entries _ _ _ _ _ _) as [st|].
  - destruct Hrows as (Hf & ms & _ & _ & Hncx & _). simpl in Hncx.
    rewrite Hf, <- Hncx. unfold _build_ncx.
    destruct (has_ncx st).
    + split; [discriminate|]. intros [H|[H _]]; discriminate.
    + destruct (creator_names openbook) as [|name names].
      * split; [intros _; right; split; reflexivity | reflexivity].
      * split; [discriminate|]. intros [H|[_ H]]; discriminate.
  - split; [intros _; left; exact Hrows | reflexivity].
Qed.

End ManifestRowsProperties.

Lemma manifest_rows_witness :
  exists ms,
    Forall2 (fun a e => entry_row sample_guess_type sample_slugify
                          sample_decode_markup a = Some e)
      (selected sample_guess_type sample_magazine
         (toc_pages_of (nav_toc sample_openbook))
         [mkAsset (mkRemoteEntry "/stories/a.xhtml") false inner_page;
          mkAsset (mkRemoteEntry "/stories/b.xhtml") false inner_page]) ms /\
    [mkManifestEntry "stories/a.xhtml" "storiesaxhtml"
       (Some "application/xhtml+xml") None;
     nav_entry; ncx_entry; cover_entry]
    = ms ++ synthesized_entries false false "cover.jpg".
Proof.
  apply (manifest_rows sample_guess_type sample_slugify sample_decode_markup
           sample_extract_isbn "ebook-overdrive" "magazine-overdrive"
           sample_magazine sample_openbook
           [mkAsset (mkRemoteEntry "/stories/a.xhtml") false inner_page;
            mkAsset (mkRemoteEntry "/stories/b.xhtml") false inner_page]
           "cover.jpg").
  vm_compute. reflexivity.
Defined.

(** ** The item references of the spine *)

(** X23: the test that skips spine entries when the item references are
    written never fires: the entries it would skip were filtered out before
    the sort, so the spine is the sorted list as it is. *)
Theorem spine_skip_never_taken
    (t : LibbyMediaTypes) (toc_pages : list string) (spine : list SpineEntry) :
  spine_order t toc_pages spine
  = sort_spine toc_pages (filter (spine_kept t toc_pages) spine).
Proof.
  unfold spine_order.
  set (kept := filter (spine_kept t toc_pages) spine).
  assert (Hall : Forall (fun e => spine_kept t toc_pages e = true)
                   (sort_spine toc_pages kept)).
  { apply Forall_forall. intros e He. apply sort_spine_In in He.
    apply filter_In in He. apply He. }
  induction Hall as [|e l He _ IH]; simpl; [reflexivity|].
  rewrite He, IH. reflexivity.
Qed.

Section SpineReferences.

Variable guess_type : string -> option string.
Variable slugify : string -> string.
Variable decode_markup : string -> option Bs4.soup.
Context {Format : Type}.
Variable extract_isbn : list Format -> list string -> option string.
Variables EBookOverdrive MagazineOverDrive : string.

(** X24: an id that [_sanitise_opf_id] returns is not empty and does not
    start with a digit: it is the slug of the path behind [id_] when the
    slug starts with a digit, and the slug as it is when it does not. *)
Theorem sanitised_id_shape (string_id i : string) :
  _sanitise_opf_id slugify string_id = Some i ->
  match i with
  | EmptyString => False
  | String c _ => Py.isdigit c = false
  end /\
  match slugify string_id with
  | EmptyString => False
  | String c _ =>
      (Py.isdigit c = true /\ i = ("id_" ++ slugify string_id)%string) \/
      (Py.isdigit c = false /\ i = slugify string_id)
  end.
Proof.
  unfold _sanitise_opf_id. destruct (slugify string_id) as [|c r]; [discriminate|].
  destruct (Py.isdigit c) eqn:E; intros [= <-].
  - split; [reflexivity | left; split; reflexivity].
  - split; [exact E | right; split; reflexivity].
Qed.

(** X25: the item reference of a spine entry resolves: when a selected
    asset that is not an NCX has the path of the spine entry, the [idref]
    written for the spine entry is the id of an item of the manifest. *)
Theorem spine_idref_resolves
    (media_info : MediaInfo Format) (openbook : OpenBook)
    (roster : list Asset) (cover_path : string) (m : list ManifestEntry)
    (a : Asset) (s : SpineEntry) :
  manifest guess_type slugify decode_markup extract_isbn EBookOverdrive
    MagazineOverDrive media_info openbook roster cover_path = Some m ->
  In a (selected guess_type media_info (toc_pages_of (nav_toc openbook)) roster) ->
  is_ncx guess_type a = false ->
  Py.tail (url_path (entry a)) = odread_original_path s ->
  exists i,
    _sanitise_opf_id slugify (odread_original_path s) = Some i /\
    In i (map id m).
Proof.
  intros H Ha Hncx Hpath.
  apply manifest_shape in H. destruct H as (st & Hst & ->).
  pose proof (process_entries_rows guess_type slugify decode_markup media_info
                (selected guess_type media_info (toc_pages_of (nav_toc openbook)) roster)
                (mkAssembly [] false false)) as Hrows.
  rewrite Hst in Hrows. destruct Hrows as (_ & ms & Hall & Hm & _ & _).
  simpl in Hm. rewrite Hm.
  assert (E : exists e, entry_row guess_type slugify decode_markup a = Some e /\ In e ms).
  { clear Hm Hst. induction Hall as [|a' e' l ms' He' _ IH]; [contradiction|].
    destruct Ha as [->|Ha].
    - exists e'. split; [exact He' | left; reflexivity].
    - destruct (IH Ha) as (e & He & Hin). exists e. split; [exact He | right; exact Hin]. }
  destruct E as (e & He & Hin).
  unfold entry_row, entry_id in He. unfold is_ncx in Hncx. rewrite Hncx in He.
  rewrite Hpath in He.
  destruct (_sanitise_opf_id slugify (odread_original_path s)) as [i|]; [|discriminate].
  exists i. split; [reflexivity|].
  injection He as <-. rewrite !map_app, !in_app_iff. left.
  change i with (id (mkManifestEntry (odread_original_path s) i
                       (guess_type (odread_original_path s))
                       (if is_xhtml guess_type a
                        then match inspected_markup decode_markup a with
                             | Some soup => detected_properties soup
                             | None => None
                             end
                        else None))).
  apply in_map. rewrite <- Hpath at 1 2. rewrite Hpath. exact Hin.
Qed.

End SpineReferences.

Lemma sanitised_id_shape_witness :
  match "id_1Cover" with
  | EmptyString => False
  | String c _ => Py.isdigit c = false
  end /\
  match sample_slugify "1 Cover" with
  | EmptyString => False
  | String c _ =>
      (Py.isdigit c = true
       /\ "id_1Cover" = ("id_" ++ sample_slugify "1 Cover")%string) \/
      (Py.isdigit c = false /\ "id_1Cover" = sample_slugify "1 Cover")
  end.
Proof.
  apply (sanitised_id_shape sample_slugify "1 Cover" "id_1Cover").
  vm_compute. reflexivity.
Defined.

Lemma spine_idref_resolves_witness :
  exists i,
    _sanitise_opf_id sample_slugify
      (odread_original_path (mkSpineEntry "stories/a.xhtml" 0)) = Some i /\
    In i (map id
            [mkManifestEntry "stories/a.xhtml" "storiesaxhtml"
               (Some "application/xhtml+xml") None;
             nav_entry; ncx_entry; cover_entry]).
Proof.
  apply (spine_idref_resolves sample_guess_type sample_slugify sample_decode_markup
           sample_extract_isbn "ebook-overdrive" "magazine-overdrive"
           sample_magazine sample_openbook
           [mkAsset (mkRemoteEntry "/stories/a.xhtml") false inner_page;
            mkAsset (mkRemoteEntry "/stories/b.xhtml") false inner_page]
           "cover.jpg" _
           (mkAsset (mkRemoteEntry "/stories/a.xhtml") false inner_page)
           (mkSpineEntry "stories/a.xhtml" 0)).
  - vm_compute. reflexivity.
  - vm_compute. left. reflexivity.
  - vm_compute. reflexivity.
  - reflexivity.
Defined.

(** ** The table of contents *)





(** ** The synthesized navigation document *)

(** X27: the loop over the table of contents appends to the list of the
    navigation document, behind what it holds, one list item for each item
    of the table, in its order, each with one link that has the path of
    the item as its target and the title of the item as its text. *)
Theorem nav_list_mirrors_toc
    (openbook_toc : list TocItem) (nav_soup : Bs4.soup)
    (name : string) (a : Bs4.attrs) (contents : list Bs4.node) :
  Bs4.find (Bs4.has_attr "id" "toc") nav_soup = Some (Bs4.Tag name a contents) ->
  exists nav_soup',
    append_toc_items nav_soup openbook_toc = Some nav_soup' /\
    Bs4.find (Bs4.has_attr "id" "toc") nav_soup'
    = Some (Bs4.Tag name a (contents ++ map toc_li openbook_toc)).
Proof.
  unfold append_toc_items.
  revert nav_soup contents.
  induction openbook_toc as [|item toc IH]; intros nav_soup contents Hfind; simpl.
  - exists nav_soup. rewrite app_nil_r. split; [reflexivity | exact Hfind].
  - pose proof (find_selected _ _ _ Hfind) as Hsel.
    destruct (update_find (Bs4.has_attr "id" "toc") (append_child (toc_li item))
                nav_soup (Bs4.Tag name a contents) Hfind Hsel) as (s' & Hu & Hf).
    rewrite Hu. simpl in Hf.
    destruct (IH s' (contents ++ [toc_li item]) Hf) as (s'' & Hfold & Hfind').
    exists s''. split; [exact Hfold|].
    rewrite Hfind', <- app_assoc. reflexivity.
Qed.

Lemma nav_list_mirrors_toc_witness :
  exists nav_soup',
    append_toc_items sample_nav_soup
      [mkTocItem "Cover" "cover.xhtml"; mkTocItem "One" "stories/1.xhtml#top"]
    = Some nav_soup' /\
    Bs4.find (Bs4.has_attr "id" "toc") nav_soup'
    = Some (Bs4.Tag "ol" [("id", "toc")]
              ([] ++ map toc_li [mkTocItem "Cover" "cover.xhtml";
                                 mkTocItem "One" "stories/1.xhtml#top"])).
Proof.
  apply (nav_list_mirrors_toc
           [mkTocItem "Cover" "cover.xhtml"; mkTocItem "One" "stories/1.xhtml#top"]
           sample_nav_soup "ol" [("id", "toc")] []).
  reflexivity.
Defined.

(** ** The second run of the patcher *)

Section SubtreeCleanup.

Import Bs4.

Variable f : head -> head.
Variable b : node.
Hypothesis b_kept : is_named "base" (map_tags f b) = false.

Let fixed (h : head) : Prop := f h = h.
Let other (h : head) : Prop := String.eqb (fst h) "base" = false.
Let b' : node := decompose_in "base" (map_tags f b).

Lemma kept_of_other (c : node) : Forall other (heads c) -> is_named "base" c = false.
Proof.
  destruct c as [name a contents| |]; simpl; [|reflexivity|reflexivity].
  intros H. inversion H as [|h hs Hh _]; subst. exact Hh.
Qed.

Lemma update_cleaned_list (l : list node) :
  Forall
    (fun c =>
       forall c',
         Forall fixed (heads c) -> Forall other (heads c) ->
         update_in (named "body") (fun _ => b) c = Some c' ->
         update_in (named "body") (fun _ => b') c
         = Some (decompose_in "base" (map_tags f c')) /\
         is_named "base" (map_tags f c') = false) l ->
  forall l',
    Forall fixed (soup_heads l) -> Forall other (soup_heads l) ->
    update (named "body") (fun _ => b) l = Some l' ->
    update (named "body") (fun _ => b') l
    = Some (decompose_all "base" (map_soup f l')).
Proof.
  induction 1 as [|c l Hc _ IH]; intros l' Hf Ho; simpl; [discriminate|].
  unfold soup_heads in Hf, Ho. simpl in Hf, Ho.
  apply Forall_app in Hf. destruct Hf as [Hf1 Hf2].
  apply Forall_app in Ho. destruct Ho as [Ho1 Ho2].
  destruct (update_in (named "body") (fun _ => b) c) as [c'|] eqn:Ec.
  - intros [= <-]. destruct (Hc c' Hf1 Ho1 eq_refl) as [-> Hk].
    unfold decompose_all, map_soup. simpl.
    rewrite is_named_decompose_in, Hk. simpl. do 2 f_equal.
    symmetry. change (decompose_all "base" (map_soup f l) = l).
    rewrite (map_soup_fixed f l Hf2). apply decompose_all_fixed, Ho2.
  - assert (Ec' : update_in (named "body") (fun _ => b') c = None).
    { apply update_in_none. apply (update_in_none (named "body") (fun _ => b)). exact Ec. }
    rewrite Ec'.
    destruct (update (named "body") (fun _ => b) l) as [l0|] eqn:El; [|discriminate].
    intros [= <-]. rewrite (IH l0 Hf2 Ho2 eq_refl).
    unfold decompose_all, map_soup. simpl.
    rewrite (map_tags_fixed f c Hf1), is_named_decompose_in, (kept_of_other c Ho1).
    simpl. rewrite (decompose_in_fixed "base" c Ho1). reflexivity.
Qed.

Lemma update_in_cleaned (n : node) :
  forall n',
    Forall fixed (heads n) -> Forall other (heads n) ->
    update_in (named "body") (fun _ => b) n = Some n' ->
    update_in (named "body") (fun _ => b') n
    = Some (decompose_in "base" (map_tags f n')) /\
    is_named "base" (map_tags f n') = false.
Proof.
  induction n as [name a contents IH|s|k s] using node_induction;
    intros n' Hf Ho; [|discriminate|discriminate].
  rewrite !update_in_tag. destruct (named "body" (name, a)) eqn:Eq.
  - intros [= <-]. split; [reflexivity | exact b_kept].
  - destruct (update (named "body") (fun _ => b) contents) as [contents'|] eqn:Ec;
      [|discriminate].
    intros [= <-].
    inversion Hf as [|h hs Hh Hfs]; subst. inversion Ho as [|h hs Hk Hos]; subst.
    rewrite (update_cleaned_list contents IH contents' Hfs Hos Ec).
    simpl. unfold fixed in Hh. rewrite Hh. simpl. split; [reflexivity | exact Hk].
Qed.

(** In a document that the loops leave as it is, the loops over the
    document with another body give the document with the body that the
    loops make of that one. *)
Lemma update_cleaned (s s' : soup) :
  Forall fixed (soup_heads s) -> Forall other (soup_heads s) ->
  update (named "body") (fun _ => b) s = Some s' ->
  update (named "body") (fun _ => b') s = Some (decompose_all "base" (map_soup f s')).
Proof.
  intros Hf Ho. apply update_cleaned_list; [|exact Hf|exact Ho].
  apply Forall_forall. intros c _ c'. apply update_in_cleaned.
Qed.

End SubtreeCleanup.

Section FirstTagSame.

Import Bs4.

Variable p : head -> bool.

Lemma update_same_list (l : list node) :
  Forall
    (fun c => forall t, find_in p c = Some t -> update_in p (fun _ => t) c = Some c) l ->
  forall t, find p l = Some t -> update p (fun _ => t) l = Some l.
Proof.
  induction 1 as [|c l Hc _ IH]; intros t; simpl; [discriminate|].
  destruct (find_in p c) as [t'|] eqn:Ec.
  - intros [= <-]. rewrite (Hc t' eq_refl). reflexivity.
  - intros Hl.
    assert (Eu : update_in p (fun _ => t) c = None) by (apply update_in_none; exact Ec).
    rewrite Eu, (IH t Hl). reflexivity.
Qed.

Lemma update_in_same (n : node) :
  forall t, find_in p n = Some t -> update_in p (fun _ => t) n = Some n.
Proof.
  induction n as [name a contents IH|s|k s] using node_induction;
    intros t; [|discriminate|discriminate].
  rewrite find_in_tag, update_in_tag. destruct (p (name, a)).
  - intros [= <-]. reflexivity.
  - intros H. rewrite (update_same_list contents IH t H). reflexivity.
Qed.

(** Replacing the first selected tag by itself changes nothing. *)
Lemma update_same (s : soup) (t : node) :
  find p s = Some t -> update p (fun _ => t) s = Some s.
Proof.
  apply update_same_list. apply Forall_forall. intros c _. apply update_in_same.
Qed.

End FirstTagSame.

(** The loops over all tags leave a body a body. *)
Lemma cleaned_body_kept (version : string) (n : Bs4.node) :
  selected_by (Bs4.named "body") n ->
  Bs4.is_named "base" (Bs4.map_tags (cleanup_head version) n) = false.
Proof.
  destruct n as [name a contents| |]; simpl; [|contradiction|contradiction].
  unfold Bs4.named. simpl. intros H. apply String.eqb_eq in H. subst name.
  rewrite cleanup_head_closed. simpl.
  destruct (clean_name_cases (String.eqb version "2.0") "body") as [->|(-> & _)];
    reflexivity.
Qed.

(** The second run on a patched page: the body that it decodes goes
    through the loops alone. *)
Lemma second_run_replaces_body
    (decode_markup : string -> option Bs4.soup)
    (soup cleaned new_soup : Bs4.soup) (script_ele new_body old_body : Bs4.node)
    (rest : string) (g : Re.groups) :
  patch_xhtml decode_markup soup = Some cleaned ->
  Bs4.find is_script cleaned = Some script_ele ->
  Re.search contents_re (script_text script_ele) = Some (rest, g) ->
  decode_markup (Re.group 1 g) = Some new_soup ->
  Bs4.find (Bs4.named "body") new_soup = Some new_body ->
  Bs4.find (Bs4.named "body") cleaned = Some old_body ->
  exists replaced,
    Bs4.update (Bs4.named "body") (fun _ => cleanup_node epub_version new_body) cleaned
    = Some replaced /\
    patch_xhtml decode_markup cleaned = Some (set_html_namespace replaced).
Proof.
  intros Hp Hs Hre Hd Hnew Hold.
  assert (Hc : exists s1, cleaned = _cleanup_soup s1 epub_version).
  { unfold patch_xhtml in Hp.
    destruct (embedded_body decode_markup soup) as [s1|]; [|discriminate].
    injection Hp as <-. exists s1. reflexivity. }
  destruct Hc as [s1 Hc].
  destruct (Bs4.update (Bs4.named "body") (fun _ => new_body) cleaned) as [s2|] eqn:Eu.
  - pose proof (update_cleaned (cleanup_head epub_version) new_body
                  (cleaned_body_kept epub_version new_body
                     (find_selected _ _ _ Hnew))
                  cleaned s2) as Hu.
    exists (Bs4.decompose_all "base" (Bs4.map_soup (cleanup_head epub_version) s2)).
    split.
    + apply Hu; [| |exact Eu]; rewrite Hc.
      * apply cleanup_heads_all; [apply cleanup_head_idem | intros a v; apply cleanup_head_html].
      * apply cleanup_no_base.
    + unfold patch_xhtml, embedded_body. rewrite Hs.
      fold (script_text script_ele). rewrite Hre, Hd, Hnew, Eu.
      rewrite cleanup_steps. reflexivity.
  - apply update_none in Eu. rewrite Eu in Hold. discriminate.
Qed.

(** C7, amended: the structural cleanup of a cleaned document, in either
    version, leaves it as it is.  A second run of the patcher on a patched
    page, decode step included, leaves the page as it is when its first
    script holds no payload.  When it holds one, the second run gives the
    page with its first body replaced by the decoded body as the cleanup
    leaves it, and with the namespace of its first [html] element set; so
    it leaves the page as it is when that body is the one in place. *)
Theorem cleanup_twice_is_cleanup (soup : Bs4.soup) (version : string) :
  _cleanup_soup (_cleanup_soup soup version) version = _cleanup_soup soup version /\
  forall (decode_markup : string -> option Bs4.soup) (cleaned : Bs4.soup),
    patch_xhtml decode_markup soup = Some cleaned ->
    (Bs4.find is_script cleaned = None \/
     (exists script_ele,
         Bs4.find is_script cleaned = Some script_ele /\
         Re.search contents_re (script_text script_ele) = None) ->
     patch_xhtml decode_markup cleaned = Some cleaned) /\
    forall (script_ele new_body old_body : Bs4.node) (new_soup : Bs4.soup)
           (rest : string) (g : Re.groups),
      Bs4.find is_script cleaned = Some script_ele ->
      Re.search contents_re (script_text script_ele) = Some (rest, g) ->
      decode_markup (Re.group 1 g) = Some new_soup ->
      Bs4.find (Bs4.named "body") new_soup = Some new_body ->
      Bs4.find (Bs4.named "body") cleaned = Some old_body ->
      exists replaced,
        Bs4.update (Bs4.named "body")
          (fun _ => cleanup_node epub_version new_body) cleaned = Some replaced /\
        patch_xhtml decode_markup cleaned = Some (set_html_namespace replaced) /\
        (cleanup_node epub_version new_body = old_body ->
         patch_xhtml decode_markup cleaned = Some cleaned).
Proof.
  split; [apply cleanup_idempotent|].
  intros decode_markup cleaned Hp.
  assert (Hc : _cleanup_soup cleaned epub_version = cleaned
               /\ set_html_namespace cleaned = cleaned).
  { unfold patch_xhtml in Hp.
    destruct (embedded_body decode_markup soup) as [s1|]; [|discriminate].
    injection Hp as <-. split; [apply cleanup_idempotent|].
    rewrite cleanup_steps. apply set_html_namespace_idem. }
  destruct Hc as [Hc Hh].
  split.
  - intros H. unfold patch_xhtml, embedded_body.
    destruct H as [H|(script_ele & H & Hre)]; rewrite H.
    + rewrite Hc. reflexivity.
    + fold (script_text script_ele). rewrite Hre, Hc. reflexivity.
  - intros script_ele new_body old_body new_soup rest g Hs Hre Hd Hnew Hold.
    destruct (second_run_replaces_body decode_markup soup cleaned new_soup
                script_ele new_body old_body rest g Hp Hs Hre Hd Hnew Hold)
      as (replaced & Hu & Hr).
    exists replaced. split; [exact Hu|]. split; [exact Hr|].
    intros E. rewrite E in Hu.
    rewrite (update_same (Bs4.named "body") cleaned old_body Hold) in Hu.
    injection Hu as <-. rewrite Hr, Hh. reflexivity.
Qed.

Lemma cleanup_twice_is_cleanup_witness :
  _cleanup_soup (_cleanup_soup head_script_page "2.0") "2.0"
  = _cleanup_soup head_script_page "2.0" /\
  patch_xhtml sample_decode_figure head_script_cleaned = Some head_script_cleaned.
Proof.
  destruct (cleanup_twice_is_cleanup head_script_page "2.0") as [Hc Hp].
  split; [exact Hc|].
  destruct (Hp sample_decode_figure head_script_cleaned) as [_ Hsecond].
  - vm_compute. reflexivity.
  - destruct (Hsecond (script_with payload_figure)
                (Bs4.Tag "body" []
                   [Bs4.Tag "figure" []
                      [Bs4.Tag "svg" [] [];
                       Bs4.Tag "figcaption" [] [Bs4.Str Bs4.Text "plate"]]])
                (Bs4.Tag "body" []
                   [Bs4.Tag "figure" []
                      [Bs4.Tag "svg" [("xmlns", "http://www.w3.org/2000/svg");
                                      ("xmlns:xlink", "http://www.w3.org/1999/xlink")] [];
                       Bs4.Tag "div" [] [Bs4.Str Bs4.Text "plate"]]])
                figure_page EmptyString [(1%nat, payload_figure)])
      as (replaced & _ & _ & Hsame).
    + vm_compute. reflexivity.
    + vm_compute. reflexivity.
    + vm_compute. reflexivity.
    + vm_compute. reflexivity.
    + vm_compute. reflexivity.
    + apply Hsame. vm_compute. reflexivity.
Defined.

(** The decode step of the second run does change that page: it puts the
    decoded body in place, which the cleanup then changes back. *)
Lemma head_script_decoded_again :
  embedded_body sample_decode_figure head_script_cleaned <> Some head_script_cleaned.
Proof. vm_compute. discriminate. Qed.
